(** * BioMonkey: the SRA acquisition and quality-gate pipeline

    A shallow embedding of [sra_downloader.py] (the pipeline) and of the
    counting loop of [app.py] (the monitor), with the properties of the
    pipeline stated and proved over it.

    The outside world (file system, log, HTTP traffic, shell commands) is an
    explicit state threaded through a small state-and-exception monad; the
    NCBI servers and the FastQC executable are oracles of an environment. *)

From Stdlib Require Import ZArith String Ascii List Bool Lia.
From stdpp Require Import base option gmap strings list fin_maps pretty.

Open Scope string_scope.
Open Scope list_scope.
Open Scope Z_scope.

(** ** Python string operations *)

Module PyStr.

Definition slash : ascii := "/"%char.
Definition newline : ascii := "010"%char.

(** [s.startswith(pre)] *)
Fixpoint startswith (s pre : string) {struct pre} : bool :=
  match pre with
  | EmptyString => true
  | String c pre' =>
      match s with
      | EmptyString => false
      | String d s' => if Ascii.eqb c d then startswith s' pre' else false
      end
  end.

(** [needle in hay] *)
Fixpoint str_in (needle hay : string) : bool :=
  startswith hay needle ||
  match hay with
  | EmptyString => false
  | String _ hay' => str_in needle hay'
  end.

(** [c in s] for a single character *)
Fixpoint has_char (c : ascii) (s : string) : bool :=
  match s with
  | EmptyString => false
  | String d s' => Ascii.eqb c d || has_char c s'
  end.

Definition endswith_slash (s : string) : bool :=
  match String.get (String.length s - 1) s with
  | Some c => Ascii.eqb c slash
  | None => false
  end.

(** [posixpath.join(a, b)] *)
Definition os_path_join (a b : string) : string :=
  if startswith b "/" then b
  else if String.eqb a "" || endswith_slash a then a +:+ b
  else a +:+ "/" +:+ b.

(** [posixpath.basename(p)]: what follows the last slash. *)
Fixpoint os_path_basename (p : string) : string :=
  match p with
  | EmptyString => ""
  | String c r =>
      if has_char slash r then os_path_basename r
      else if Ascii.eqb c slash then r else p
  end.

(** [p[:p.rfind('/') + 1]] *)
Fixpoint upto_last_slash (p : string) : string :=
  match p with
  | EmptyString => ""
  | String c r =>
      if has_char slash r then String c (upto_last_slash r)
      else if Ascii.eqb c slash then "/" else ""
  end.

Fixpoint all_slashes (s : string) : bool :=
  match s with
  | EmptyString => true
  | String c r => Ascii.eqb c slash && all_slashes r
  end.

(** [s.rstrip('/')] *)
Fixpoint rstrip_slash (s : string) : string :=
  match s with
  | EmptyString => ""
  | String c r =>
      let r' := rstrip_slash r in
      if Ascii.eqb c slash && String.eqb r' "" then "" else String c r'
  end.

(** [posixpath.dirname(p)] *)
Definition os_path_dirname (p : string) : string :=
  let head := upto_last_slash p in
  if all_slashes head then head else rstrip_slash head.

(** [s.replace(old, new)] for a non-empty [old]: [skip] counts the
    characters of a match that are still to be dropped. *)
Fixpoint replace_from (old new s : string) (skip : nat) : string :=
  match s with
  | EmptyString => ""
  | String c r =>
      match skip with
      | S k => replace_from old new r k
      | O =>
          if startswith s old
          then new +:+ replace_from old new r (String.length old - 1)
          else String c (replace_from old new r 0)
      end
  end.

Definition replace (s old new : string) : string := replace_from old new s 0.

(** ASCII white space, as [str.isspace] sees it *)
Definition is_space (c : ascii) : bool :=
  let n := nat_of_ascii c in
  ((9 <=? n) && (n <=? 13) || (28 <=? n) && (n <=? 32))%nat.

Fixpoint lstrip (s : string) : string :=
  match s with
  | EmptyString => ""
  | String c r => if is_space c then lstrip r else s
  end.

Fixpoint rstrip (s : string) : string :=
  match s with
  | EmptyString => ""
  | String c r =>
      let r' := rstrip r in
      if is_space c && String.eqb r' "" then "" else String c r'
  end.

(** [s.strip()] *)
Definition strip (s : string) : string := rstrip (lstrip s).

(** [s.split('\n')] *)
Fixpoint split_lines (s : string) : list string :=
  match s with
  | EmptyString => [""]
  | String c r =>
      if Ascii.eqb c newline then "" :: split_lines r
      else match split_lines r with
           | [] => [String c ""]
           | l :: ls => String c l :: ls
           end
  end.

(** The lines a text file yields when iterated: each keeps its newline. *)
Fixpoint file_lines (s : string) : list string :=
  match s with
  | EmptyString => []
  | String c r =>
      if Ascii.eqb c newline then String c "" :: file_lines r
      else match file_lines r with
           | [] => [String c ""]
           | l :: ls => String c l :: ls
           end
  end.

End PyStr.
Import PyStr.

(** ** The outside world *)

(** The file system is flat: a finite map from paths to the content of the
    regular file stored there. Directories are implicit: a directory exists
    when some file lies beneath it, so creating one changes nothing. *)

Inductive Level := INFO | WARNING | ERROR.

Inductive Request :=
| HEAD (url : string)
| GET (url : string).

Record World := mkWorld {
  fs : gmap string string;        (* path -> file content *)
  log : list (Level * string);    (* records handed to [logging], oldest first *)
  requests : list Request;        (* HTTP requests sent, oldest first *)
  commands : list string          (* commands run by [os.system], oldest first *)
}.

Definition set_fs (f : gmap string string → gmap string string) (w : World) : World :=
  mkWorld (f (fs w)) (log w) (requests w) (commands w).

(** [under d p]: path [p] is [d] itself or lies beneath directory [d]. *)
Definition under (d p : string) : bool :=
  String.eqb p d || startswith p (d +:+ "/").

Definition beneath (d : string) (fs : gmap string string) : gmap string string :=
  filter (λ kv, under d kv.1 = true) fs.

Definition path_exists (fs : gmap string string) (p : string) : bool :=
  bool_decide (beneath p fs ≠ ∅).

Definition remove_tree (d : string) (fs : gmap string string) : gmap string string :=
  filter (λ kv, under d kv.1 = false) fs.

(** ** State and exceptions *)

Inductive result (A : Type) :=
| Ok (a : A)
| Raise (e : string).
Arguments Ok {A} a.
Arguments Raise {A} e.

(** A computation reads and changes the world and either returns a value or
    raises an exception, of which only [str(e)] is kept. *)
Definition M (A : Type) : Type := World → result A * World.

Definition ret {A} (a : A) : M A := λ w, (Ok a, w).

Definition bind {A B} (m : M A) (k : A → M B) : M B :=
  λ w, match m w with
       | (Ok a, w') => k a w'
       | (Raise e, w') => (Raise e, w')
       end.

Definition raise {A} (e : string) : M A := λ w, (Raise e, w).

(** [try: m  except Exception as e: h e] *)
Definition try_except {A} (m : M A) (h : string → M A) : M A :=
  λ w, match m w with
       | (Ok a, w') => (Ok a, w')
       | (Raise e, w') => h e w'
       end.

(** [try: m  finally: f] *)
Definition try_finally {A} (m : M A) (f : M unit) : M A :=
  λ w, match m w with
       | (r, w') =>
           match f w' with
           | (Ok _, w'') => (r, w'')
           | (Raise e, w'') => (Raise e, w'')
           end
       end.

Notation "'do' x <- m ; k" := (bind m (λ x, k))
  (at level 10, x name, m at level 100, k at level 200, only parsing).
Notation "m >> k" := (bind m (λ _, k))
  (at level 100, k at level 200, right associativity, only parsing).

Definition when (b : bool) (m : M unit) : M unit := if b then m else ret tt.

(** *** Primitive effects *)

Definition logging (lvl : Level) (msg : string) : M unit :=
  λ w, (Ok tt, mkWorld (fs w) (log w ++ [(lvl, msg)]) (requests w) (commands w)).

Definition os_path_exists (p : string) : M bool :=
  λ w, (Ok (path_exists (fs w) p), w).

Definition os_remove (p : string) : M unit :=
  λ w, (Ok tt, set_fs (delete p) w).

Definition shutil_rmtree (d : string) : M unit :=
  λ w, (Ok tt, set_fs (remove_tree d) w).

(** [os.makedirs(d, exist_ok=True)], the first call of a run, in [main]:
    [exist_ok] lets an existing folder pass, not a regular file standing at
    [d], for which the call raises [FileExistsError]. *)
Definition os_makedirs_exist_ok (d : string) : M unit :=
  λ w, match fs w !! d with
       | Some _ => (Raise ("[Errno 17] File exists: '" +:+ d +:+ "'"), w)
       | None => (Ok tt, w)
       end.

(** The same call inside a page and inside the gate, on the download folder
    that [main] has created by then and on the two folders the gate makes
    for itself: these are taken to be free of regular files, so that the
    call changes nothing. *)
Definition os_makedirs (d : string) : M unit := ret tt.

(** [open(p, 'wb')]: create the file, or truncate it. *)
Definition open_wb (p : string) : M unit :=
  λ w, (Ok tt, set_fs (<[p := ""]>) w).

(** [f.write(chunk)] *)
Definition write (p chunk : string) : M unit :=
  λ w, (Ok tt, set_fs (<[p := default "" (fs w !! p) +:+ chunk]>) w).

(** [os.path.getsize(p)] *)
Definition os_path_getsize (p : string) : M Z :=
  λ w, match fs w !! p with
       | Some c => (Ok (Z.of_nat (String.length c)), w)
       | None => (Raise "FileNotFoundError", w)
       end.

(** [open(p, 'r')] followed by the iteration over its lines *)
Definition read_lines (p : string) : M (list string) :=
  λ w, match fs w !! p with
       | Some c => (Ok (file_lines c), w)
       | None => (Raise "OSError", w)
       end.

(** [shutil.copy2(src, dst)] *)
Definition copy2 (src dst : string) : M unit :=
  λ w, match fs w !! src with
       | Some c =>
           if String.eqb src dst then (Raise "SameFileError", w)
           else (Ok tt, set_fs (<[dst := c]>) w)
       | None => (Raise "FileNotFoundError", w)
       end.

(** ** The environment: NCBI and FastQC *)

(** Answer to the [HEAD] probe: an exception, or headers with an optional
    [content-length]. *)
Inductive HeadResponse :=
| HeadRaises (e : string)
| HeadHeaders (content_length : option Z).

(** Answer to the streaming [GET]: an exception before any byte arrives
    (connection error, or [raise_for_status] on a bad status), or the chunks
    that [iter_content] yields, after which the stream ends normally
    ([None]) or breaks with an exception ([Some e]). *)
Inductive GetResponse :=
| GetRaises (e : string)
| GetBody (chunks : list string) (broken : option string).

(** Answer of the catalog to a plain [GET]: no answer at all (the request
    raises), or a status code with the body as the XML parser delivers it:
    the parsed value, or the parser's exception. *)
Inductive CatalogResponse (A : Type) :=
| NoResponse (e : string)
| Response (status_code : Z) (body : result A).
Arguments NoResponse {A} e.
Arguments Response {A} status_code body.

Record Env := mkEnv {
  fastqc_path : string;                       (* FASTQC_PATH *)
  http_head : string → HeadResponse;          (* by URL *)
  http_get : string → GetResponse;            (* by URL *)
  fastqc : string → list (string * string);   (* input path -> extracted files *)
  read_fault : string → option string;        (* reading this file raises *)
  copy_fault : string → option string;        (* copying this file raises *)
  esearch : string → CatalogResponse (Z * list Z);   (* by URL: Count and Ids *)
  efetch : string → CatalogResponse (list (gmap string string));  (* by URL: Rows *)
  json_dumps : list (gmap string string) → string;
  fastqc_archive : string → option (string * string)
                                              (* input path -> archive and HTML page *)
}.

Definition NCBI_TRACE_BASEURL : string :=
  "https://trace.ncbi.nlm.nih.gov/Traces/sra-reads-be/fastq?acc=".
Definition GZ_TEMP_FOLDER : string := "temp_gz_files".
Definition FASTQ_TEMP_FOLDER : string := "fastqc_temp".
Definition CLEAN_DATASET_FOLDER : string := "clean_datasets".

Definition requests_head (env : Env) (url : string) : M (option Z) :=
  λ w, let w' := mkWorld (fs w) (log w) (requests w ++ [HEAD url]) (commands w) in
       match http_head env url with
       | HeadRaises e => (Raise e, w')
       | HeadHeaders cl => (Ok cl, w')
       end.

(** [requests.get(url, stream=True)] and [r.raise_for_status()] *)
Definition requests_get (env : Env) (url : string) : M (list string * option string) :=
  λ w, let w' := mkWorld (fs w) (log w) (requests w ++ [GET url]) (commands w) in
       match http_get env url with
       | GetRaises e => (Raise e, w')
       | GetBody chunks broken => (Ok (chunks, broken), w')
       end.

(** [for chunk in r.iter_content(...): f.write(chunk)] *)
Fixpoint write_chunks (p : string) (chunks : list string) (broken : option string) : M unit :=
  match chunks with
  | [] => match broken with Some e => raise e | None => ret tt end
  | chunk :: rest => write p chunk >> write_chunks p rest broken
  end.

(** ** Fetch stage *)

Definition size_mismatch (actual_size total_size : Z) : string :=
  "Downloaded file size (" +:+ pretty actual_size +:+
  ") is less than expected (" +:+ pretty total_size +:+ ")".

Definition blob_name (sra_id : string) : string := sra_id +:+ ".fastq.gz".

(** A row of run information is the dictionary built by [get_sraid_from_uid]. *)
Definition download_single_sra_file (env : Env) (run_info : gmap string string)
    (output_dir : string) : M (string * bool) :=
  match run_info !! "run" with
  | None =>
      (* KeyError inside the try; the handler's message then reads the
         unbound [sra_id], and that error leaves the function *)
      raise "UnboundLocalError"
  | Some sra_id =>
      let trace_url := NCBI_TRACE_BASEURL +:+ sra_id in
      let sra_file_name := blob_name sra_id in
      let sra_file_path := os_path_join output_dir sra_file_name in
      try_except
        (do present <- os_path_exists sra_file_path;
         if present then
           logging INFO ("File " +:+ sra_file_name +:+ " already exists, skipping...") >>
           ret (sra_id, true)
         else
           do content_length <- requests_head env trace_url;
           let total_size := default 0 content_length in
           do body <- requests_get env trace_url;
           open_wb sra_file_path >>
           write_chunks sra_file_path body.1 body.2 >>
           do actual_size <- os_path_getsize sra_file_path;
           if actual_size <? total_size then raise (size_mismatch actual_size total_size)
           else
             logging INFO ("Successfully downloaded " +:+ sra_file_name) >>
             ret (sra_id, true))
        (λ e,
           logging ERROR ("Failed to download " +:+ sra_id +:+ ": " +:+ e) >>
           do present <- os_path_exists sra_file_path;
           when present (os_remove sra_file_path) >>
           ret (sra_id, false))
  end.

(** ** Quality gate *)

(** The directory in which FastQC, run with [--extract], leaves its report
    for input file [fastq_gz_file_path]. *)
Definition results_dir (fastqc_output_dir fastq_gz_file_path : string) : string :=
  let fastq_filename := os_path_basename fastq_gz_file_path in
  let fastqc_results_name := replace fastq_filename ".fastq.gz" "_fastqc" in
  os_path_join fastqc_output_dir fastqc_results_name.

Definition extract (dir : string) (files : list (string * string))
    (fs : gmap string string) : gmap string string :=
  foldr (λ f acc, <[dir +:+ "/" +:+ f.1 := f.2]> acc) fs files.

(** What FastQC leaves in its output folder beside the extracted directory
    [dir]: the archive [dir.zip] and the page [dir.html].  The command line
    has [--extract] and no [--delete], so the archive stays when it has been
    unpacked. *)
Definition beside (dir : string) (archive : option (string * string))
    (fs : gmap string string) : gmap string string :=
  match archive with
  | Some (zip, html) => <[dir +:+ ".zip" := zip]> (<[dir +:+ ".html" := html]> fs)
  | None => fs
  end.

(** [os.system(cmd)] for the FastQC command line: the command is recorded;
    the archive and the page the tool makes for this input appear in the
    output folder, and the files of the unpacked archive in the results
    directory. The exit status is ignored by the caller. *)
Definition os_system (env : Env) (cmd input output_dir : string) : M unit :=
  λ w, let dir := results_dir output_dir input in
       (Ok tt,
        mkWorld (extract dir (fastqc env input) (beside dir (fastqc_archive env input) (fs w)))
                (log w) (requests w) (commands w ++ [cmd])).

Definition faulty (fault : option string) : M unit :=
  match fault with
  | Some e => raise e
  | None => ret tt
  end.

Definition run_fastqc_and_save_in_clean_dataset_folder_if_all_params_in_summary_txt_file_are_NOT_FAIL
    (env : Env) (fastq_gz_file_path temp_output_dir clean_dataset_dir : string) : M bool :=
  let fastqc_output_dir := os_path_join temp_output_dir FASTQ_TEMP_FOLDER in
  let fastq_filename := os_path_basename fastq_gz_file_path in
  let fastqc_results_dir := results_dir fastqc_output_dir fastq_gz_file_path in
  os_makedirs fastqc_output_dir >>
  try_finally
    (try_except
       (let fastqc_cmd :=
          fastqc_path env +:+ " " +:+ fastq_gz_file_path +:+ " -o " +:+
          fastqc_output_dir +:+ " --extract" in
        logging INFO ("Running FastQC: " +:+ fastqc_cmd) >>
        os_system env fastqc_cmd fastq_gz_file_path fastqc_output_dir >>
        let summary_file := os_path_join fastqc_results_dir "summary.txt" in
        do present <- os_path_exists summary_file;
        if negb present then
          logging ERROR ("FastQC summary file not found: " +:+ summary_file) >>
          ret false
        else
          faulty (read_fault env summary_file) >>
          do lines <- read_lines summary_file;
          match find (str_in "FAIL") lines with
          | Some line =>
              logging INFO ("FastQC found quality issues in " +:+ fastq_filename +:+
                            ": " +:+ strip line) >>
              ret false
          | None =>
              os_makedirs clean_dataset_dir >>
              let clean_file_path := os_path_join clean_dataset_dir fastq_filename in
              faulty (copy_fault env fastq_gz_file_path) >>
              copy2 fastq_gz_file_path clean_file_path >>
              logging INFO ("File passed quality check and copied to clean dataset folder: "
                            +:+ clean_file_path) >>
              ret true
          end)
       (λ e,
          logging ERROR ("Error running FastQC on " +:+ fastq_gz_file_path +:+ ": " +:+ e) >>
          ret false))
    (do present <- os_path_exists fastqc_results_dir;
     when present (shutil_rmtree fastqc_results_dir)).

Definition process_downloaded_file (env : Env)
    (sra_id gz_file_path clean_dataset_dir : string) : M bool :=
  try_finally
    (try_except
       (do present <- os_path_exists gz_file_path;
        if negb present then ret false
        else
          let temp_output_dir := os_path_dirname gz_file_path in
          do passed <-
            run_fastqc_and_save_in_clean_dataset_folder_if_all_params_in_summary_txt_file_are_NOT_FAIL
              env gz_file_path temp_output_dir clean_dataset_dir;
          if passed then
            logging INFO ("File " +:+ sra_id +:+ " passed quality check") >>
            ret true
          else ret false)
       (λ e,
          logging ERROR ("Error processing file " +:+ sra_id +:+ ": " +:+ e) >>
          ret false))
    (do present <- os_path_exists gz_file_path;
     when present (os_remove gz_file_path)).

(** ** One page: the worker pool and the completion loop *)

(** The pool runs the submitted download tasks on its worker threads while
    the main thread takes finished futures from [as_completed] and gates
    them. An execution is a schedule of two kinds of events; which schedule
    happens is up to the thread scheduler and the network. *)
Inductive Event :=
| Download (i : nat)    (* a worker runs task [i] *)
| Complete (i : nat).   (* [as_completed] yields future [i] to the main thread *)

Record Page := mkPage {
  futures : gmap nat (result (string * bool));   (* finished tasks *)
  yielded : gset nat;                            (* futures already yielded *)
  main_thread : result (list string)             (* [processed_files], or the
                                                    exception that left the loop *)
}.

(** The body of [for future in as_completed(...)] *)
Definition completion (env : Env) (output_dir clean_dataset_dir : string)
    (outcome : result (string * bool)) (processed_files : list string) : M (list string) :=
  match outcome with
  | Raise e => raise e                (* [future.result()] re-raises *)
  | Ok (sra_id, success) =>
      if success then
        let gz_file_path := os_path_join output_dir (blob_name sra_id) in
        do passed <- process_downloaded_file env sra_id gz_file_path clean_dataset_dir;
        if passed then ret (processed_files ++ [sra_id])%list else ret processed_files
      else ret processed_files
  end.

Definition page_step (env : Env) (run_info_list : list (gmap string string))
    (output_dir clean_dataset_dir : string) (ev : Event) (pg : Page) (w : World)
    : Page * World :=
  match ev with
  | Download i =>
      match run_info_list !! i, futures pg !! i with
      | Some run_info, None =>
          let '(r, w') := download_single_sra_file env run_info output_dir w in
          (mkPage (<[i := r]> (futures pg)) (yielded pg) (main_thread pg), w')
      | _, _ => (pg, w)
      end
  | Complete i =>
      match futures pg !! i, main_thread pg with
      | Some outcome, Ok processed_files =>
          if decide (i ∈ yielded pg) then (pg, w)
          else
            let '(r, w') :=
              completion env output_dir clean_dataset_dir outcome processed_files w in
            (mkPage (futures pg) ({[i]} ∪ yielded pg) r, w')
      | _, _ => (pg, w)
      end
  end.

Fixpoint run_schedule (env : Env) (run_info_list : list (gmap string string))
    (output_dir clean_dataset_dir : string) (sched : list Event) (pg : Page) (w : World)
    : Page * World :=
  match sched with
  | [] => (pg, w)
  | ev :: rest =>
      let '(pg', w') := page_step env run_info_list output_dir clean_dataset_dir ev pg w in
      run_schedule env run_info_list output_dir clean_dataset_dir rest pg' w'
  end.

(** The rows submitted to the pool: building [future_to_sra] stops with a
    [KeyError] at the first row without a ['run'] entry, after that row's
    task has been submitted. *)
Fixpoint submitted (run_info_list : list (gmap string string)) : nat * bool :=
  match run_info_list with
  | [] => (O, true)
  | run_info :: rest =>
      match run_info !! "run" with
      | None => (1%nat, false)
      | Some _ => let '(n, ok) := submitted rest in (S n, ok)
      end
  end.

Definition download_and_process_parallel (env : Env)
    (run_info_list : list (gmap string string)) (output_dir clean_dataset_dir : string)
    (sched : list Event) : M (list string) :=
  os_makedirs output_dir >>
  let '(n, all_submitted) := submitted run_info_list in
  let start := mkPage ∅ ∅ (if all_submitted then Ok [] else Raise "KeyError: 'run'") in
  λ w, let '(pg, w') :=
         run_schedule env (take n run_info_list) output_dir clean_dataset_dir sched start w in
       (main_thread pg, w').

(** A schedule is complete for [n] tasks when every task runs and its future
    is yielded afterwards, as the executor and [as_completed] guarantee. *)
Definition is_complete (i : nat) (ev : Event) : bool :=
  match ev with Complete j => Nat.eqb i j | Download _ => false end.

Fixpoint served (i : nat) (sched : list Event) : bool :=
  match sched with
  | [] => false
  | Download j :: rest => if Nat.eqb i j then existsb (is_complete i) rest else served i rest
  | Complete _ :: rest => served i rest
  end.

Definition complete_schedule (n : nat) (sched : list Event) : bool :=
  forallb (λ i, served i sched) (seq 0 n).

(** ** Catalog client *)

Definition NCBI_EUTILS_BASEURL : string :=
  "https://eutils.ncbi.nlm.nih.gov/entrez/eutils/".

Definition catalog_get {A} (oracle : string → CatalogResponse A) (url : string) : M A :=
  λ w, let w' := mkWorld (fs w) (log w) (requests w ++ [GET url]) (commands w) in
       match oracle url with
       | NoResponse e => (Raise e, w')
       | Response status_code body =>
           if negb (status_code =? 200) then
             let msg := "Failed to fetch data from NCBI: " +:+ pretty status_code in
             (logging ERROR msg >> raise msg) w'
           else
             match body with
             | Ok a => (Ok a, w')
             | Raise e => (Raise e, w')
             end
       end.

Definition get_uid_from_term (env : Env) (term : string) (retmax retstart : Z)
    : M (list Z * Z * Z) :=
  let url := NCBI_EUTILS_BASEURL +:+ "esearch.fcgi?db=sra&term=" +:+ term +:+
             "&retmax=" +:+ pretty retmax +:+ "&retstart=" +:+ pretty retstart in
  do found <- catalog_get (esearch env) url;
  let maximum_count := found.1 in
  let previous_start := retstart in
  let uids := found.2 in
  ret (uids, maximum_count, previous_start).

Definition get_sraid_from_uid (env : Env) (uid_list : list Z)
    : M (list (gmap string string)) :=
  let url := NCBI_EUTILS_BASEURL +:+ "efetch.fcgi?db=sra&id=" +:+
             String.concat "," (map pretty uid_list) +:+ "&rettype=runinfo&retmode=xml" in
  do run_info_list <- catalog_get (efetch env) url;
  logging INFO ("Run info list: " +:+ json_dumps env run_info_list) >>
  ret run_info_list.

(** ** Acquisition controller *)

Definition batch_size : Z := 10.

Record Cursor := mkCursor {
  retstart : Z;
  clean_datasets_count : Z
}.

(** The [try] block of the [while] loop. The environment of the pass and the
    schedule of its page are given. The result tells whether the loop is
    left by [break], and the cursor after the pass. *)
Definition main_try (env : Env) (sched : list Event) (search_term : string)
    (num_clean_datasets : Z) (c : Cursor) : M (bool * Cursor) :=
  do found <- get_uid_from_term env search_term batch_size (retstart c);
  let '(uids, max_count, _) := found in
  match uids with
  | [] =>
      logging WARNING "No more datasets available from the search term" >>
      ret (true, c)
  | _ :: _ =>
      do run_info_list <- get_sraid_from_uid env uids;
      do processed_files <-
        download_and_process_parallel env run_info_list GZ_TEMP_FOLDER
          CLEAN_DATASET_FOLDER sched;
      let count := clean_datasets_count c + Z.of_nat (length processed_files) in
      logging INFO ("Clean datasets collected: " +:+ pretty count +:+ "/" +:+
                    pretty num_clean_datasets) >>
      if count >=? num_clean_datasets then ret (true, mkCursor (retstart c) count)
      else
        let retstart' := retstart c + batch_size in
        if retstart' >=? max_count then
          logging WARNING "Reached the end of available datasets" >>
          ret (true, mkCursor retstart' count)
        else ret (false, mkCursor retstart' count)
  end.

(** One pass through the body of the [while] loop: the [try] block, and the
    handler that logs the error and goes on with the next pass. *)
Definition main_body (env : Env) (sched : list Event) (search_term : string)
    (num_clean_datasets : Z) (c : Cursor) : M (bool * Cursor) :=
  try_except
    (main_try env sched search_term num_clean_datasets c)
    (λ e,
       logging ERROR ("Error in main processing loop: " +:+ e) >>
       ret (false, c)).

(** How a run stands: the loop was left after [passes] passes through its
    body with the given cursor, or the passes provided ran out with the loop
    still going. *)
Inductive Run :=
| Left (passes : nat) (c : Cursor)
| Going (c : Cursor).

(** The [while] loop, for as many passes as [rounds] provides. *)
Fixpoint main_loop (rounds : list (Env * list Event)) (search_term : string)
    (num_clean_datasets : Z) (passes : nat) (c : Cursor) : M Run :=
  if clean_datasets_count c <? num_clean_datasets then
    match rounds with
    | [] => ret (Going c)
    | (env, sched) :: rest =>
        do r <- main_body env sched search_term num_clean_datasets c;
        if r.1 then ret (Left (S passes) r.2)
        else main_loop rest search_term num_clean_datasets (S passes) r.2
    end
  else ret (Left passes c).

Definition main (rounds : list (Env * list Event)) (search_term : string)
    (num_clean_datasets : Z) : M Run :=
  logging INFO ("Starting download process for term: " +:+ search_term +:+ ", target: " +:+
                pretty num_clean_datasets +:+ " clean datasets") >>
  os_makedirs_exist_ok GZ_TEMP_FOLDER >>
  do run <- main_loop rounds search_term num_clean_datasets 0 (mkCursor 0 0);
  match run with
  | Going _ => ret run
  | Left _ c =>
      let count := clean_datasets_count c in
      logging INFO ("Process completed. Collected " +:+ pretty count +:+ " clean datasets") >>
      when (count <? num_clean_datasets)
        (logging WARNING ("Could only collect " +:+ pretty count +:+
                          " clean datasets out of requested " +:+ pretty num_clean_datasets)) >>
      ret run
  end.

(** The terminal states of the controller: the run is over, with the target
    met or not. *)
Inductive Terminal := DoneSuccess | DonePartial.

Definition terminal (num_clean_datasets : Z) (run : Run) : option Terminal :=
  match run with
  | Going _ => None
  | Left _ c =>
      if clean_datasets_count c <? num_clean_datasets then Some DonePartial
      else Some DoneSuccess
  end.

(** ** The monitor ([app.py]) *)

Definition levelname (lvl : Level) : string :=
  match lvl with
  | INFO => "INFO"
  | WARNING => "WARNING"
  | ERROR => "ERROR"
  end.

(** The log file as the [FileHandler] writes it, one record per line in the
    format ['%(asctime)s - %(levelname)s - %(message)s']; [asctime k] is the
    time stamp of record [k]. *)
Definition format_record (stamp : string) (r : Level * string) : string :=
  stamp +:+ " - " +:+ levelname r.1 +:+ " - " +:+ r.2.

Fixpoint log_file_from (asctime : nat → string) (k : nat) (records : list (Level * string))
    : string :=
  match records with
  | [] => ""
  | r :: rest =>
      format_record (asctime k) r +:+ String newline "" +:+
      log_file_from asctime (S k) rest
  end.

Definition log_file (asctime : nat → string) (records : list (Level * string)) : string :=
  log_file_from asctime 0 records.

Record Counters := mkCounters {
  total_checked : Z;
  current_clean : Z
}.

(** The two counting branches of the loop over the lines of the log *)
Definition count_line (cs : Counters) (line : string) : Counters :=
  if str_in "FastQC found quality issues" line then
    mkCounters (total_checked cs + 1) (current_clean cs)
  else if str_in "File passed quality check" line then
    mkCounters (total_checked cs + 1) (current_clean cs + 1)
  else cs.

(** [for line in log_content.split('\n'): ...] *)
Definition scan_log (log_content : string) (cs : Counters) : Counters :=
  fold_left count_line (split_lines log_content) cs.

(** The polling loop: each element of [snapshots] is the content of the log
    file at one poll; the counters start at zero and are carried from poll
    to poll. *)
Definition monitor (snapshots : list string) : Counters :=
  fold_left (λ cs log_content, scan_log log_content cs) snapshots (mkCounters 0 0).

(** * Properties *)

(** ** Strings *)

#[local] Arguments Ascii.eqb : simpl never.

Section Strings.

Lemma append_nil (a : string) : "" +:+ a = a.
Proof. reflexivity. Qed.

Lemma append_cons (x : ascii) (a b : string) :
  String x a +:+ b = String x (a +:+ b).
Proof. reflexivity. Qed.

Lemma append_assoc (a b c : string) : (a +:+ b) +:+ c = a +:+ (b +:+ c).
Proof.
  induction a as [|x a IH]; [reflexivity |].
  rewrite !append_cons. f_equal. exact IH.
Qed.

Lemma append_empty_r (a : string) : a +:+ "" = a.
Proof.
  induction a as [|x a IH]; [reflexivity |].
  rewrite append_cons. f_equal. exact IH.
Qed.

Lemma length_append (a b : string) :
  String.length (a +:+ b) = (String.length a + String.length b)%nat.
Proof.
  induction a as [|x a IH]; [reflexivity |].
  rewrite append_cons. simpl. f_equal. exact IH.
Qed.

Lemma startswith_append (a b : string) : startswith (a +:+ b) a = true.
Proof.
  induction a as [|x a IH]; [reflexivity |].
  rewrite append_cons. simpl. now rewrite Ascii.eqb_refl.
Qed.

Lemma startswith_refl (a : string) : startswith a a = true.
Proof.
  induction a as [|x a IH]; [reflexivity |].
  simpl. now rewrite Ascii.eqb_refl.
Qed.

Lemma startswith_cons_inv (q r : string) (c : ascii) :
  startswith q (String c r) = true → ∃ q', q = String c q' ∧ startswith q' r = true.
Proof.
  destruct q as [|d q']; simpl; [discriminate |].
  destruct (Ascii.eqb_spec c d) as [->|]; [| discriminate].
  intros H. exists q'. split; [reflexivity | exact H].
Qed.

(** A prefix of a prefix *)
Lemma startswith_append_l (q a b : string) :
  startswith q (a +:+ b) = true → startswith q a = true.
Proof.
  revert q. induction a as [|x a IH]; intros q; [reflexivity |].
  rewrite append_cons. intros H.
  apply startswith_cons_inv in H as (q' & -> & H).
  simpl. rewrite Ascii.eqb_refl. now apply IH.
Qed.

Lemma startswith_cancel (a s t : string) :
  startswith (a +:+ s) (a +:+ t) = startswith s t.
Proof.
  induction a as [|x a IH]; [reflexivity |].
  rewrite !append_cons. simpl. now rewrite Ascii.eqb_refl.
Qed.

(** Two prefixes of one string: one is a prefix of the other. *)
Lemma startswith_comparable (q a b : string) :
  startswith q a = true → startswith q b = true →
  startswith a b = true ∨ startswith b a = true.
Proof.
  revert q b. induction a as [|x a IH]; intros q b Ha Hb.
  - right. reflexivity.
  - destruct b as [|y b]; [left; reflexivity |].
    apply startswith_cons_inv in Ha as (q1 & -> & Ha).
    apply startswith_cons_inv in Hb as (q2 & [= -> ->] & Hb).
    simpl. rewrite Ascii.eqb_refl. eapply IH; eassumption.
Qed.

Lemma has_char_append (c : ascii) (a b : string) :
  has_char c (a +:+ b) = has_char c a || has_char c b.
Proof.
  induction a as [|x a IH]; [reflexivity |].
  rewrite append_cons. simpl. rewrite IH. now rewrite orb_assoc.
Qed.

(** A character of a prefix occurs in the whole. *)
Lemma startswith_has_char (c : ascii) (s t : string) :
  startswith s t = true → has_char c t = true → has_char c s = true.
Proof.
  revert s. induction t as [|y t IH]; intros s Hs Ht; [discriminate |].
  apply startswith_cons_inv in Hs as (s' & -> & Hs).
  simpl in *. destruct (Ascii.eqb c y); [reflexivity |].
  simpl in *. now apply IH.
Qed.

Lemma append_inv_tail (a b s : string) : a +:+ s = b +:+ s → a = b.
Proof.
  revert b. induction a as [|x a IH]; intros [|y b] H.
  - reflexivity.
  - exfalso. apply (f_equal String.length) in H.
    rewrite append_nil, append_cons in H. simpl in H.
    rewrite length_append in H. lia.
  - exfalso. apply (f_equal String.length) in H.
    rewrite append_nil, append_cons in H. simpl in H.
    rewrite length_append in H. lia.
  - rewrite !append_cons in H. injection H as -> H. f_equal. now apply IH.
Qed.

Lemma append_inv_head (s a b : string) : s +:+ a = s +:+ b → a = b.
Proof.
  induction s as [|x s IH]; [trivial |].
  rewrite !append_cons. intros [= H]. now apply IH.
Qed.

Lemma under_refl (d : string) : under d d = true.
Proof. unfold under. now rewrite String.eqb_refl. Qed.

Lemma under_child (d name : string) : under d (d +:+ "/" +:+ name) = true.
Proof.
  unfold under.
  replace (d +:+ "/" +:+ name) with ((d +:+ "/") +:+ name)
    by apply append_assoc.
  rewrite startswith_append. apply orb_true_r.
Qed.

Lemma under_startswith (d q : string) : under d q = true → startswith q d = true.
Proof.
  unfold under. intros H. apply orb_true_iff in H as [H|H].
  - apply String.eqb_eq in H. subst. apply startswith_refl.
  - eapply startswith_append_l. exact H.
Qed.

End Strings.

(** ** The file system *)

Section FileSystem.

Implicit Types (fs : gmap string string) (p d : string).

Lemma lookup_path_exists fs p c : fs !! p = Some c → path_exists fs p = true.
Proof.
  intros Hp. unfold path_exists, beneath. apply bool_decide_eq_true.
  intros Hempty.
  assert (Hin : filter (λ kv : string * string, under p kv.1 = true) fs !! p = Some c).
  { apply map_lookup_filter_Some. split; [exact Hp | apply under_refl]. }
  rewrite Hempty, lookup_empty in Hin. discriminate.
Qed.

Lemma path_absent_beneath fs d q :
  path_exists fs d = false → under d q = true → fs !! q = None.
Proof.
  unfold path_exists, beneath. intros Hd Hq.
  apply bool_decide_eq_false in Hd.
  destruct (fs !! q) as [c|] eqn:E; [|reflexivity].
  exfalso. apply Hd. intros Hempty.
  assert (Hin : filter (λ kv : string * string, under d kv.1 = true) fs !! q = Some c).
  { apply map_lookup_filter_Some. split; assumption. }
  rewrite Hempty, lookup_empty in Hin. discriminate.
Qed.

Lemma path_absent_lookup fs p : path_exists fs p = false → fs !! p = None.
Proof. intros H. eapply path_absent_beneath; [exact H | apply under_refl]. Qed.

Lemma remove_tree_beneath fs d q : under d q = true → remove_tree d fs !! q = None.
Proof.
  intros Hq. unfold remove_tree. apply map_lookup_filter_None. right.
  intros c _. simpl. rewrite Hq. discriminate.
Qed.

Lemma remove_tree_outside fs d q :
  under d q = false → remove_tree d fs !! q = fs !! q.
Proof.
  intros Hq. unfold remove_tree.
  destruct (fs !! q) as [c|] eqn:E.
  - apply map_lookup_filter_Some. split; [exact E | exact Hq].
  - apply map_lookup_filter_None. left. exact E.
Qed.

Lemma extract_outside fs d files q :
  under d q = false → extract d files fs !! q = fs !! q.
Proof.
  intros Hq. induction files as [|[name c] files IH]; simpl; [reflexivity |].
  rewrite lookup_insert_ne; [exact IH |].
  intros Heq. subst q. simpl in Hq. rewrite under_child in Hq. discriminate.
Qed.

(** The two files the inspector leaves beside its directory [dir] *)
Definition left_beside (dir q : string) : bool :=
  String.eqb q (dir +:+ ".zip") || String.eqb q (dir +:+ ".html").

Lemma left_beside_spec (dir q : string) :
  left_beside dir q = true → q = dir +:+ ".zip" ∨ q = dir +:+ ".html".
Proof.
  unfold left_beside. intros H. apply orb_true_iff in H as [H|H];
    apply String.eqb_eq in H; auto.
Qed.

Lemma beside_outside fs dir archive q :
  left_beside dir q = false → beside dir archive fs !! q = fs !! q.
Proof.
  unfold left_beside, beside. intros H. apply orb_false_iff in H as [Hz Hh].
  apply String.eqb_neq in Hz, Hh.
  destruct archive as [[zip html]|]; [| reflexivity].
  rewrite !lookup_insert_ne by congruence. reflexivity.
Qed.

Lemma beside_some fs dir archive q :
  is_Some (fs !! q) → is_Some (beside dir archive fs !! q).
Proof.
  unfold beside. intros H. destruct archive as [[zip html]|]; [| exact H].
  destruct (decide (dir +:+ ".zip" = q)) as [->|Hz]; [rewrite lookup_insert_eq; eauto |].
  rewrite lookup_insert_ne by exact Hz.
  destruct (decide (dir +:+ ".html" = q)) as [->|Hh]; [rewrite lookup_insert_eq; eauto |].
  now rewrite lookup_insert_ne.
Qed.

Lemma beside_not_under (dir tail : string) :
  tail = ".zip" ∨ tail = ".html" → under dir (dir +:+ tail) = false.
Proof.
  intros Ht. unfold under. apply orb_false_iff. split.
  - apply String.eqb_neq. intros H. apply (f_equal String.length) in H.
    rewrite length_append in H. destruct Ht as [-> | ->]; simpl in H; lia.
  - rewrite startswith_cancel. destruct Ht as [-> | ->]; reflexivity.
Qed.

Lemma beside_written fs dir zip html :
  beside dir (Some (zip, html)) fs !! (dir +:+ ".zip") = Some zip ∧
  beside dir (Some (zip, html)) fs !! (dir +:+ ".html") = Some html.
Proof.
  unfold beside. split; [apply lookup_insert_eq |].
  rewrite lookup_insert_ne; [apply lookup_insert_eq |].
  intros H. apply append_inv_head in H. discriminate H.
Qed.

End FileSystem.

(** ** Fetch stage *)

Section Fetch.

Variable env : Env.
Variables (run_info : gmap string string) (output_dir sra_id : string).
Hypothesis Hrun : run_info !! "run" = Some sra_id.

Let url := NCBI_TRACE_BASEURL +:+ sra_id.
Let path := os_path_join output_dir (blob_name sra_id).

Lemma write_chunks_spec (chunks : list string) (broken : option string) (c0 : string) :
  ∀ w, fs w !! path = Some c0 →
    write_chunks path chunks broken w =
      (match broken with Some e => Raise e | None => Ok tt end,
       set_fs (<[path := c0 +:+ String.concat "" chunks]>) w).
Proof.
  revert c0. induction chunks as [|chunk rest IH]; intros c0 w Hw; simpl.
  - rewrite append_empty_r.
    assert (Hid : set_fs (<[path := c0]>) w = w).
    { destruct w as [f l r c]. unfold set_fs. simpl in *. f_equal.
      now apply insert_id. }
    rewrite Hid. destruct broken; reflexivity.
  - unfold bind, write. rewrite Hw. simpl.
    rewrite (IH (c0 +:+ chunk)).
    + f_equal. destruct w as [f l r c]. unfold set_fs. simpl. f_equal.
      rewrite insert_insert_eq. f_equal.
      destruct rest as [|r1 rest']; simpl.
      * now rewrite append_empty_r.
      * now rewrite append_assoc.
    + simpl. apply lookup_insert_eq.
Qed.

(** The blob is already there: success at once, one log record, nothing else. *)
Lemma download_existing (w : World) :
  path_exists (fs w) path = true →
  download_single_sra_file env run_info output_dir w =
    (Ok (sra_id, true),
     mkWorld (fs w)
             (log w ++ [(INFO, "File " +:+ blob_name sra_id +:+ " already exists, skipping...")])
             (requests w) (commands w)).
Proof.
  intros Hex. unfold download_single_sra_file. rewrite Hrun.
  unfold try_except, bind, os_path_exists. fold path. rewrite Hex.
  reflexivity.
Qed.

(** The blob is not there and the body stream ends normally. *)
Lemma download_streamed (w : World) (cl : option Z) (chunks : list string) :
  path_exists (fs w) path = false →
  http_head env url = HeadHeaders cl →
  http_get env url = GetBody chunks None →
  let body := String.concat "" chunks in
  let actual_size := Z.of_nat (String.length body) in
  let total_size := default 0 cl in
  download_single_sra_file env run_info output_dir w =
    if actual_size <? total_size then
      (Ok (sra_id, false),
       mkWorld (fs w)
               (log w ++ [(ERROR, "Failed to download " +:+ sra_id +:+ ": " +:+
                                  size_mismatch actual_size total_size)])
               ((requests w ++ [HEAD url]) ++ [GET url]) (commands w))
    else
      (Ok (sra_id, true),
       mkWorld (<[path := body]> (fs w))
               (log w ++ [(INFO, "Successfully downloaded " +:+ blob_name sra_id)])
               ((requests w ++ [HEAD url]) ++ [GET url]) (commands w)).
Proof.
  intros Hex Hhead Hget body actual_size total_size.
  unfold download_single_sra_file. rewrite Hrun.
  unfold try_except, bind at 1, os_path_exists. fold path url. rewrite Hex.
  unfold bind at 1, requests_head. rewrite Hhead.
  unfold bind at 1, requests_get. simpl. rewrite Hget.
  unfold bind at 1, open_wb. simpl.
  unfold bind at 1.
  rewrite (write_chunks_spec chunks None "") by (simpl; apply lookup_insert_eq).
  rewrite append_nil.
  simpl. unfold bind at 1, os_path_getsize. simpl.
  rewrite lookup_insert_eq. fold body actual_size total_size.
  destruct (actual_size <? total_size) eqn:Hlt.
  - unfold raise, bind, logging, os_path_exists, when. simpl.
    rewrite (lookup_path_exists _ _ body) by apply lookup_insert_eq.
    unfold os_remove, ret, set_fs. simpl. f_equal. f_equal.
    rewrite insert_insert_eq.
    apply delete_insert_id. now apply path_absent_lookup.
  - unfold bind, logging, ret. simpl. f_equal. f_equal.
    now rewrite insert_insert_eq.
Qed.

End Fetch.

(** *** Scenarios used to exercise the statements *)

Module Scenario.

Definition row (sra_id : string) : gmap string string := {[ "run" := sra_id ]}.

Definition summary_ok : string :=
  "PASS	Basic Statistics	SRR1.fastq.gz" +:+ String newline "" +:+
  "WARN	Per base sequence content	SRR1.fastq.gz" +:+ String newline "".

Definition summary_bad : string :=
  "PASS	Basic Statistics	SRR1.fastq.gz" +:+ String newline "" +:+
  "FAIL	Per base sequence quality	SRR1.fastq.gz" +:+ String newline "".

(** An environment whose probe declares [declared] bytes, whose body is
    [chunks], and whose inspector extracts [report] and leaves nothing
    beside it. *)
Definition env_of (declared : option Z) (chunks : list string)
    (report : list (string * string)) (uids : list Z) (total : Z)
    (rows : list (gmap string string)) : Env :=
  mkEnv "fastqc"
        (λ _, HeadHeaders declared)
        (λ _, GetBody chunks None)
        (λ _, report)
        (λ _, None) (λ _, None)
        (λ _, Response 200 (Ok (total, uids)))
        (λ _, Response 200 (Ok rows))
        (λ _, "[]")
        (λ _, None).

Definition plain_env (declared : option Z) (chunks : list string) : Env :=
  env_of declared chunks [("summary.txt", summary_ok)] [] 0 [].

Definition empty_world : World := mkWorld ∅ [] [] [].

(** A page of [n] runs SRR0, SRR1, ... found among [total] entries, all
    downloaded before any is gated, then gated last to first; every report
    is clean. *)
Definition run_ids (n : nat) : list string := map (λ k : nat, "SRR" +:+ pretty k) (seq 0 n).

Definition page_env (n : nat) (total : Z) : Env :=
  env_of None ["reads"] [("summary.txt", summary_ok)]
         (map Z.of_nat (seq 100 n)) total (map row (run_ids n)).

Definition page_sched (n : nat) : list Event :=
  (map Download (seq 0 n) ++ map Complete (rev (seq 0 n)))%list.

(** A catalog that answers every search with status 500 *)
Definition broken_env : Env :=
  mkEnv "fastqc" (λ _, HeadHeaders None) (λ _, GetBody [] None) (λ _, [])
        (λ _, None) (λ _, None)
        (λ _, Response 500 (Raise "no body")) (λ _, Response 500 (Raise "no body"))
        (λ _, "[]") (λ _, None).

(** A catalog that has nothing (left) for the search term *)
Definition barren_env : Env := env_of None [] [] [] 0 [].

(** A page of five runs with five fates: SRR1 passes; the download of SRR2
    breaks; the report of SRR3 has a FAIL line; the inspector leaves no
    report for SRR4, and no archive; reading the report of SRR5 raises. *)
Definition mixed_ids : list string := ["SRR1"; "SRR2"; "SRR3"; "SRR4"; "SRR5"].

Definition mixed_rows : list (gmap string string) := map row mixed_ids.

Definition mixed_env : Env :=
  mkEnv "fastqc"
        (λ _, HeadHeaders (Some 5))
        (λ url, if String.eqb url (NCBI_TRACE_BASEURL +:+ "SRR2")
                then GetRaises "ConnectionError" else GetBody ["reads"] None)
        (λ input, if String.eqb input "temp_gz_files/SRR3.fastq.gz"
                  then [("summary.txt", summary_bad)]
                  else if String.eqb input "temp_gz_files/SRR4.fastq.gz" then []
                  else [("summary.txt", summary_ok); ("fastqc_data.txt", "data")])
        (λ p, if String.eqb p "temp_gz_files/fastqc_temp/SRR5_fastqc/summary.txt"
              then Some "UnicodeDecodeError" else None)
        (λ _, None)
        (λ _, Response 200 (Ok (5, [1; 2; 3; 4; 5])))
        (λ _, Response 200 (Ok mixed_rows))
        (λ _, "[]")
        (λ input, if String.eqb input "temp_gz_files/SRR4.fastq.gz" then None
                  else Some ("PK", "<html></html>")).

Definition mixed_sched : list Event :=
  [Download 0; Download 1; Complete 1; Download 2; Complete 0;
   Download 3; Download 4; Complete 3; Complete 2; Complete 4].

Definition clock (k : nat) : string := "2025-02-21 00:46:00,123".

Definition world_with (files : list (string * string)) : World :=
  mkWorld (list_to_map files) [] [] [].

End Scenario.

Section FetchClaims.

(** C5. When the blob of an identifier already exists at the local path
    [output_dir/<identifier>.fastq.gz], the fetch stage succeeds at once:
    it sends no request and leaves the file system as it was; run once
    more, it succeeds again in the same way. *)
Theorem fetch_skips_existing_blob (env env' : Env) (run_info : gmap string string)
    (output_dir sra_id : string) (w : World) :
  run_info !! "run" = Some sra_id →
  path_exists (fs w) (os_path_join output_dir (sra_id +:+ ".fastq.gz")) = true →
  ∃ w1 w2,
    download_single_sra_file env run_info output_dir w = (Ok (sra_id, true), w1) ∧
    fs w1 = fs w ∧ requests w1 = requests w ∧
    download_single_sra_file env' run_info output_dir w1 = (Ok (sra_id, true), w2) ∧
    fs w2 = fs w ∧ requests w2 = requests w.
Proof.
  intros Hrun Hex.
  pose proof (download_existing env run_info output_dir sra_id Hrun w Hex) as H1.
  eexists. eexists. split; [exact H1 |].
  split; [reflexivity |]. split; [reflexivity |].
  split.
  - apply (download_existing env' run_info output_dir sra_id Hrun). exact Hex.
  - split; reflexivity.
Qed.

Lemma fetch_skips_existing_blob_witness :
  ∃ w1 w2,
    download_single_sra_file (Scenario.plain_env (Some 4) ["data"]) (Scenario.row "SRR1")
      GZ_TEMP_FOLDER (Scenario.world_with [("temp_gz_files/SRR1.fastq.gz", "data")])
      = (Ok ("SRR1", true), w1) ∧
    fs w1 = fs (Scenario.world_with [("temp_gz_files/SRR1.fastq.gz", "data")]) ∧
    requests w1 = [] ∧
    download_single_sra_file (Scenario.plain_env None []) (Scenario.row "SRR1")
      GZ_TEMP_FOLDER w1 = (Ok ("SRR1", true), w2) ∧
    fs w2 = fs (Scenario.world_with [("temp_gz_files/SRR1.fastq.gz", "data")]) ∧
    requests w2 = [].
Proof.
  apply (fetch_skips_existing_blob (Scenario.plain_env (Some 4) ["data"])
           (Scenario.plain_env None []) (Scenario.row "SRR1") GZ_TEMP_FOLDER "SRR1").
  - reflexivity.
  - vm_compute. reflexivity.
Defined.

(** C6. When fewer bytes are written than the probe declared, the fetch
    stage reports failure, the partial file is gone (the file system is
    back to what it was), and the completion loop does nothing with the
    item: no inspector run, no change of the world, no accepted file. *)
Theorem truncated_download_fails (env : Env) (run_info : gmap string string)
    (output_dir clean_dataset_dir sra_id : string) (w : World)
    (declared : Z) (chunks : list string) (processed_files : list string) :
  run_info !! "run" = Some sra_id →
  path_exists (fs w) (os_path_join output_dir (sra_id +:+ ".fastq.gz")) = false →
  http_head env (NCBI_TRACE_BASEURL +:+ sra_id) = HeadHeaders (Some declared) →
  http_get env (NCBI_TRACE_BASEURL +:+ sra_id) = GetBody chunks None →
  Z.of_nat (String.length (String.concat "" chunks)) < declared →
  ∃ w',
    download_single_sra_file env run_info output_dir w = (Ok (sra_id, false), w') ∧
    fs w' = fs w ∧
    fs w' !! os_path_join output_dir (sra_id +:+ ".fastq.gz") = None ∧
    completion env output_dir clean_dataset_dir (Ok (sra_id, false)) processed_files w'
      = (Ok processed_files, w').
Proof.
  intros Hrun Hex Hhead Hget Hlt.
  pose proof (download_streamed env run_info output_dir sra_id Hrun w
                (Some declared) chunks Hex Hhead Hget) as H.
  simpl in H.
  apply Z.ltb_lt in Hlt. rewrite Hlt in H.
  eexists. split; [exact H |].
  split; [reflexivity |]. split; [| reflexivity].
  simpl. now apply path_absent_lookup.
Qed.

Lemma truncated_download_fails_witness :
  ∃ w',
    download_single_sra_file (Scenario.plain_env (Some 1000) (repeat "0123456789" 50))
      (Scenario.row "SRR1") GZ_TEMP_FOLDER Scenario.empty_world = (Ok ("SRR1", false), w') ∧
    fs w' = fs Scenario.empty_world ∧
    fs w' !! os_path_join GZ_TEMP_FOLDER ("SRR1" +:+ ".fastq.gz") = None ∧
    completion (Scenario.plain_env (Some 1000) (repeat "0123456789" 50))
      GZ_TEMP_FOLDER CLEAN_DATASET_FOLDER (Ok ("SRR1", false)) [] w' = (Ok [], w').
Proof.
  apply (truncated_download_fails (Scenario.plain_env (Some 1000) (repeat "0123456789" 50))
           (Scenario.row "SRR1") GZ_TEMP_FOLDER CLEAN_DATASET_FOLDER "SRR1"
           Scenario.empty_world 1000 (repeat "0123456789" 50) []).
  - reflexivity.
  - vm_compute. reflexivity.
  - reflexivity.
  - reflexivity.
  - vm_compute. reflexivity.
Defined.

(** C10. When the probe carries no [content-length], the expected size is
    0 and the size check cannot fail: a body stream that ends normally
    gives success whatever was written, and the file holds exactly the
    bytes received, possibly none. *)
Theorem missing_length_always_succeeds (env : Env) (run_info : gmap string string)
    (output_dir sra_id : string) (w : World) (chunks : list string) :
  run_info !! "run" = Some sra_id →
  path_exists (fs w) (os_path_join output_dir (sra_id +:+ ".fastq.gz")) = false →
  http_head env (NCBI_TRACE_BASEURL +:+ sra_id) = HeadHeaders None →
  http_get env (NCBI_TRACE_BASEURL +:+ sra_id) = GetBody chunks None →
  ∃ w',
    download_single_sra_file env run_info output_dir w = (Ok (sra_id, true), w') ∧
    fs w' !! os_path_join output_dir (sra_id +:+ ".fastq.gz")
      = Some (String.concat "" chunks).
Proof.
  intros Hrun Hex Hhead Hget.
  pose proof (download_streamed env run_info output_dir sra_id Hrun w
                None chunks Hex Hhead Hget) as H.
  simpl in H.
  assert (Hge : (Z.of_nat (String.length (String.concat "" chunks)) <? 0) = false)
    by (apply Z.ltb_ge; lia).
  rewrite Hge in H.
  eexists. split; [exact H |]. simpl. apply lookup_insert_eq.
Qed.

Lemma missing_length_always_succeeds_witness :
  ∃ w',
    download_single_sra_file (Scenario.plain_env None []) (Scenario.row "SRR1")
      GZ_TEMP_FOLDER Scenario.empty_world = (Ok ("SRR1", true), w') ∧
    fs w' !! os_path_join GZ_TEMP_FOLDER ("SRR1" +:+ ".fastq.gz") = Some "".
Proof.
  apply (missing_length_always_succeeds (Scenario.plain_env None []) (Scenario.row "SRR1")
           GZ_TEMP_FOLDER "SRR1" Scenario.empty_world []).
  - reflexivity.
  - vm_compute. reflexivity.
  - reflexivity.
  - reflexivity.
Defined.

End FetchClaims.

(** ** File names *)

Section Names.

Lemma no_slash_not_absolute (s : string) :
  has_char slash s = false → startswith s "/" = false.
Proof.
  destruct s as [|c r]; [reflexivity |]. unfold slash. simpl. intros H.
  destruct (Ascii.eqb "/" c); simpl in H; [discriminate H | reflexivity].
Qed.

Lemma has_slash_child (d name : string) : has_char slash (d +:+ "/" +:+ name) = true.
Proof. rewrite has_char_append. apply orb_true_iff. right. reflexivity. Qed.

Lemma basename_child (d name : string) :
  has_char slash name = false → os_path_basename (d +:+ "/" +:+ name) = name.
Proof.
  intros Hn. induction d as [|x d IH].
  - change ("" +:+ "/" +:+ name) with (String slash name).
    simpl. rewrite Hn, ?Ascii.eqb_refl. reflexivity.
  - rewrite (append_cons x d). simpl. rewrite has_slash_child. exact IH.
Qed.

Lemma replace_from_no_slash (old new s : string) (skip : nat) :
  has_char slash new = false → has_char slash s = false →
  has_char slash (replace_from old new s skip) = false.
Proof.
  intros Hnew. revert skip. induction s as [|c r IH]; intros skip Hs; [reflexivity |].
  simpl in Hs. apply orb_false_iff in Hs as [Hc Hr].
  simpl. destruct skip as [|k].
  - destruct (startswith (String c r) old).
    + rewrite has_char_append, Hnew. simpl. now apply IH.
    + simpl. rewrite Hc. simpl. now apply IH.
  - now apply IH.
Qed.

Lemma endswith_slash_letters (s tail : string) :
  tail ≠ "" → has_char slash tail = false → endswith_slash (s +:+ tail) = false.
Proof.
  intros Hne Hns. unfold endswith_slash. rewrite length_append.
  destruct tail as [|t tail]; [congruence |]. clear Hne.
  replace (String.length s + String.length (String t tail) - 1)%nat
    with (String.length s + String.length tail)%nat by (simpl; lia).
  induction s as [|x s IH]; [| rewrite append_cons; exact IH].
  rewrite append_nil. simpl.
  revert t Hns. induction tail as [|u tail IHt]; intros t Hns.
  - simpl in *. apply orb_false_iff in Hns as [Ht _]. now rewrite Ascii.eqb_sym.
  - simpl in Hns. apply orb_false_iff in Hns as [_ Hns]. simpl. apply (IHt u Hns).
Qed.

Lemma basename_no_slash (p : string) : has_char slash (os_path_basename p) = false.
Proof.
  induction p as [|c r IH]; [reflexivity |].
  simpl. destruct (has_char slash r) eqn:Hr; [exact IH |].
  destruct (Ascii.eqb c slash) eqn:Hc; [exact Hr |].
  simpl. rewrite Hr. rewrite Ascii.eqb_sym, Hc. reflexivity.
Qed.

(** How many dots a name has *)
Fixpoint dots (s : string) : nat :=
  match s with
  | EmptyString => O
  | String c r => ((if Ascii.eqb c "." then 1 else 0) + dots r)%nat
  end.

Lemma dots_append (a b : string) : dots (a +:+ b) = (dots a + dots b)%nat.
Proof.
  induction a as [|x a IH]; [reflexivity |].
  rewrite append_cons. simpl. rewrite IH. lia.
Qed.

Lemma replace_from_skip (old new a t : string) :
  replace_from old new (a +:+ t) (String.length a) = replace_from old new t 0.
Proof.
  induction a as [|x a IH]; [reflexivity |].
  rewrite append_cons. simpl. exact IH.
Qed.

Lemma startswith_split (s p : string) : startswith s p = true → ∃ t, s = p +:+ t.
Proof.
  revert s. induction p as [|c p IH]; intros s H.
  - exists s. reflexivity.
  - apply startswith_cons_inv in H as (s' & -> & H).
    destruct (IH s' H) as [t ->]. exists t. reflexivity.
Qed.

(** Replacing [.fastq.gz] by [_fastqc] takes the dots away in pairs. *)
Lemma replace_dots (n : nat) :
  ∀ s, (String.length s ≤ n)%nat →
    Nat.even (dots (replace s ".fastq.gz" "_fastqc")) = Nat.even (dots s).
Proof.
  unfold replace. induction n as [|n IH]; intros s Hlen.
  - destruct s; [reflexivity | simpl in Hlen; lia].
  - destruct s as [|c r]; [reflexivity |].
    cbn [replace_from].
    destruct (startswith (String c r) ".fastq.gz") eqn:Hstart.
    + destruct (startswith_split _ _ Hstart) as [t Ht].
      change (".fastq.gz" +:+ t) with (String "." ("fastq.gz" +:+ t)) in Ht.
      injection Ht as -> ->.
      change (String.length ".fastq.gz" - 1)%nat with (String.length "fastq.gz").
      rewrite replace_from_skip, dots_append.
      change (dots "_fastqc") with 0%nat.
      change (String "." ("fastq.gz" +:+ t)) with (".fastq.gz" +:+ t).
      rewrite dots_append. change (dots ".fastq.gz") with 2%nat.
      rewrite Nat.add_0_l, IH.
      * reflexivity.
      * simpl in Hlen. rewrite length_append in Hlen. simpl in Hlen. lia.
    + simpl dots. rewrite !Nat.even_add, IH by (simpl in Hlen; lia). reflexivity.
Qed.

Lemma replaced_name_differs (name tail : string) :
  Nat.odd (dots tail) = true →
  replace name ".fastq.gz" "_fastqc" +:+ tail ≠ name.
Proof.
  intros Hodd Heq. apply (f_equal dots) in Heq. rewrite dots_append in Heq.
  apply (f_equal Nat.even) in Heq.
  rewrite Nat.even_add, (replace_dots (String.length name) name (le_n _)) in Heq.
  rewrite <- (Nat.negb_odd (dots tail)), Hodd in Heq.
  destruct (Nat.even (dots name)); discriminate.
Qed.

(** The results directory is a child of the inspector's output folder. *)
Lemma results_dir_child (gz temp : string) :
  ∃ o, results_dir (os_path_join temp FASTQ_TEMP_FOLDER) gz
       = o +:+ "/" +:+ replace (os_path_basename gz) ".fastq.gz" "_fastqc".
Proof.
  unfold results_dir.
  set (X' := replace (os_path_basename gz) ".fastq.gz" "_fastqc").
  assert (HX' : has_char slash X' = false).
  { apply replace_from_no_slash; [reflexivity | apply basename_no_slash]. }
  assert (Hout : ∃ o, os_path_join temp FASTQ_TEMP_FOLDER = o +:+ "fastqc_temp").
  { unfold os_path_join, FASTQ_TEMP_FOLDER.
    change (startswith "fastqc_temp" "/") with false. cbv iota.
    destruct (String.eqb temp "" || endswith_slash temp); [exists temp; reflexivity |].
    exists (temp +:+ "/"). now rewrite append_assoc. }
  destruct Hout as [o ->]. exists (o +:+ "fastqc_temp").
  unfold os_path_join. rewrite (no_slash_not_absolute _ HX').
  rewrite endswith_slash_letters by (discriminate || reflexivity).
  assert (Hne : String.eqb (o +:+ "fastqc_temp") "" = false).
  { apply String.eqb_neq. intros H. apply (f_equal String.length) in H.
    rewrite length_append in H. simpl in H. lia. }
  rewrite Hne. reflexivity.
Qed.

(** The inspector's archive and page never lie where its input lies. *)
Lemma input_not_beside (gz temp : string) :
  left_beside (results_dir (os_path_join temp FASTQ_TEMP_FOLDER) gz) gz = false.
Proof.
  destruct (left_beside (results_dir (os_path_join temp FASTQ_TEMP_FOLDER) gz) gz) eqn:E;
    [| reflexivity].
  exfalso. apply left_beside_spec in E.
  destruct (results_dir_child gz temp) as [o Ho]. rewrite Ho in E.
  set (X := os_path_basename gz) in E.
  set (X' := replace X ".fastq.gz" "_fastqc") in E.
  assert (HX' : has_char slash X' = false).
  { apply replace_from_no_slash; [reflexivity | apply basename_no_slash]. }
  assert (Hbase : ∀ tail, has_char slash tail = false →
            gz = (o +:+ "/" +:+ X') +:+ tail → X = X' +:+ tail).
  { intros tail Ht Hgz. unfold X at 1. rewrite Hgz, !append_assoc.
    apply basename_child. rewrite has_char_append, HX', Ht. reflexivity. }
  destruct E as [E | E]; apply Hbase in E; try reflexivity;
    symmetry in E; revert E; apply replaced_name_differs; reflexivity.
Qed.

End Names.

(** ** Quality gate *)

Section Gate.

Variable env : Env.
Variables (fastq_gz_file_path temp_output_dir clean_dataset_dir : string).

Let outdir := os_path_join temp_output_dir FASTQ_TEMP_FOLDER.
Let rdir := results_dir outdir fastq_gz_file_path.
Let name := os_path_basename fastq_gz_file_path.
Let summary := os_path_join rdir "summary.txt".
Let clean_path := os_path_join clean_dataset_dir name.
Let cmd := fastqc_path env +:+ " " +:+ fastq_gz_file_path +:+ " -o " +:+
           outdir +:+ " --extract".

(** The file system once the inspector has run *)
Definition inspected (fs0 : gmap string string) : gmap string string :=
  extract rdir (fastqc env fastq_gz_file_path)
    (beside rdir (fastqc_archive env fastq_gz_file_path) fs0).

Lemma inspected_outside fs0 q :
  under rdir q = false → left_beside rdir q = false → inspected fs0 !! q = fs0 !! q.
Proof.
  intros Hu Hb. unfold inspected. rewrite extract_outside by exact Hu.
  now apply beside_outside.
Qed.

(** The blob the inspector was given is as it was. *)
Lemma inspected_input fs0 :
  under rdir fastq_gz_file_path = false →
  inspected fs0 !! fastq_gz_file_path = fs0 !! fastq_gz_file_path.
Proof. intros Hu. apply inspected_outside; [exact Hu | apply input_not_beside]. Qed.

(** The [finally] clause of the gate *)
Definition swept (fs0 : gmap string string) : gmap string string :=
  if path_exists fs0 rdir then remove_tree rdir fs0 else fs0.

Lemma swept_beneath fs0 q : under rdir q = true → swept fs0 !! q = None.
Proof.
  intros Hq. unfold swept. destruct (path_exists fs0 rdir) eqn:E.
  - now apply remove_tree_beneath.
  - now apply (path_absent_beneath fs0 rdir).
Qed.

Lemma swept_outside fs0 q : under rdir q = false → swept fs0 !! q = fs0 !! q.
Proof.
  intros Hq. unfold swept. destruct (path_exists fs0 rdir); [| reflexivity].
  now apply remove_tree_outside.
Qed.

(** The exceptions the inspection can meet after the tool has run *)
Definition gate_error (fs1 : gmap string string) (e : string) : Prop :=
  read_fault env summary = Some e ∨
  (fs1 !! summary = None ∧ e = "OSError") ∨
  copy_fault env fastq_gz_file_path = Some e ∨
  (fs1 !! fastq_gz_file_path = None ∧ e = "FileNotFoundError") ∨
  (fastq_gz_file_path = clean_path ∧ e = "SameFileError").

(** The four ways the gate ends: verdict, second log record and the file
    system before the sweep. *)
Inductive gate_end (fs1 : gmap string string)
  : bool → Level * string → gmap string string → Prop :=
| end_no_summary :
    path_exists fs1 summary = false →
    gate_end fs1 false (ERROR, "FastQC summary file not found: " +:+ summary) fs1
| end_error e :
    path_exists fs1 summary = true →
    gate_error fs1 e →
    gate_end fs1 false
      (ERROR, "Error running FastQC on " +:+ fastq_gz_file_path +:+ ": " +:+ e) fs1
| end_rejected text line :
    path_exists fs1 summary = true →
    read_fault env summary = None →
    fs1 !! summary = Some text →
    find (str_in "FAIL") (file_lines text) = Some line →
    gate_end fs1 false
      (INFO, "FastQC found quality issues in " +:+ name +:+ ": " +:+ strip line) fs1
| end_accepted text blob :
    path_exists fs1 summary = true →
    read_fault env summary = None →
    fs1 !! summary = Some text →
    find (str_in "FAIL") (file_lines text) = None →
    copy_fault env fastq_gz_file_path = None →
    fs1 !! fastq_gz_file_path = Some blob →
    fastq_gz_file_path ≠ clean_path →
    gate_end fs1 true
      (INFO, "File passed quality check and copied to clean dataset folder: " +:+ clean_path)
      (<[clean_path := blob]> fs1).

Lemma gate_effect (w : World) :
  ∃ (verdict : bool) (record : Level * string) (fs2 : gmap string string),
    run_fastqc_and_save_in_clean_dataset_folder_if_all_params_in_summary_txt_file_are_NOT_FAIL
      env fastq_gz_file_path temp_output_dir clean_dataset_dir w
    = (Ok verdict,
       mkWorld (swept fs2)
               ((log w ++ [(INFO, "Running FastQC: " +:+ cmd)]) ++ [record])
               (requests w) (commands w ++ [cmd]))
    ∧ gate_end (inspected (fs w)) verdict record fs2.
Proof.
  unfold run_fastqc_and_save_in_clean_dataset_folder_if_all_params_in_summary_txt_file_are_NOT_FAIL.
  fold outdir. fold rdir. fold name. fold summary. fold clean_path. fold cmd.
  unfold os_makedirs, bind at 1, ret at 1.
  unfold try_finally, try_except.
  unfold bind at 1, logging at 1.
  unfold bind at 1, os_system at 1. simpl.
  fold rdir. fold (inspected (fs w)).
  set (fs1 := inspected (fs w)).
  unfold bind at 1, os_path_exists at 1. simpl.
  destruct (path_exists fs1 summary) eqn:Hsum; simpl.
  - unfold bind at 1, faulty.
    destruct (read_fault env summary) as [e|] eqn:Hread.
    + unfold raise at 1. unfold bind, logging, ret, os_path_exists, when, shutil_rmtree; simpl.
      exists false, (ERROR, "Error running FastQC on " +:+ fastq_gz_file_path +:+ ": " +:+ e), fs1.
      split.
      * unfold swept. destruct (path_exists fs1 rdir); reflexivity.
      * apply end_error; [exact Hsum | left; exact Hread].
    + unfold ret at 1. unfold bind at 1, read_lines. simpl.
      destruct (fs1 !! summary) as [text|] eqn:Htext.
      * destruct (find (str_in "FAIL") (file_lines text)) as [line|] eqn:Hfind.
        -- unfold bind, logging, ret, os_path_exists, when, shutil_rmtree; simpl.
           exists false, (INFO, "FastQC found quality issues in " +:+ name +:+ ": " +:+ strip line), fs1.
           split.
           ++ unfold swept. destruct (path_exists fs1 rdir); reflexivity.
           ++ eapply end_rejected; eassumption.
        -- unfold bind at 1, os_makedirs, ret at 1.
           unfold bind at 1.
           destruct (copy_fault env fastq_gz_file_path) as [e|] eqn:Hcopy; simpl.
           ++ unfold raise. unfold bind, logging, ret, os_path_exists, when, shutil_rmtree; simpl.
              exists false, (ERROR, "Error running FastQC on " +:+ fastq_gz_file_path +:+ ": " +:+ e), fs1.
              split.
              ** unfold swept. destruct (path_exists fs1 rdir); reflexivity.
              ** apply end_error; [exact Hsum | right; right; left; exact Hcopy].
           ++ unfold ret at 1. unfold bind at 1, copy2. simpl.
              destruct (fs1 !! fastq_gz_file_path) as [blob|] eqn:Hblob.
              ** destruct (String.eqb_spec fastq_gz_file_path clean_path) as [Hsame|Hdiff].
                 --- unfold bind, logging, ret, os_path_exists, when, shutil_rmtree; simpl.
                     exists false, (ERROR, "Error running FastQC on " +:+ fastq_gz_file_path +:+ ": " +:+ "SameFileError"), fs1.
                     split.
                     +++ unfold swept. destruct (path_exists fs1 rdir); reflexivity.
                     +++ apply end_error; [exact Hsum |].
                         right; right; right; right. split; [exact Hsame | reflexivity].
                 --- unfold bind, logging, ret, os_path_exists, when, shutil_rmtree; simpl.
                     exists true, (INFO, "File passed quality check and copied to clean dataset folder: " +:+ clean_path), (<[clean_path := blob]> fs1).
                     split.
                     +++ unfold swept. destruct (path_exists (<[clean_path:=blob]> fs1) rdir); reflexivity.
                     +++ eapply end_accepted; eassumption.
              ** unfold bind, logging, ret, os_path_exists, when, shutil_rmtree; simpl.
                 exists false, (ERROR, "Error running FastQC on " +:+ fastq_gz_file_path +:+ ": " +:+ "FileNotFoundError"), fs1.
                 split.
                 --- unfold swept. destruct (path_exists fs1 rdir); reflexivity.
                 --- apply end_error; [exact Hsum | right; right; right; left; split; [exact Hblob | reflexivity]].
      * unfold bind, logging, ret, os_path_exists, when, shutil_rmtree; simpl.
        exists false, (ERROR, "Error running FastQC on " +:+ fastq_gz_file_path +:+ ": " +:+ "OSError"), fs1.
        split.
        -- unfold swept. destruct (path_exists fs1 rdir); reflexivity.
        -- apply end_error; [exact Hsum | right; left; split; [exact Htext | reflexivity]].
  - unfold bind, logging, ret, os_path_exists, when, shutil_rmtree; simpl.
    exists false, (ERROR, "FastQC summary file not found: " +:+ summary), fs1.
    split.
    + unfold swept. destruct (path_exists fs1 rdir); reflexivity.
    + apply end_no_summary. exact Hsum.
Qed.

End Gate.

Section GateClaims.

Lemma find_none_all {A} (f : A → bool) (l : list A) :
  find f l = None → ∀ x, In x l → f x = false.
Proof.
  induction l as [|y l IH]; simpl; [tauto |].
  destruct (f y) eqn:E; [discriminate |].
  intros H x [<- | Hx]; [exact E | now apply IH].
Qed.

Lemma find_some_in {A} (f : A → bool) (l : list A) (x : A) :
  find f l = Some x → In x l ∧ f x = true.
Proof.
  induction l as [|y l IH]; simpl; [discriminate |].
  destruct (f y) eqn:E.
  - intros [= <-]. split; [now left | exact E].
  - intros H. destruct (IH H). split; [now right | assumption].
Qed.



End GateClaims.

(** ** The gate around the inspection *)

Section Process.

Variable env : Env.
Variables (sra_id gz clean_dataset_dir : string).

Let temp := os_path_dirname gz.
Let outdir := os_path_join temp FASTQ_TEMP_FOLDER.
Let cmd := fastqc_path env +:+ " " +:+ gz +:+ " -o " +:+ outdir +:+ " --extract".

(** The [finally] clause of [process_downloaded_file] *)
Definition unlinked (fs0 : gmap string string) : gmap string string :=
  if path_exists fs0 gz then delete gz fs0 else fs0.

Lemma unlinked_blob fs0 : unlinked fs0 !! gz = None.
Proof.
  unfold unlinked. destruct (path_exists fs0 gz) eqn:E.
  - apply lookup_delete_eq.
  - now apply path_absent_lookup.
Qed.

Lemma unlinked_other fs0 q : q ≠ gz → unlinked fs0 !! q = fs0 !! q.
Proof.
  intros Hq. unfold unlinked. destruct (path_exists fs0 gz); [| reflexivity].
  now apply lookup_delete_ne.
Qed.

Lemma unlinked_none fs0 q : fs0 !! q = None → unlinked fs0 !! q = None.
Proof.
  intros Hq. destruct (decide (q = gz)) as [->|Hne].
  - apply unlinked_blob.
  - now rewrite unlinked_other.
Qed.

(** What [process_downloaded_file] does: nothing when the blob is not
    there; otherwise one run of the gate, one more log record on
    acceptance, and the blob removed. *)
Lemma process_effect (w : World) :
  if path_exists (fs w) gz then
    ∃ (verdict : bool) (record : Level * string) (fs2 : gmap string string),
      gate_end env gz temp clean_dataset_dir (inspected env gz temp (fs w))
        verdict record fs2 ∧
      process_downloaded_file env sra_id gz clean_dataset_dir w =
        (Ok verdict,
         mkWorld (unlinked (swept gz temp fs2))
                 (let base :=
                    ((log w ++ [(INFO, "Running FastQC: " +:+ cmd)]) ++ [record])%list in
                  if verdict
                  then (base ++ [(INFO, "File " +:+ sra_id +:+ " passed quality check")])%list
                  else base)
                 (requests w) (commands w ++ [cmd]))
  else process_downloaded_file env sra_id gz clean_dataset_dir w = (Ok false, w).
Proof.
  unfold process_downloaded_file, try_finally, try_except, bind, os_path_exists.
  cbv beta. destruct (path_exists (fs w) gz) eqn:Hex; cbn [negb].
  - destruct (gate_effect env gz temp clean_dataset_dir w)
      as (verdict & record & fs2 & Hrun & Hend).
    fold temp. rewrite Hrun.
    exists verdict, record, fs2. split; [exact Hend |].
    destruct verdict; unfold logging, ret, when, os_remove, unlinked, set_fs; cbn [fs log requests commands];
      match goal with |- context [path_exists ?f gz] => destruct (path_exists f gz) end;
      reflexivity.
  - unfold ret, when. rewrite Hex. reflexivity.
Qed.

(** Whatever the outcome, the blob is gone afterwards, and so is the
    inspector's report directory of a blob that was there. *)
Lemma process_cleans (w : World) :
  ∃ verdict w',
    process_downloaded_file env sra_id gz clean_dataset_dir w = (Ok verdict, w') ∧
    fs w' !! gz = None ∧
    (path_exists (fs w) gz = true →
     ∀ q, under (results_dir outdir gz) q = true → fs w' !! q = None).
Proof.
  pose proof (process_effect w) as H.
  destruct (path_exists (fs w) gz) eqn:Hex.
  - destruct H as (verdict & record & fs2 & _ & H).
    eexists. eexists. split; [exact H |]. simpl. split.
    + apply unlinked_blob.
    + intros _ q Hq. apply unlinked_none. now apply swept_beneath.
  - exists false, w. split; [exact H |]. split.
    + now apply path_absent_lookup.
    + discriminate.
Qed.

(** The gate never raises. *)
Lemma process_downloaded_file_ok (w : World) :
  ∃ passed w', process_downloaded_file env sra_id gz clean_dataset_dir w = (Ok passed, w').
Proof.
  pose proof (process_effect w) as H.
  destruct (path_exists (fs w) gz).
  - destruct H as (verdict & record & fs2 & _ & H). eauto.
  - eauto.
Qed.

End Process.

(** ** One page *)

Section Page.

Variable env : Env.
Variable rows : list (gmap string string).
Variables (output_dir clean_dataset_dir : string).

Let step := page_step env rows output_dir clean_dataset_dir.
Let run := run_schedule env rows output_dir clean_dataset_dir.

(** A property kept by every event is kept by every schedule. *)
Lemma run_schedule_invariant (P : Page → World → Prop) :
  (∀ ev pg w, P pg w → P (step ev pg w).1 (step ev pg w).2) →
  ∀ sched pg w, P pg w → P (run sched pg w).1 (run sched pg w).2.
Proof.
  intros Hstep sched. unfold run.
  induction sched as [|ev rest IH]; intros pg w HP; simpl.
  - exact HP.
  - specialize (Hstep ev pg w HP). unfold step in Hstep.
    destruct (page_step env rows output_dir clean_dataset_dir ev pg w) as [pg' w'].
    apply IH. exact Hstep.
Qed.

Lemma completion_length (outcome : result (string * bool)) (pf pf' : list string)
    (w w' : World) :
  completion env output_dir clean_dataset_dir outcome pf w = (Ok pf', w') →
  (length pf' ≤ S (length pf))%nat.
Proof.
  unfold completion. destruct outcome as [[sra_id success]|e].
  - destruct success.
    + unfold bind.
      destruct (process_downloaded_file_ok env sra_id
                  (os_path_join output_dir (blob_name sra_id)) clean_dataset_dir w)
        as (passed & w1 & Hp).
      rewrite Hp. destruct passed; unfold ret; intros [= <- <-].
      * rewrite length_app. simpl. lia.
      * lia.
    + unfold ret. intros [= <- <-]. lia.
  - unfold raise. discriminate.
Qed.

(** Book-keeping of the completion loop: only finished tasks of the page
    are yielded, each once, and each adds at most one accepted file. *)
Definition page_bounds (pg : Page) (w : World) : Prop :=
  (∀ i, is_Some (futures pg !! i) → (i < length rows)%nat) ∧
  (∀ i, i ∈ yielded pg → is_Some (futures pg !! i)) ∧
  (∀ pf, main_thread pg = Ok pf → (length pf ≤ size (yielded pg))%nat).

Lemma page_bounds_step ev pg w :
  page_bounds pg w → page_bounds (step ev pg w).1 (step ev pg w).2.
Proof.
  intros Hinv. pose proof Hinv as (Hfut & Hyield & Hlen). unfold step, page_step.
  destruct ev as [i|i].
  - destruct (rows !! i) as [row|] eqn:Hrow; [| exact Hinv].
    destruct (futures pg !! i) as [r0|] eqn:Hfi; [exact Hinv |].
    destruct (download_single_sra_file env row output_dir w) as [r w'].
    unfold page_bounds. simpl. repeat split.
    + intros j. destruct (decide (i = j)) as [<-|Hne].
      * intros _. eapply lookup_lt_Some; eassumption.
      * rewrite lookup_insert_ne by exact Hne. apply Hfut.
    + intros j Hj. destruct (decide (i = j)) as [<-|Hne].
      * rewrite lookup_insert_eq. eauto.
      * rewrite lookup_insert_ne by exact Hne. now apply Hyield.
    + exact Hlen.
  - destruct (futures pg !! i) as [outcome|] eqn:Hfi; [| exact Hinv].
    destruct (main_thread pg) as [pf|e] eqn:Hmain; [| exact Hinv].
    destruct (decide (i ∈ yielded pg)) as [Hin|Hnin]; [exact Hinv |].
    destruct (completion env output_dir clean_dataset_dir outcome pf w) as [r w'] eqn:Hc.
    unfold page_bounds. simpl. repeat split.
    + exact Hfut.
    + intros j Hj. apply elem_of_union in Hj as [Hj|Hj].
      * apply elem_of_singleton in Hj. subst j. rewrite Hfi. eauto.
      * now apply Hyield.
    + intros pf' ->. apply completion_length in Hc.
      rewrite size_union by set_solver. rewrite size_singleton.
      specialize (Hlen pf eq_refl). lia.
Qed.

Lemma page_bounds_final sched pg w pf :
  page_bounds pg w →
  main_thread (run sched pg w).1 = Ok pf →
  (length pf ≤ length rows)%nat.
Proof.
  intros Hinv Hmain.
  pose proof (run_schedule_invariant page_bounds page_bounds_step sched pg w Hinv)
    as (Hfut & Hyield & Hlen).
  specialize (Hlen pf Hmain).
  assert (Hsub : yielded (run sched pg w).1 ⊆ set_seq 0 (length rows)).
  { intros i Hi. apply elem_of_set_seq. split; [lia |].
    simpl. apply Hfut. apply Hyield. exact Hi. }
  apply subseteq_size in Hsub. rewrite size_set_seq in Hsub. lia.
Qed.

End Page.

Lemma submitted_le (rows : list (gmap string string)) :
  ((submitted rows).1 ≤ length rows)%nat.
Proof.
  induction rows as [|row rest IH]; simpl; [lia |].
  destruct (row !! "run"); simpl; [| lia].
  destruct (submitted rest) as [n ok]. simpl in *. lia.
Qed.

(** A page accepts at most as many files as it has rows. *)
Lemma page_accepts_at_most (env : Env) (rows : list (gmap string string))
    (output_dir clean_dataset_dir : string) (sched : list Event)
    (w w' : World) (processed_files : list string) :
  download_and_process_parallel env rows output_dir clean_dataset_dir sched w
    = (Ok processed_files, w') →
  (length processed_files ≤ length rows)%nat.
Proof.
  unfold download_and_process_parallel, bind, os_makedirs, ret.
  pose proof (submitted_le rows) as Hle.
  destruct (submitted rows) as [n ok]. simpl in Hle.
  set (start := mkPage ∅ ∅ (if ok then Ok [] else Raise "KeyError: 'run'")).
  destruct (run_schedule env (take n rows) output_dir clean_dataset_dir sched start w)
    as [pg w1] eqn:Hrun.
  intros [= Hmain <-].
  assert (Hinv : page_bounds (take n rows) start w).
  { repeat split; simpl.
    - intros i [x Hx]. rewrite lookup_empty in Hx. discriminate.
    - intros i Hi. set_solver.
    - intros pf Hpf. destruct ok; [| discriminate]. injection Hpf as <-. simpl. lia. }
  pose proof (page_bounds_final env (take n rows) output_dir clean_dataset_dir
                sched start w processed_files Hinv) as Hfin.
  rewrite Hrun in Hfin. specialize (Hfin Hmain).
  rewrite length_take in Hfin. lia.
Qed.

(** ** Acquisition controller *)

Section Controller.

Variable env : Env.
Variable sched : list Event.
Variable search_term : string.
Variable num_clean_datasets : Z.

(** The stop check that follows a page with [accepted] accepted files. *)
Definition after_page (max_count : Z) (c : Cursor) (accepted : nat) : bool * Cursor :=
  let count := clean_datasets_count c + Z.of_nat accepted in
  if count >=? num_clean_datasets then (true, mkCursor (retstart c) count)
  else if retstart c + batch_size >=? max_count
       then (true, mkCursor (retstart c + batch_size) count)
       else (false, mkCursor (retstart c + batch_size) count).

Lemma main_try_page (c : Cursor) (w w1 w2 w3 : World) (uids : list Z) (max_count prev : Z)
    (rows : list (gmap string string)) (processed : list string) :
  get_uid_from_term env search_term batch_size (retstart c) w
    = (Ok (uids, max_count, prev), w1) →
  uids ≠ [] →
  get_sraid_from_uid env uids w1 = (Ok rows, w2) →
  download_and_process_parallel env rows GZ_TEMP_FOLDER CLEAN_DATASET_FOLDER sched w2
    = (Ok processed, w3) →
  ∃ w', main_try env sched search_term num_clean_datasets c w
        = (Ok (after_page max_count c (length processed)), w').
Proof.
  intros Hsearch Hne Hfetch Hpage.
  unfold main_try. unfold bind at 1. rewrite Hsearch.
  destruct uids as [|u uids']; [congruence |].
  unfold bind at 1. rewrite Hfetch.
  unfold bind at 1. rewrite Hpage.
  unfold after_page. cbv zeta.
  unfold bind at 1, logging at 1.
  destruct (clean_datasets_count c + Z.of_nat (length processed) >=? num_clean_datasets).
  - unfold ret. eexists. reflexivity.
  - destruct (retstart c + batch_size >=? max_count).
    + unfold bind, logging, ret. eexists. reflexivity.
    + unfold ret. eexists. reflexivity.
Qed.

Lemma main_try_empty (c : Cursor) (w w1 : World) (max_count prev : Z) :
  get_uid_from_term env search_term batch_size (retstart c) w
    = (Ok ([], max_count, prev), w1) →
  ∃ w', main_try env sched search_term num_clean_datasets c w = (Ok (true, c), w').
Proof.
  intros Hsearch. unfold main_try. unfold bind at 1. rewrite Hsearch.
  unfold bind, logging, ret. eexists. reflexivity.
Qed.

Lemma main_body_ok (c : Cursor) (w w' : World) (r : bool * Cursor) :
  main_try env sched search_term num_clean_datasets c w = (Ok r, w') →
  main_body env sched search_term num_clean_datasets c w = (Ok r, w').
Proof. intros H. unfold main_body, try_except. now rewrite H. Qed.

Lemma main_body_raise (c : Cursor) (w w1 : World) (e : string) :
  main_try env sched search_term num_clean_datasets c w = (Raise e, w1) →
  main_body env sched search_term num_clean_datasets c w =
    (Ok (false, c),
     mkWorld (fs w1) (log w1 ++ [(ERROR, "Error in main processing loop: " +:+ e)])
             (requests w1) (commands w1)).
Proof. intros H. unfold main_body, try_except. rewrite H. reflexivity. Qed.

Lemma main_body_total (c : Cursor) (w : World) :
  ∃ r w', main_body env sched search_term num_clean_datasets c w = (Ok r, w').
Proof.
  destruct (main_try env sched search_term num_clean_datasets c w) as [[r|e] w1] eqn:H.
  - eexists. eexists. apply main_body_ok. exact H.
  - eexists. eexists. apply main_body_raise. exact H.
Qed.

(** Why a pass leaves the loop: the search came back empty, or the target
    is met, or the window has reached the total the catalog reports. *)
Lemma main_body_break (c c' : Cursor) (w w' : World) :
  main_body env sched search_term num_clean_datasets c w = (Ok (true, c'), w') →
  ∃ uids max_count prev w1,
    get_uid_from_term env search_term batch_size (retstart c) w
      = (Ok (uids, max_count, prev), w1) ∧
    (uids = [] ∨ num_clean_datasets ≤ clean_datasets_count c' ∨ max_count ≤ retstart c').
Proof.
  destruct (main_try env sched search_term num_clean_datasets c w) as [[r|e] w1] eqn:Htry.
  - rewrite (main_body_ok _ _ _ _ Htry). intros [= -> <-].
    revert Htry. unfold main_try. unfold bind at 1.
    destruct (get_uid_from_term env search_term batch_size (retstart c) w)
      as [[[[uids max_count] prev]|e] w2] eqn:Hsearch; [| discriminate].
    destruct uids as [|u uids'].
    + intros _. exists [], max_count, prev, w2. split; [reflexivity | now left].
    + unfold bind at 1.
      destruct (get_sraid_from_uid env (u :: uids') w2) as [[rows|e] w3]; [| discriminate].
      unfold bind at 1.
      destruct (download_and_process_parallel env rows GZ_TEMP_FOLDER
                  CLEAN_DATASET_FOLDER sched w3) as [[processed|e] w4]; [| discriminate].
      cbv zeta. unfold bind at 1, logging at 1.
      destruct (clean_datasets_count c + Z.of_nat (length processed) >=? num_clean_datasets)
        eqn:Hmet.
      * unfold ret. intros [= <- <-].
        exists (u :: uids'), max_count, prev, w2. split; [reflexivity |].
        right. left. simpl. lia.
      * destruct (retstart c + batch_size >=? max_count) eqn:Hend.
        -- unfold bind, logging, ret. intros [= <- <-].
           exists (u :: uids'), max_count, prev, w2. split; [reflexivity |].
           right. right. simpl. lia.
        -- unfold ret. discriminate.
  - rewrite (main_body_raise _ _ _ _ Htry). discriminate.
Qed.

End Controller.

Section Loop.

Variable search_term : string.
Variable num_clean_datasets : Z.

Lemma main_loop_total (rounds : list (Env * list Event)) :
  ∀ passes c w, ∃ run w',
    main_loop rounds search_term num_clean_datasets passes c w = (Ok run, w').
Proof.
  induction rounds as [|[env sched] rest IH]; intros passes c w; simpl.
  - destruct (clean_datasets_count c <? num_clean_datasets);
      unfold ret; eexists; eexists; reflexivity.
  - destruct (clean_datasets_count c <? num_clean_datasets).
    + unfold bind.
      destruct (main_body_total env sched search_term num_clean_datasets c w)
        as ([brk c'] & w' & Hbody).
      rewrite Hbody. simpl. destruct brk.
      * unfold ret. eexists; eexists; reflexivity.
      * apply IH.
    + unfold ret. eexists; eexists; reflexivity.
Qed.

(** The first pass of a loop that is entered *)
Lemma main_loop_pass (env : Env) (sched : list Event) (rest : list (Env * list Event))
    (passes : nat) (c : Cursor) (w w' : World) (brk : bool) (c' : Cursor) :
  clean_datasets_count c < num_clean_datasets →
  main_body env sched search_term num_clean_datasets c w = (Ok (brk, c'), w') →
  main_loop ((env, sched) :: rest) search_term num_clean_datasets passes c w =
    if brk then (Ok (Left (S passes) c'), w')
    else main_loop rest search_term num_clean_datasets (S passes) c' w'.
Proof.
  intros Hlt Hbody. simpl.
  apply Z.ltb_lt in Hlt. rewrite Hlt.
  unfold bind. rewrite Hbody. simpl. destruct brk; reflexivity.
Qed.

(** The loop ends only with the target met or on a pass that found the
    catalog exhausted. *)
Lemma main_loop_left (rounds : list (Env * list Event)) :
  ∀ passes c w passes' c' w',
    main_loop rounds search_term num_clean_datasets passes c w
      = (Ok (Left passes' c'), w') →
    num_clean_datasets ≤ clean_datasets_count c' ∨
    ∃ env sched cx wx uids max_count prev w1,
      In (env, sched) rounds ∧
      get_uid_from_term env search_term batch_size (retstart cx) wx
        = (Ok (uids, max_count, prev), w1) ∧
      (uids = [] ∨ max_count ≤ retstart c').
Proof.
  induction rounds as [|[env sched] rest IH]; intros passes c w passes' c' w'; simpl.
  - destruct (clean_datasets_count c <? num_clean_datasets) eqn:Hlt; unfold ret.
    + discriminate.
    + intros [= _ <- _]. left. apply Z.ltb_ge in Hlt. lia.
  - destruct (clean_datasets_count c <? num_clean_datasets) eqn:Hlt.
    + unfold bind.
      destruct (main_body_total env sched search_term num_clean_datasets c w)
        as ([brk cx] & wx & Hbody).
      rewrite Hbody. simpl. destruct brk.
      * unfold ret. intros [= _ <- _].
        apply main_body_break in Hbody
          as (uids & max_count & prev & w1 & Hsearch & [Hu | [Ht | Hm]]).
        -- right. exists env, sched, c, w, uids, max_count, prev, w1.
           split; [now left |]. split; [exact Hsearch | now left].
        -- now left.
        -- right. exists env, sched, c, w, uids, max_count, prev, w1.
           split; [now left |]. split; [exact Hsearch | now right].
      * intros Hrest. apply IH in Hrest as [Ht | Hex]; [now left |].
        right. destruct Hex as (env' & sched' & cy & wy & uids & mc & prev & w1 & Hin & H).
        exists env', sched', cy, wy, uids, mc, prev, w1. split; [now right | exact H].
    + unfold ret. intros [= _ <- _]. left. apply Z.ltb_ge in Hlt. lia.
Qed.

End Loop.

Section ControllerClaims.

(** C3. The stop check comes after the whole page: when the search is not
    empty and the page has been downloaded and gated, the controller adds
    all accepted files of the page and, the target being met, leaves the
    loop in Done(success) on that very pass. The count is then below the
    target plus the size of the page. With 25 available entries, a first
    page whose 10 files all pass and a target of 5, the run ends after one
    pass with 10 accepted. *)
Theorem stop_check_follows_whole_page (env : Env) (sched : list Event)
    (rest : list (Env * list Event)) (search_term : string) (num_clean_datasets : Z)
    (passes : nat) (c : Cursor) (w w1 w2 w3 : World) (uids : list Z) (max_count prev : Z)
    (rows : list (gmap string string)) (processed : list string) :
  clean_datasets_count c < num_clean_datasets →
  get_uid_from_term env search_term batch_size (retstart c) w
    = (Ok (uids, max_count, prev), w1) →
  uids ≠ [] →
  get_sraid_from_uid env uids w1 = (Ok rows, w2) →
  download_and_process_parallel env rows GZ_TEMP_FOLDER CLEAN_DATASET_FOLDER sched w2
    = (Ok processed, w3) →
  num_clean_datasets ≤ clean_datasets_count c + Z.of_nat (length processed) →
  let final :=
    mkCursor (retstart c) (clean_datasets_count c + Z.of_nat (length processed)) in
  (∃ w', main_loop ((env, sched) :: rest) search_term num_clean_datasets passes c w
         = (Ok (Left (S passes) final), w'))
  ∧ terminal num_clean_datasets (Left (S passes) final) = Some DoneSuccess
  ∧ clean_datasets_count final < num_clean_datasets + Z.of_nat (length rows)
  ∧ (c = mkCursor 0 0 → passes = 0%nat → num_clean_datasets = 5 → max_count = 25 →
     length processed = 10%nat →
     Left (S passes) final = Left 1 (mkCursor 0 10)).
Proof.
  intros Hlt Hsearch Hne Hfetch Hpage Hmet final.
  destruct (main_try_page env sched search_term num_clean_datasets c w w1 w2 w3
              uids max_count prev rows processed Hsearch Hne Hfetch Hpage) as (w' & Htry).
  assert (Hafter : after_page num_clean_datasets max_count c (length processed)
                   = (true, final)).
  { unfold after_page. cbv zeta.
    assert (Hge : (clean_datasets_count c + Z.of_nat (length processed)
                   >=? num_clean_datasets) = true) by (apply Z.geb_le; lia).
    rewrite Hge. reflexivity. }
  rewrite Hafter in Htry. apply main_body_ok in Htry.
  split; [| split; [| split]].
  - exists w'. rewrite (main_loop_pass search_term num_clean_datasets env sched rest
                          passes c w w' true final Hlt Htry). reflexivity.
  - unfold terminal, final. simpl.
    assert (Hnlt : (clean_datasets_count c + Z.of_nat (length processed)
                    <? num_clean_datasets) = false) by (apply Z.ltb_ge; lia).
    rewrite Hnlt. reflexivity.
  - pose proof (page_accepts_at_most _ _ _ _ _ _ _ _ Hpage). unfold final. simpl. lia.
  - intros -> -> -> -> Hten. unfold final. simpl. rewrite Hten. reflexivity.
Qed.

Lemma stop_check_follows_whole_page_witness :
  ∃ w', main_loop [(Scenario.page_env 10 25, Scenario.page_sched 10)] "cancer" 5 0
          (mkCursor 0 0) Scenario.empty_world
        = (Ok (Left 1 (mkCursor 0 10)), w').
Proof.
  pose (env := Scenario.page_env 10 25).
  pose (w1 := (get_uid_from_term env "cancer" batch_size 0 Scenario.empty_world).2).
  pose (uids := map Z.of_nat (seq 100 10)).
  pose (rows := map Scenario.row (Scenario.run_ids 10)).
  pose (w2 := (get_sraid_from_uid env uids w1).2).
  pose (page := download_and_process_parallel env rows GZ_TEMP_FOLDER CLEAN_DATASET_FOLDER
                  (Scenario.page_sched 10) w2).
  pose (processed := match page.1 with Ok l => l | Raise _ => [] end).
  destruct (stop_check_follows_whole_page env (Scenario.page_sched 10) [] "cancer" 5 0
              (mkCursor 0 0) Scenario.empty_world w1 w2 page.2 uids 25 0 rows processed)
    as (H & _).
  - reflexivity.
  - vm_compute. reflexivity.
  - discriminate.
  - vm_compute. reflexivity.
  - vm_compute. reflexivity.
  - vm_compute. discriminate.
  - exact H.
Defined.

(** C4. The controller ends in Done(partial) when the search of a pass
    returns no candidate, and when, the page done and the target not met,
    the window moved on by the page size reaches the total the catalog
    reports. With 5 available entries, a page size of 10 and a target of
    100 the run ends partial after one pass, whatever the page accepted. *)
Theorem exhaustion_ends_partial (env : Env) (sched : list Event)
    (rest : list (Env * list Event)) (search_term : string) (num_clean_datasets : Z)
    (passes : nat) (c : Cursor) (w w1 : World) (uids : list Z) (max_count prev : Z) :
  clean_datasets_count c < num_clean_datasets →
  get_uid_from_term env search_term batch_size (retstart c) w
    = (Ok (uids, max_count, prev), w1) →
  (uids = [] →
     ∃ w', main_loop ((env, sched) :: rest) search_term num_clean_datasets passes c w
           = (Ok (Left (S passes) c), w') ∧
           terminal num_clean_datasets (Left (S passes) c) = Some DonePartial)
  ∧ (∀ w2 w3 rows processed,
       uids ≠ [] →
       get_sraid_from_uid env uids w1 = (Ok rows, w2) →
       download_and_process_parallel env rows GZ_TEMP_FOLDER CLEAN_DATASET_FOLDER sched w2
         = (Ok processed, w3) →
       let final := mkCursor (retstart c + batch_size)
                             (clean_datasets_count c + Z.of_nat (length processed)) in
       (clean_datasets_count final < num_clean_datasets ∧ max_count ≤ retstart final
        ∨ c = mkCursor 0 0 ∧ num_clean_datasets = 100 ∧ max_count = 5 ∧
          (length rows ≤ 10)%nat) →
       ∃ w', main_loop ((env, sched) :: rest) search_term num_clean_datasets passes c w
             = (Ok (Left (S passes) final), w') ∧
             terminal num_clean_datasets (Left (S passes) final) = Some DonePartial).
Proof.
  intros Hlt Hsearch. split.
  - intros ->.
    destruct (main_try_empty env sched search_term num_clean_datasets c w w1
                max_count prev Hsearch) as (w' & Htry).
    apply main_body_ok in Htry. exists w'. split.
    + rewrite (main_loop_pass search_term num_clean_datasets env sched rest
                 passes c w w' true c Hlt Htry). reflexivity.
    + unfold terminal. apply Z.ltb_lt in Hlt. rewrite Hlt. reflexivity.
  - intros w2 w3 rows processed Hne Hfetch Hpage final Hcase.
    assert (Hfin : clean_datasets_count final < num_clean_datasets ∧
                   max_count ≤ retstart final).
    { destruct Hcase as [H | (Hc & Ht & Hm & Hrows)]; [exact H |].
      pose proof (page_accepts_at_most _ _ _ _ _ _ _ _ Hpage).
      unfold final. subst c num_clean_datasets max_count. unfold batch_size. simpl. lia. }
    destruct Hfin as [Hshort Hend]. unfold final in Hshort, Hend. simpl in Hshort, Hend.
    destruct (main_try_page env sched search_term num_clean_datasets c w w1 w2 w3
                uids max_count prev rows processed Hsearch Hne Hfetch Hpage) as (w' & Htry).
    assert (Hafter : after_page num_clean_datasets max_count c (length processed)
                     = (true, final)).
    { unfold after_page. cbv zeta.
      assert (Hge : (clean_datasets_count c + Z.of_nat (length processed)
                     >=? num_clean_datasets) = false)
        by (rewrite Z.geb_leb; apply Z.leb_gt; lia).
      rewrite Hge.
      assert (Hge2 : (retstart c + batch_size >=? max_count) = true)
        by (apply Z.geb_le; lia).
      rewrite Hge2. reflexivity. }
    rewrite Hafter in Htry. apply main_body_ok in Htry.
    exists w'. split.
    + rewrite (main_loop_pass search_term num_clean_datasets env sched rest
                 passes c w w' true final Hlt Htry). reflexivity.
    + unfold terminal, final. simpl.
      assert (Hnlt : (clean_datasets_count c + Z.of_nat (length processed)
                      <? num_clean_datasets) = true) by (apply Z.ltb_lt; lia).
      rewrite Hnlt. reflexivity.
Qed.

Lemma exhaustion_ends_partial_witness :
  (∃ w', main_loop [(Scenario.barren_env, [])] "cancer" 100 0 (mkCursor 0 0)
           Scenario.empty_world = (Ok (Left 1 (mkCursor 0 0)), w') ∧
         terminal 100 (Left 1 (mkCursor 0 0)) = Some DonePartial)
  ∧ (∃ w', main_loop [(Scenario.page_env 5 5, Scenario.page_sched 5)] "cancer" 100 0
             (mkCursor 0 0) Scenario.empty_world = (Ok (Left 1 (mkCursor 10 5)), w') ∧
           terminal 100 (Left 1 (mkCursor 10 5)) = Some DonePartial).
Proof.
  split.
  - pose (w1 := (get_uid_from_term Scenario.barren_env "cancer" batch_size 0
                   Scenario.empty_world).2).
    destruct (exhaustion_ends_partial Scenario.barren_env [] [] "cancer" 100 0
                (mkCursor 0 0) Scenario.empty_world w1 [] 0 0) as (H & _).
    + reflexivity.
    + vm_compute. reflexivity.
    + apply H. reflexivity.
  - pose (env := Scenario.page_env 5 5).
    pose (w1 := (get_uid_from_term env "cancer" batch_size 0 Scenario.empty_world).2).
    pose (uids := map Z.of_nat (seq 100 5)).
    pose (rows := map Scenario.row (Scenario.run_ids 5)).
    pose (w2 := (get_sraid_from_uid env uids w1).2).
    pose (page := download_and_process_parallel env rows GZ_TEMP_FOLDER CLEAN_DATASET_FOLDER
                    (Scenario.page_sched 5) w2).
    pose (processed := match page.1 with Ok l => l | Raise _ => [] end).
    destruct (exhaustion_ends_partial env (Scenario.page_sched 5) [] "cancer" 100 0
                (mkCursor 0 0) Scenario.empty_world w1 uids 5 0) as (_ & H).
    + reflexivity.
    + vm_compute. reflexivity.
    + apply (H w2 page.2 rows processed).
      * discriminate.
      * vm_compute. reflexivity.
      * vm_compute. reflexivity.
      * right. repeat split. vm_compute. lia.
Defined.

(** C9. Whatever is raised inside the [try] block of a pass (by the
    search, by the run-info lookup or by the page) is caught: the pass
    ends without leaving the loop and with the cursor and the count as
    they were, and the loop goes on with the next pass. The loop itself
    never raises, and it is left only with the target met, or on a pass
    whose search came back empty or whose window reached the total. *)
Theorem loop_absorbs_failures (env : Env) (sched : list Event)
    (rest : list (Env * list Event)) (search_term : string) (num_clean_datasets : Z)
    (passes : nat) (c : Cursor) (w : World) :
  (∀ e w1,
     main_try env sched search_term num_clean_datasets c w = (Raise e, w1) →
     clean_datasets_count c < num_clean_datasets →
     ∃ w', main_body env sched search_term num_clean_datasets c w = (Ok (false, c), w') ∧
           main_loop ((env, sched) :: rest) search_term num_clean_datasets passes c w
           = main_loop rest search_term num_clean_datasets (S passes) c w')
  ∧ (∀ rounds, ∃ run w',
       main_loop rounds search_term num_clean_datasets passes c w = (Ok run, w'))
  ∧ (∀ rounds passes' c' w',
       main_loop rounds search_term num_clean_datasets passes c w
         = (Ok (Left passes' c'), w') →
       num_clean_datasets ≤ clean_datasets_count c' ∨
       ∃ env' sched' cx wx uids max_count prev w1,
         In (env', sched') rounds ∧
         get_uid_from_term env' search_term batch_size (retstart cx) wx
           = (Ok (uids, max_count, prev), w1) ∧
         (uids = [] ∨ max_count ≤ retstart c')).
Proof.
  split; [| split].
  - intros e w1 Htry Hlt.
    pose proof (main_body_raise env sched search_term num_clean_datasets c w w1 e Htry)
      as Hbody.
    eexists. split; [exact Hbody |].
    rewrite (main_loop_pass search_term num_clean_datasets env sched rest
               passes c w _ false c Hlt Hbody). reflexivity.
  - intros rounds. apply main_loop_total.
  - intros rounds passes' c' w'. apply main_loop_left.
Qed.

Lemma loop_absorbs_failures_witness :
  (∃ w', main_body Scenario.broken_env [] "cancer" 3 (mkCursor 20 1) Scenario.empty_world
         = (Ok (false, mkCursor 20 1), w') ∧
         main_loop [(Scenario.broken_env, []); (Scenario.broken_env, [])] "cancer" 3 0
           (mkCursor 20 1) Scenario.empty_world
         = main_loop [(Scenario.broken_env, [])] "cancer" 3 1 (mkCursor 20 1) w')
  ∧ (3 ≤ clean_datasets_count (mkCursor 0 10) ∨
       ∃ env' sched' cx wx uids max_count prev w1,
         In (env', sched') [(Scenario.page_env 10 25, Scenario.page_sched 10)] ∧
         get_uid_from_term env' "cancer" batch_size (retstart cx) wx
           = (Ok (uids, max_count, prev), w1) ∧
         (uids = [] ∨ max_count ≤ retstart (mkCursor 0 10))).
Proof.
  split.
  - destruct (loop_absorbs_failures Scenario.broken_env [] [(Scenario.broken_env, [])]
                "cancer" 3 0 (mkCursor 20 1) Scenario.empty_world) as (H & _ & _).
    apply (H "Failed to fetch data from NCBI: 500"
             (main_try Scenario.broken_env [] "cancer" 3 (mkCursor 20 1)
                Scenario.empty_world).2).
    + vm_compute. reflexivity.
    + reflexivity.
  - destruct (loop_absorbs_failures (Scenario.page_env 10 25) (Scenario.page_sched 10) []
                "cancer" 3 0 (mkCursor 0 0) Scenario.empty_world) as (_ & _ & H).
    apply (H [(Scenario.page_env 10 25, Scenario.page_sched 10)] 1%nat (mkCursor 0 10)
             (main_loop [(Scenario.page_env 10 25, Scenario.page_sched 10)] "cancer" 3 0
                (mkCursor 0 0) Scenario.empty_world).2).
    vm_compute. reflexivity.
Defined.

End ControllerClaims.

(** ** Paths of one item *)

Section Paths.

Variable sra_id : string.
Hypothesis Hvalid : has_char slash sra_id = false.

Definition blob_path (id : string) : string := os_path_join GZ_TEMP_FOLDER (blob_name id).
Definition report_dir (id : string) : string :=
  results_dir (os_path_join (os_path_dirname (blob_path id)) FASTQ_TEMP_FOLDER) (blob_path id).
Definition clean_path (id : string) : string :=
  os_path_join CLEAN_DATASET_FOLDER (os_path_basename (blob_path id)).

Lemma blob_name_no_slash : has_char slash (blob_name sra_id) = false.
Proof. unfold blob_name. rewrite has_char_append, Hvalid. reflexivity. Qed.


Lemma blob_path_eq : blob_path sra_id = "temp_gz_files/" +:+ blob_name sra_id.
Proof.
  unfold blob_path, os_path_join.
  rewrite (no_slash_not_absolute _ blob_name_no_slash). reflexivity.
Qed.



Lemma upto_last_slash_child (d name : string) :
  has_char slash name = false → upto_last_slash (d +:+ "/" +:+ name) = d +:+ "/".
Proof.
  intros Hn. induction d as [|x d IH].
  - change ("" +:+ "/" +:+ name) with (String slash name).
    simpl. rewrite Hn, ?Ascii.eqb_refl. reflexivity.
  - rewrite !(append_cons x d). simpl. rewrite has_slash_child. f_equal. exact IH.
Qed.

Lemma basename_blob : os_path_basename (blob_path sra_id) = blob_name sra_id.
Proof.
  rewrite blob_path_eq.
  change ("temp_gz_files/" +:+ blob_name sra_id)
    with ("temp_gz_files" +:+ "/" +:+ blob_name sra_id).
  apply (basename_child "temp_gz_files" (blob_name sra_id) blob_name_no_slash).
Qed.

Lemma dirname_blob : os_path_dirname (blob_path sra_id) = GZ_TEMP_FOLDER.
Proof.
  rewrite blob_path_eq. unfold os_path_dirname.
  change ("temp_gz_files/" +:+ blob_name sra_id)
    with ("temp_gz_files" +:+ "/" +:+ blob_name sra_id).
  rewrite (upto_last_slash_child "temp_gz_files" (blob_name sra_id) blob_name_no_slash).
  reflexivity.
Qed.


Definition report_name (id : string) : string := replace (blob_name id) ".fastq.gz" "_fastqc".

Lemma report_name_no_slash : has_char slash (report_name sra_id) = false.
Proof.
  unfold report_name, replace. apply replace_from_no_slash; [reflexivity |].
  apply blob_name_no_slash.
Qed.

Lemma report_dir_eq : report_dir sra_id = "temp_gz_files/fastqc_temp/" +:+ report_name sra_id.
Proof.
  unfold report_dir, results_dir. rewrite dirname_blob, basename_blob.
  fold (report_name sra_id). unfold os_path_join at 1.
  rewrite (no_slash_not_absolute _ report_name_no_slash). reflexivity.
Qed.

Lemma clean_path_eq : clean_path sra_id = "clean_datasets/" +:+ blob_name sra_id.
Proof.
  unfold clean_path. rewrite basename_blob. unfold os_path_join.
  rewrite (no_slash_not_absolute _ blob_name_no_slash). reflexivity.
Qed.

(** Nothing lies both at or beneath a blob and inside the inspector's scratch. *)
Lemma blob_apart_from_reports (q : string) :
  startswith q (blob_path sra_id) = true →
  startswith q "temp_gz_files/fastqc_temp/" = true → False.
Proof.
  rewrite blob_path_eq. intros Hb Hr.
  destruct (startswith_comparable q _ _ Hb Hr) as [H|H].
  - change "temp_gz_files/fastqc_temp/" with ("temp_gz_files/" +:+ "fastqc_temp/") in H.
    rewrite startswith_cancel in H.
    pose proof (startswith_has_char slash _ _ H eq_refl) as Hs.
    rewrite blob_name_no_slash in Hs. discriminate.
  - change "temp_gz_files/fastqc_temp/" with ("temp_gz_files/" +:+ "fastqc_temp/") in H.
    rewrite startswith_cancel in H.
    assert (Hdot : has_char "." (blob_name sra_id) = true).
    { unfold blob_name. rewrite has_char_append. apply orb_true_r. }
    pose proof (startswith_has_char "." _ _ H Hdot) as Hs.
    vm_compute in Hs. discriminate.
Qed.

End Paths.

Section Apart.

Variables a b : string.
Hypothesis Ha : has_char slash a = false.
Hypothesis Hb : has_char slash b = false.

Lemma blob_path_inj : blob_path a = blob_path b → a = b.
Proof.
  rewrite !blob_path_eq by assumption. unfold blob_name. intros H.
  apply append_inv_head in H. now apply append_inv_tail in H.
Qed.

Lemma under_report_dir (q : string) :
  under (report_dir b) q = true → startswith q "temp_gz_files/fastqc_temp/" = true.
Proof.
  intros H. apply under_startswith in H.
  rewrite report_dir_eq in H by assumption.
  eapply startswith_append_l. exact H.
Qed.

(** What lies at or beneath the blob of [a] is not in the report directory
    of [b], is not the clean copy of [b], and is not the blob of another. *)
Lemma beneath_blob_not_report (q : string) :
  under (blob_path a) q = true → under (report_dir b) q = false.
Proof.
  intros Hq. destruct (under (report_dir b) q) eqn:E; [| reflexivity].
  exfalso. eapply (blob_apart_from_reports a Ha q).
  - now apply under_startswith.
  - now apply under_report_dir.
Qed.

Lemma beneath_blob_not_clean (q : string) :
  under (blob_path a) q = true → q ≠ clean_path b.
Proof.
  intros Hq ->. apply under_startswith in Hq.
  rewrite blob_path_eq, clean_path_eq in Hq by assumption.
  vm_compute in Hq. discriminate.
Qed.

Lemma beneath_blob_not_blob (q : string) :
  a ≠ b → under (blob_path a) q = true → q ≠ blob_path b.
Proof.
  intros Hne Hq ->. unfold under in Hq. apply orb_true_iff in Hq as [Hq|Hq].
  - apply String.eqb_eq in Hq. apply Hne. apply blob_path_inj. now symmetry.
  - rewrite !blob_path_eq in Hq by assumption.
    rewrite append_assoc, startswith_cancel in Hq.
    assert (Hs : has_char slash (blob_name a +:+ "/") = true).
    { rewrite has_char_append. apply orb_true_r. }
    pose proof (startswith_has_char slash _ _ Hq Hs) as H.
    rewrite (blob_name_no_slash b Hb) in H. discriminate.
Qed.

(** What lies in the report directory of [a] is neither a blob nor a clean copy. *)
Lemma in_report_not_blob (q : string) :
  under (report_dir a) q = true → q ≠ blob_path b.
Proof.
  intros Hq ->.
  eapply (blob_apart_from_reports b Hb (blob_path b)).
  - apply startswith_refl.
  - apply under_startswith in Hq. rewrite report_dir_eq in Hq by assumption.
    eapply startswith_append_l. exact Hq.
Qed.

Lemma in_report_not_clean (q : string) :
  under (report_dir a) q = true → q ≠ clean_path b.
Proof.
  intros Hq ->. apply under_startswith in Hq.
  rewrite report_dir_eq, clean_path_eq in Hq by assumption.
  vm_compute in Hq. discriminate.
Qed.

Lemma clean_not_blob : clean_path a ≠ blob_path b.
Proof.
  rewrite clean_path_eq, blob_path_eq by assumption. discriminate.
Qed.

End Apart.

(** ** Where the inspector's archive lies *)

Section Residuals.

(** How far [m] gets along [s]: what of [m] is left when [s] ends while they
    agree, nothing when they differ. *)
Fixpoint residual (s m : string) {struct m} : option string :=
  match m with
  | EmptyString => Some ""
  | String y m' =>
      match s with
      | EmptyString => Some m
      | String x s' => if Ascii.eqb y x then residual s' m' else None
      end
  end.

Lemma startswith_residual (s X m : string) :
  startswith (s +:+ X) m =
    match residual s m with
    | Some m' => startswith X m'
    | None => false
    end.
Proof.
  revert s. induction m as [|y m IH]; intros s; [reflexivity |].
  destruct s as [|x s]; [reflexivity |].
  rewrite append_cons. simpl. destruct (Ascii.eqb y x); [apply IH | reflexivity].
Qed.

(** The non-empty proper suffixes of [m] *)
Fixpoint proper_suffixes (m : string) : list string :=
  match m with
  | EmptyString => []
  | String _ m' =>
      match m' with
      | EmptyString => []
      | String _ _ => m' :: proper_suffixes m'
      end
  end.

Lemma residual_cases (m : string) :
  ∀ s m', residual s m = Some m' → s ≠ "" → m ≠ "" →
    (m' = "" ∧ startswith s m = true) ∨ In m' (proper_suffixes m).
Proof.
  induction m as [|y m IH]; intros s m' Hres Hs Hm; [congruence |].
  destruct s as [|x s]; [congruence |].
  simpl in Hres. simpl. destruct (Ascii.eqb y x); [| discriminate].
  destruct m as [|y' m1].
  - simpl in Hres. injection Hres as <-. left. split; reflexivity.
  - destruct s as [|x' s1].
    + simpl in Hres. injection Hres as <-. right. now left.
    + destruct (IH (String x' s1) m' Hres) as [[-> H]|H]; try congruence.
      * left. split; [reflexivity | exact H].
      * right. now right.
Qed.

End Residuals.

Section Endings.

Lemma startswith_length (s p : string) :
  startswith s p = true → (String.length p ≤ String.length s)%nat.
Proof.
  intros H. destruct (startswith_split s p H) as [t ->].
  rewrite length_append. lia.
Qed.

Lemma startswith_by_residual (s m : string) :
  startswith s m =
    match residual s m with
    | Some m' => startswith "" m'
    | None => false
    end.
Proof.
  rewrite <- (append_empty_r s) at 1. apply startswith_residual.
Qed.

(** No end of [.fastq.gz] is a start of it: an occurrence that begins inside
    a text followed by [.fastq.gz] ends inside the text. *)
Lemma suffix_not_started (s : string) :
  s ≠ "" → startswith (s +:+ ".fastq.gz") ".fastq.gz" = startswith s ".fastq.gz".
Proof.
  intros Hs. rewrite startswith_residual, startswith_by_residual.
  destruct (residual s ".fastq.gz") as [m'|] eqn:Hres; [| reflexivity].
  destruct (residual_cases _ _ _ Hres Hs) as [[-> _]|H]; [discriminate | reflexivity |].
  simpl in H.
  repeat (destruct H as [<-|H]; [reflexivity |]). destruct H.
Qed.

Lemma replace_ends (s : string) :
  ∀ k, (k ≤ String.length s)%nat →
    replace_from ".fastq.gz" "_fastqc" (s +:+ ".fastq.gz") k
    = replace_from ".fastq.gz" "_fastqc" s k +:+ "_fastqc".
Proof.
  induction s as [|c r IH]; intros k Hk.
  - assert (k = 0%nat) as -> by (simpl in Hk; lia). reflexivity.
  - rewrite append_cons. destruct k as [|k].
    + cbn [replace_from].
      change (String c (r +:+ ".fastq.gz")) with (String c r +:+ ".fastq.gz").
      rewrite suffix_not_started by discriminate.
      destruct (startswith (String c r) ".fastq.gz") eqn:E.
      * apply startswith_length in E. simpl in E.
        rewrite IH by (simpl; lia). now rewrite append_assoc.
      * rewrite IH by lia. now rewrite append_cons.
    + cbn [replace_from]. apply IH. simpl in Hk. lia.
Qed.

(** The name of a report directory ends with [_fastqc]. *)
Lemma report_name_ends (sra_id : string) :
  report_name sra_id = replace sra_id ".fastq.gz" "_fastqc" +:+ "_fastqc".
Proof. unfold report_name, blob_name, replace. apply replace_ends. lia. Qed.

Lemma common_ending (a b t1 t2 : string) :
  a +:+ t1 = b +:+ t2 → (String.length t2 ≤ String.length t1)%nat → ∃ p, t1 = p +:+ t2.
Proof.
  revert b. induction a as [|x a IH]; intros b H Hlen.
  - exists b. exact H.
  - destruct b as [|y b].
    + exfalso. rewrite append_nil in H. apply (f_equal String.length) in H.
      rewrite length_append in H. simpl in H. lia.
    + rewrite !append_cons in H. injection H as _ H. now apply (IH b).
Qed.

Lemma report_name_no_archive (a b : string) :
  report_name a ≠ report_name b +:+ ".zip" ∧ report_name a ≠ report_name b +:+ ".html".
Proof.
  rewrite (report_name_ends a). split; intros H.
  - apply common_ending in H as [p Hp]; [| simpl; lia].
    assert (Hl := f_equal String.length Hp). rewrite length_append in Hl. simpl in Hl.
    destruct p as [|p1 [|p2 [|p3 [|p4 p]]]]; simpl in Hl; try lia. discriminate Hp.
  - apply common_ending in H as [p Hp]; [| simpl; lia].
    assert (Hl := f_equal String.length Hp). rewrite length_append in Hl. simpl in Hl.
    destruct p as [|p1 [|p2 [|p3 p]]]; simpl in Hl; try lia. discriminate Hp.
Qed.

End Endings.

Section ArchivePaths.

Variables a b : string.
Hypothesis Ha : has_char slash a = false.
Hypothesis Hb : has_char slash b = false.

Lemma beside_in_scratch (q : string) :
  left_beside (report_dir b) q = true →
  ∃ tail, q = "temp_gz_files/fastqc_temp/" +:+ report_name b +:+ tail ∧
          (tail = ".zip" ∨ tail = ".html").
Proof.
  intros H. apply left_beside_spec in H. rewrite (report_dir_eq b Hb) in H.
  rewrite !append_assoc in H. destruct H as [-> | ->]; eauto.
Qed.

(** The archive and the page of [b] are no blob, no clean copy, and nothing
    in a report directory. *)
Lemma beneath_blob_not_beside (q : string) :
  under (blob_path a) q = true → left_beside (report_dir b) q = false.
Proof.
  intros Hq. destruct (left_beside (report_dir b) q) eqn:E; [| reflexivity].
  exfalso. destruct (beside_in_scratch q E) as (tail & -> & _).
  apply (blob_apart_from_reports a Ha _ (under_startswith _ _ Hq)).
  apply startswith_append.
Qed.

Lemma clean_not_beside : left_beside (report_dir b) (clean_path a) = false.
Proof.
  destruct (left_beside (report_dir b) (clean_path a)) eqn:E; [| reflexivity].
  exfalso. destruct (beside_in_scratch _ E) as (tail & H & _).
  rewrite (clean_path_eq a Ha) in H. discriminate H.
Qed.

Lemma in_report_not_beside (q : string) :
  under (report_dir a) q = true → left_beside (report_dir b) q = false.
Proof.
  intros Hq. destruct (left_beside (report_dir b) q) eqn:E; [| reflexivity].
  exfalso. destruct (beside_in_scratch q E) as (tail & -> & Htail).
  rewrite (report_dir_eq a Ha) in Hq.
  unfold under in Hq. apply orb_true_iff in Hq as [Hq|Hq].
  - apply String.eqb_eq in Hq. apply append_inv_head in Hq.
    destruct (report_name_no_archive a b) as [Hz Hh].
    destruct Htail as [-> | ->]; [now apply Hz | now apply Hh].
  - rewrite append_assoc, startswith_cancel in Hq.
    assert (Hs : has_char slash (report_name a +:+ "/") = true).
    { rewrite has_char_append. apply orb_true_r. }
    pose proof (startswith_has_char slash _ _ Hq Hs) as H.
    rewrite has_char_append, (report_name_no_slash b Hb) in H.
    destruct Htail as [-> | ->]; discriminate H.
Qed.

End ArchivePaths.

Section Existence.

Implicit Types (fs : gmap string string) (p q : string).

Lemma path_exists_spec fs p :
  path_exists fs p = true ↔ ∃ q c, fs !! q = Some c ∧ under p q = true.
Proof.
  split.
  - unfold path_exists, beneath. intros H. apply bool_decide_eq_true in H.
    apply map_choose in H as (q & c & H).
    apply map_lookup_filter_Some in H as [H1 H2]. eauto.
  - intros (q & c & H1 & H2).
    destruct (path_exists fs p) eqn:E; [reflexivity |].
    rewrite (path_absent_beneath fs p q E H2) in H1. discriminate.
Qed.

(** Existence of a path depends only on what lies at or beneath it. *)
Lemma path_exists_frame fs fs' p :
  (∀ q, under p q = true → fs' !! q = fs !! q) →
  path_exists fs' p = path_exists fs p.
Proof.
  intros Hframe.
  destruct (path_exists fs p) eqn:E.
  - apply path_exists_spec in E as (q & c & H1 & H2).
    apply path_exists_spec. exists q, c. split; [| exact H2].
    rewrite Hframe by exact H2. exact H1.
  - destruct (path_exists fs' p) eqn:E'; [| reflexivity].
    apply path_exists_spec in E' as (q & c & H1 & H2).
    rewrite Hframe in H1 by exact H2.
    rewrite (path_absent_beneath fs p q E H2) in H1. discriminate.
Qed.

End Existence.

Section FetchEffect.

Variable env : Env.
Variables (run_info : gmap string string) (output_dir sra_id : string).
Hypothesis Hrun : run_info !! "run" = Some sra_id.

Let url := NCBI_TRACE_BASEURL +:+ sra_id.
Let path := os_path_join output_dir (blob_name sra_id).

(** The exceptions a download can meet *)
Definition fetch_error (e : string) : Prop :=
  http_head env url = HeadRaises e ∨
  http_get env url = GetRaises e ∨
  (∃ chunks, http_get env url = GetBody chunks (Some e)) ∨
  (∃ actual total, e = size_mismatch actual total).

(** The one log record a download leaves, by outcome *)
Definition fetch_record (success : bool) (record : Level * string) : Prop :=
  if success then
    record = (INFO, "File " +:+ blob_name sra_id +:+ " already exists, skipping...") ∨
    record = (INFO, "Successfully downloaded " +:+ blob_name sra_id)
  else
    ∃ e, fetch_error e ∧
         record = (ERROR, "Failed to download " +:+ sra_id +:+ ": " +:+ e).

(** The handler of the fetch stage, run on a world where only the blob
    may differ from the start *)
Lemma fetch_handler (e : string) (w wm : World) (extra : list Request) :
  (∀ q, q ≠ path → fs wm !! q = fs w !! q) →
  log wm = log w → commands wm = commands w →
  fetch_error e →
  ∃ record w',
    (bind (logging ERROR ("Failed to download " +:+ sra_id +:+ ": " +:+ e))
       (λ _, bind (os_path_exists path)
               (λ present, bind (when present (os_remove path))
                             (λ _, ret (sra_id, false))))) wm
    = (Ok (sra_id, false), w') ∧
    commands w' = commands w ∧
    log w' = log w ++ [record] ∧
    fetch_record false record ∧
    (∀ q, q ≠ path → fs w' !! q = fs w !! q) ∧
    fs w' !! path = None.
Proof.
  intros Hframe Hlog Hcmd He.
  unfold bind, logging, os_path_exists, when, os_remove, ret. simpl.
  destruct (path_exists (fs wm) path) eqn:Hex; simpl.
  - eexists. eexists. split; [reflexivity |]. simpl.
    split; [exact Hcmd |]. split; [rewrite Hlog; reflexivity |].
    split; [exists e; split; [exact He | reflexivity] |].
    split.
    + intros q Hq. rewrite lookup_delete_ne by congruence. now apply Hframe.
    + apply lookup_delete_eq.
  - eexists. eexists. split; [reflexivity |]. simpl.
    split; [exact Hcmd |]. split; [rewrite Hlog; reflexivity |].
    split; [exists e; split; [exact He | reflexivity] |].
    split; [exact Hframe |]. now apply path_absent_lookup.
Qed.

Lemma download_effect (w : World) :
  ∃ (success : bool) (record : Level * string) (w' : World),
    download_single_sra_file env run_info output_dir w = (Ok (sra_id, success), w') ∧
    commands w' = commands w ∧
    log w' = log w ++ [record] ∧
    fetch_record success record ∧
    (∀ q, q ≠ path → fs w' !! q = fs w !! q) ∧
    (if success then path_exists (fs w') path = true else fs w' !! path = None).
Proof.
  destruct (path_exists (fs w) path) eqn:Hex.
  - rewrite (download_existing env run_info output_dir sra_id Hrun w Hex).
    exists true. eexists. eexists. split; [reflexivity |]. simpl.
    repeat split; try reflexivity; [left; reflexivity | exact Hex].
  - unfold download_single_sra_file. rewrite Hrun. fold path url.
    unfold try_except. unfold bind at 1. unfold os_path_exists at 1. rewrite Hex.
    unfold bind at 1. unfold requests_head.
    destruct (http_head env url) as [e|cl] eqn:Hhead.
    + destruct (fetch_handler e w
                  (mkWorld (fs w) (log w) (requests w ++ [HEAD url]) (commands w)) [])
        as (record & w' & Hh & H); try reflexivity; [left; exact Hhead |].
      exists false, record, w'. split; [exact Hh | exact H].
    + unfold bind at 1. unfold requests_get. simpl.
      destruct (http_get env url) as [e|chunks broken] eqn:Hget.
      * destruct (fetch_handler e w
                    (mkWorld (fs w) (log w) ((requests w ++ [HEAD url]) ++ [GET url])
                             (commands w)) [])
          as (record & w' & Hh & H); try reflexivity; [right; left; exact Hget |].
        exists false, record, w'. split; [exact Hh | exact H].
      * unfold bind at 1. unfold open_wb. simpl.
        unfold bind at 1.
        rewrite (write_chunks_spec output_dir sra_id chunks broken "")
          by (simpl; apply lookup_insert_eq).
        rewrite append_nil. fold path.
        set (body := String.concat "" chunks).
        set (wm := set_fs (<[path := body]>) (set_fs (<[path := ""]>)
                     (mkWorld (fs w) (log w) ((requests w ++ [HEAD url]) ++ [GET url])
                              (commands w)))).
        assert (Hframe : ∀ q, q ≠ path → fs wm !! q = fs w !! q).
        { intros q Hq. unfold wm. simpl. rewrite !lookup_insert_ne by congruence.
          reflexivity. }
        destruct broken as [e|].
        -- destruct (fetch_handler e w wm []) as (record & w' & Hh & H);
             try reflexivity; try exact Hframe.
           { right; right; left. exists chunks. exact Hget. }
           exists false, record, w'. split; [exact Hh | exact H].
        -- unfold bind at 1. unfold os_path_getsize.
           assert (Hbody : fs wm !! path = Some body).
           { unfold wm. simpl. apply lookup_insert_eq. }
           rewrite Hbody.
           destruct (Z.of_nat (String.length body) <? default 0 cl).
           ++ unfold raise.
              destruct (fetch_handler
                          (size_mismatch (Z.of_nat (String.length body)) (default 0 cl))
                          w wm []) as (record & w' & Hh & H);
                try reflexivity; try exact Hframe.
              { right; right; right. eexists. eexists. reflexivity. }
              exists false, record, w'. split; [exact Hh | exact H].
           ++ unfold bind, logging, ret. simpl.
              exists true. eexists. eexists. split; [reflexivity |]. simpl.
              split; [reflexivity |]. split; [reflexivity |].
              split; [right; reflexivity |].
              split.
              ** intros q Hq. rewrite !lookup_insert_ne by congruence. reflexivity.
              ** apply (lookup_path_exists _ _ body). apply lookup_insert_eq.
Qed.

End FetchEffect.

(** ** The gate on an item of the page *)

Section GateOnPage.

Variable env : Env.
Variable sra_id : string.
Hypothesis Hvalid : has_char slash sra_id = false.

Let gz := blob_path sra_id.
Let cmd := fastqc_path env +:+ " " +:+ gz +:+ " -o " +:+
           os_path_join (os_path_dirname gz) FASTQ_TEMP_FOLDER +:+ " --extract".

Lemma gate_end_fs (fs1 fs2 : gmap string string) (verdict : bool) (record : Level * string) :
  gate_end env gz (os_path_dirname gz) CLEAN_DATASET_FOLDER fs1 verdict record fs2 →
  fs2 = fs1 ∨ ∃ blob, fs2 = <[clean_path sra_id := blob]> fs1.
Proof.
  intros H. destruct H; [left | left | left | right]; try reflexivity.
  eexists. reflexivity.
Qed.

(** What the gate does to the files, to the commands and to its verdict *)
Lemma process_on_page (w : World) :
  ∃ (verdict : bool) (w' : World),
    process_downloaded_file env sra_id gz CLEAN_DATASET_FOLDER w = (Ok verdict, w') ∧
    fs w' !! gz = None ∧
    (∀ q, fs w !! q = None → q ≠ clean_path sra_id →
          left_beside (report_dir sra_id) q = false → fs w' !! q = None) ∧
    (∀ q, under (report_dir sra_id) q = false → q ≠ clean_path sra_id → q ≠ gz →
          left_beside (report_dir sra_id) q = false → fs w' !! q = fs w !! q) ∧
    (path_exists (fs w) gz = true →
       ∀ q, under (report_dir sra_id) q = true → fs w' !! q = None) ∧
    commands w' = commands w ++ (if path_exists (fs w) gz then [cmd] else []) ∧
    requests w' = requests w.
Proof.
  pose proof (process_effect env sra_id gz CLEAN_DATASET_FOLDER w) as H.
  destruct (path_exists (fs w) gz) eqn:Hex.
  - destruct H as (verdict & record & fs2 & Hend & Hrun).
    apply gate_end_fs in Hend.
    exists verdict. eexists. split; [exact Hrun |]. simpl.
    fold (report_dir sra_id).
    assert (Hfs2 : ∀ q, q ≠ clean_path sra_id → under (report_dir sra_id) q = false →
                        left_beside (report_dir sra_id) q = false →
                        fs2 !! q = fs w !! q).
    { intros q Hq Hout Hbeside. destruct Hend as [-> | [blob ->]].
      - now apply inspected_outside.
      - rewrite lookup_insert_ne by congruence. now apply inspected_outside. }
    split; [apply unlinked_blob |].
    split; [| split; [| split; [| split]]].
    + intros q Hq Hne Hbeside. apply unlinked_none.
      destruct (under (report_dir sra_id) q) eqn:Hu.
      * now apply swept_beneath.
      * rewrite swept_outside by exact Hu. rewrite Hfs2 by assumption. exact Hq.
    + intros q Hu Hne Hgz Hbeside. rewrite unlinked_other by exact Hgz.
      rewrite swept_outside by exact Hu. now apply Hfs2.
    + intros _ q Hu. apply unlinked_none. now apply swept_beneath.
    + reflexivity.
    + reflexivity.
  - exists false, w. split; [exact H |].
    split; [now apply path_absent_lookup |].
    split; [auto |]. split; [auto |]. split; [discriminate |].
    split; [now rewrite app_nil_r | reflexivity].
Qed.

(** What the inspector left beside its directory is still there when the
    gate returns. *)
Lemma process_leaves_archive (w : World) (zip html : string) :
  path_exists (fs w) gz = true →
  fastqc_archive env gz = Some (zip, html) →
  ∃ (verdict : bool) (w' : World),
    process_downloaded_file env sra_id gz CLEAN_DATASET_FOLDER w = (Ok verdict, w') ∧
    fs w' !! (report_dir sra_id +:+ ".zip") = Some zip ∧
    fs w' !! (report_dir sra_id +:+ ".html") = Some html.
Proof.
  intros Hex Harchive.
  pose proof (process_effect env sra_id gz CLEAN_DATASET_FOLDER w) as H.
  rewrite Hex in H. destruct H as (verdict & record & fs2 & Hend & Hrun).
  apply gate_end_fs in Hend.
  exists verdict. eexists. split; [exact Hrun |]. simpl.
  fold (report_dir sra_id).
  assert (Hkept : ∀ tail, tail = ".zip" ∨ tail = ".html" →
            unlinked gz (swept gz (os_path_dirname gz) fs2) !! (report_dir sra_id +:+ tail)
            = inspected env gz (os_path_dirname gz) (fs w) !! (report_dir sra_id +:+ tail)).
  { intros tail Ht.
    assert (Hbeside : left_beside (report_dir sra_id) (report_dir sra_id +:+ tail) = true).
    { unfold left_beside. destruct Ht as [-> | ->]; rewrite String.eqb_refl;
        [reflexivity | apply orb_true_r]. }
    assert (Hblob : report_dir sra_id +:+ tail ≠ gz).
    { intros Heq. pose proof (beneath_blob_not_beside sra_id sra_id Hvalid Hvalid gz
                                (under_refl gz)) as Hno.
      rewrite Heq in Hbeside. congruence. }
    assert (Hclean : report_dir sra_id +:+ tail ≠ clean_path sra_id).
    { intros Heq. pose proof (clean_not_beside sra_id sra_id Hvalid Hvalid) as Hno.
      rewrite Heq in Hbeside. congruence. }
    rewrite unlinked_other by exact Hblob.
    fold (report_dir sra_id). rewrite swept_outside by (now apply beside_not_under).
    destruct Hend as [-> | [blob ->]]; [reflexivity |].
    now rewrite lookup_insert_ne by congruence. }
  unfold inspected in Hkept. fold (report_dir sra_id) in Hkept.
  rewrite Harchive in Hkept.
  destruct (beside_written (fs w) (report_dir sra_id) zip html) as [Hz Hh].
  split.
  - rewrite (Hkept ".zip") by now left.
    rewrite extract_outside by (apply beside_not_under; now left). exact Hz.
  - rewrite (Hkept ".html") by now right.
    rewrite extract_outside by (apply beside_not_under; now right). exact Hh.
Qed.

End GateOnPage.

(** ** The page as a whole *)

Section Tally.

(** How many [i < n] satisfy [f] *)
Fixpoint tally (f : nat → bool) (n : nat) : nat :=
  match n with
  | O => O
  | S k => (tally f k + if f k then 1 else 0)%nat
  end.

Lemma tally_ext (f g : nat → bool) (n : nat) :
  (∀ i, (i < n)%nat → f i = g i) → tally f n = tally g n.
Proof.
  induction n as [|k IH]; intros H; [reflexivity |].
  simpl. rewrite IH by (intros i Hi; apply H; lia).
  rewrite (H k) by lia. reflexivity.
Qed.

Lemma tally_flip (f g : nat → bool) (n i : nat) :
  (i < n)%nat → f i = false → g i = true →
  (∀ j, j ≠ i → g j = f j) →
  tally g n = S (tally f n).
Proof.
  intros Hi Hf Hg Hsame. induction n as [|k IH]; [lia |].
  simpl. destruct (decide (i = k)) as [->|Hne].
  - rewrite Hf, Hg.
    rewrite (tally_ext g f k) by (intros j Hj; apply Hsame; lia). lia.
  - rewrite IH by lia. rewrite (Hsame k) by congruence. lia.
Qed.

Lemma tally_le (f : nat → bool) (n : nat) : (tally f n ≤ n)%nat.
Proof. induction n as [|k IH]; simpl; [lia |]. destruct (f k); lia. Qed.

End Tally.

Section PageRun.

Variable env : Env.
Variable rows : list (gmap string string).
Variable ids : list string.
Hypothesis Hrows : Forall2 (λ row id, row !! "run" = Some id) rows ids.
Hypothesis Hnodup : NoDup ids.
Hypothesis Hvalid : Forall (λ id, has_char slash id = false) ids.

Let step := page_step env rows GZ_TEMP_FOLDER CLEAN_DATASET_FOLDER.
Let run := run_schedule env rows GZ_TEMP_FOLDER CLEAN_DATASET_FOLDER.

Definition success_at (pg : Page) (i : nat) : bool :=
  match futures pg !! i with
  | Some (Ok (_, true)) => true
  | _ => false
  end.

(** Futures that were yielded with a successful outcome *)
Definition gated (pg : Page) (i : nat) : bool :=
  bool_decide (i ∈ yielded pg) && success_at pg i.

Definition page_inv (w0 : World) (pg : Page) (w : World) : Prop :=
  (∃ pf, main_thread pg = Ok pf) ∧
  (∀ i r, futures pg !! i = Some r → ∃ id b, ids !! i = Some id ∧ r = Ok (id, b)) ∧
  (∀ i, i ∈ yielded pg → is_Some (futures pg !! i)) ∧
  (∀ i id, ids !! i = Some id → futures pg !! i = Some (Ok (id, true)) →
           i ∉ yielded pg → path_exists (fs w) (blob_path id) = true) ∧
  (∀ i id, ids !! i = Some id →
           futures pg !! i = Some (Ok (id, false)) ∨ i ∈ yielded pg →
           fs w !! blob_path id = None) ∧
  length (commands w) = (length (commands w0) + tally (gated pg) (length ids))%nat.

(** The inspector's scratch holds nothing for the identifiers of the page. *)
Definition scratch_clean (w : World) : Prop :=
  ∀ id q, id ∈ ids → under (report_dir id) q = true → fs w !! q = None.

Lemma ids_valid i id : ids !! i = Some id → has_char slash id = false.
Proof.
  intros H. rewrite Forall_forall in Hvalid. apply Hvalid.
  eapply list_elem_of_lookup_2. exact H.
Qed.

Lemma ids_distinct i j a b : ids !! i = Some a → ids !! j = Some b → i ≠ j → a ≠ b.
Proof.
  intros Hi Hj Hne ->. apply Hne. eapply NoDup_lookup; eassumption.
Qed.

Lemma row_id i row : rows !! i = Some row → ∃ id, ids !! i = Some id ∧ row !! "run" = Some id.
Proof.
  intros H. destruct (Forall2_lookup_l _ _ _ _ _ Hrows H) as (id & Hid & Hr). eauto.
Qed.

Lemma page_inv_step w0 ev pg w :
  page_inv w0 pg w → page_inv w0 (step ev pg w).1 (step ev pg w).2.
Proof.
  intros Hinv. pose proof Hinv as ([pf Hmain] & Hout & Hyield & Hblob & Hgone & Hcmd).
  unfold step, page_step. destruct ev as [i|i].
  - (* a worker runs task i *)
    destruct (rows !! i) as [row|] eqn:Hrow; [| exact Hinv].
    destruct (futures pg !! i) as [r0|] eqn:Hfi; [exact Hinv |].
    destruct (row_id i row Hrow) as (id & Hid & Hrun).
    destruct (download_effect env row GZ_TEMP_FOLDER id Hrun w)
      as (b & record & w' & Hdl & Hc & Hlog & Hrec & Hframe & Hres).
    rewrite Hdl. simpl.
    assert (Hnotin : i ∉ yielded pg).
    { intros Hin. apply Hyield in Hin. rewrite Hfi in Hin. destruct Hin; discriminate. }
    assert (Hidv := ids_valid i id Hid).
    repeat split; simpl.
    + eauto.
    + intros j r. destruct (decide (i = j)) as [<-|Hne].
      * rewrite lookup_insert_eq. intros [= <-]. eauto.
      * rewrite lookup_insert_ne by exact Hne. apply Hout.
    + intros j Hj. destruct (decide (i = j)) as [<-|Hne].
      * rewrite lookup_insert_eq. eauto.
      * rewrite lookup_insert_ne by exact Hne. now apply Hyield.
    + intros j idj Hidj. destruct (decide (i = j)) as [<-|Hne].
      * rewrite lookup_insert_eq. intros [= Hi Hb] _.
        subst b. assert (idj = id) by congruence. subst idj. exact Hres.
      * rewrite lookup_insert_ne by exact Hne. intros Hfj Hnj.
        rewrite <- (Hblob j idj Hidj Hfj Hnj).
        apply path_exists_frame. intros q Hq. apply Hframe.
        apply (beneath_blob_not_blob idj id (ids_valid j idj Hidj) Hidv q); [| exact Hq].
        eapply ids_distinct; eauto.
    + intros j idj Hidj. destruct (decide (i = j)) as [<-|Hne].
      * rewrite lookup_insert_eq. intros [[= Hi Hb] | Hin]; [| contradiction].
        subst b. assert (idj = id) by congruence. subst idj. exact Hres.
      * rewrite lookup_insert_ne by exact Hne. intros Hcase.
        rewrite Hframe; [now apply (Hgone j idj) |].
        intros Heq. apply (blob_path_inj idj id (ids_valid j idj Hidj) Hidv) in Heq.
        eapply (ids_distinct j i idj id); eauto.
    + rewrite Hc, Hcmd. f_equal. apply tally_ext. intros j Hj.
      unfold gated, success_at. simpl.
      destruct (decide (i = j)) as [<-|Hne].
      * rewrite (bool_decide_eq_false_2 _ Hnotin). reflexivity.
      * rewrite lookup_insert_ne by exact Hne. reflexivity.
  - (* the main thread takes future i *)
    destruct (futures pg !! i) as [outcome|] eqn:Hfi; [| exact Hinv].
    rewrite Hmain.
    destruct (decide (i ∈ yielded pg)) as [Hin|Hnotin]; [exact Hinv |].
    destruct (Hout i outcome Hfi) as (id & b & Hid & ->).
    assert (Hidv := ids_valid i id Hid).
    assert (Hilt : (i < length ids)%nat) by (eapply lookup_lt_Some; eassumption).
    unfold completion. destruct b.
    + (* the download succeeded: the gate runs *)
      destruct (process_on_page env id w)
        as (verdict & w' & Hp & Hgz & Hnew & Hframe & Hrep & Hc & _).
      unfold bind. fold (blob_path id). rewrite Hp.
      assert (Hex : path_exists (fs w) (blob_path id) = true) by (eapply Hblob; eauto).
      rewrite Hex in Hc.
      assert (Hinv' : ∀ pf',
        page_inv w0 (mkPage (futures pg) ({[i]} ∪ yielded pg) (Ok pf')) w').
      { intros pf'. repeat split; simpl.
        - eauto.
        - exact Hout.
        - intros j Hj. apply elem_of_union in Hj as [Hj|Hj]; [| now apply Hyield].
          apply elem_of_singleton in Hj. subst j. rewrite Hfi. eauto.
        - intros j idj Hidj Hfj Hnj.
          assert (Hne : j ≠ i) by set_solver.
          assert (Hnj' : j ∉ yielded pg) by set_solver.
          rewrite <- (Hblob j idj Hidj Hfj Hnj').
          apply path_exists_frame. intros q Hq.
          assert (Hjv := ids_valid j idj Hidj).
          apply Hframe.
          + now apply (beneath_blob_not_report idj id Hjv Hidv).
          + now apply (beneath_blob_not_clean idj id Hjv Hidv).
          + apply (beneath_blob_not_blob idj id Hjv Hidv q); [| exact Hq].
            eapply ids_distinct; eauto.
          + now apply (beneath_blob_not_beside idj id Hjv Hidv).
        - intros j idj Hidj Hcase. destruct (decide (j = i)) as [->|Hne].
          + assert (idj = id) by congruence. subst idj. exact Hgz.
          + apply Hnew.
            * apply (Hgone j idj Hidj). destruct Hcase as [Hf|Hj]; [now left | right].
              set_solver.
            * intros Heq. symmetry in Heq.
              exact (clean_not_blob id idj Hidv (ids_valid j idj Hidj) Heq).
            * apply (beneath_blob_not_beside idj id (ids_valid j idj Hidj) Hidv).
              apply under_refl.
        - rewrite Hc, length_app, Hcmd. simpl.
          rewrite (tally_flip (gated pg)
                     (gated (mkPage (futures pg) ({[i]} ∪ yielded pg) (Ok pf')))
                     (length ids) i Hilt).
          + lia.
          + unfold gated. rewrite (bool_decide_eq_false_2 _ Hnotin). reflexivity.
          + unfold gated, success_at. simpl. rewrite Hfi.
            rewrite bool_decide_eq_true_2 by set_solver. reflexivity.
          + intros j Hne. unfold gated, success_at. simpl. f_equal.
            apply bool_decide_ext. set_solver. }
      destruct verdict; apply Hinv'.
    + (* the download failed: nothing happens *)
      unfold ret. simpl. repeat split; simpl.
      * eauto.
      * exact Hout.
      * intros j Hj. apply elem_of_union in Hj as [Hj|Hj]; [| now apply Hyield].
        apply elem_of_singleton in Hj. subst j. rewrite Hfi. eauto.
      * intros j idj Hidj Hfj Hnj. apply (Hblob j idj Hidj Hfj). set_solver.
      * intros j idj Hidj Hcase. apply (Hgone j idj Hidj).
        destruct Hcase as [Hf|Hj]; [now left |].
        apply elem_of_union in Hj as [Hj|Hj]; [| now right].
        apply elem_of_singleton in Hj. subst j. left.
        assert (idj = id) by congruence. subst idj. exact Hfi.
      * rewrite Hcmd. f_equal. apply tally_ext. intros j Hj.
        unfold gated, success_at. simpl.
        destruct (decide (j = i)) as [->|Hne].
        -- rewrite Hfi. now rewrite !andb_false_r.
        -- f_equal. apply bool_decide_ext. set_solver.
Qed.

Lemma scratch_clean_step w0 ev pg w :
  page_inv w0 pg w → scratch_clean w → scratch_clean (step ev pg w).2.
Proof.
  intros ([pf Hmain] & Hout & Hyield & Hblob & Hgone & Hcmd) Hclean.
  assert (Hv : ∀ id, id ∈ ids → has_char slash id = false).
  { intros id Hin. rewrite Forall_forall in Hvalid. now apply Hvalid. }
  unfold step, page_step. destruct ev as [i|i].
  - destruct (rows !! i) as [row|] eqn:Hrow; [| exact Hclean].
    destruct (futures pg !! i) as [r0|] eqn:Hfi; [exact Hclean |].
    destruct (row_id i row Hrow) as (id & Hid & Hrun).
    destruct (download_effect env row GZ_TEMP_FOLDER id Hrun w)
      as (b & record & w' & Hdl & Hc & Hlog & Hrec & Hframe & Hres).
    rewrite Hdl. simpl. intros idk q Hin Hq.
    rewrite Hframe; [now apply (Hclean idk) |].
    apply (in_report_not_blob idk id (Hv idk Hin) (ids_valid i id Hid) q Hq).
  - destruct (futures pg !! i) as [outcome|] eqn:Hfi; [| exact Hclean].
    rewrite Hmain.
    destruct (decide (i ∈ yielded pg)) as [Hin|Hnotin]; [exact Hclean |].
    destruct (Hout i outcome Hfi) as (id & b & Hid & ->).
    unfold completion. destruct b.
    + destruct (process_on_page env id w)
        as (verdict & w' & Hp & Hgz & Hnew & Hframe & Hrep & Hc & _).
      unfold bind. fold (blob_path id). rewrite Hp.
      assert (Hclean' : scratch_clean w').
      { intros idk q Hin Hq. apply Hnew; [now apply (Hclean idk) | |].
        - apply (in_report_not_clean idk id (Hv idk Hin) (ids_valid i id Hid) q Hq).
        - apply (in_report_not_beside idk id (Hv idk Hin) (ids_valid i id Hid) q Hq). }
      destruct verdict; exact Hclean'.
    + exact Hclean.
Qed.

(** Futures and yields are never taken back. *)
Lemma step_keeps ev pg w i :
  (is_Some (futures pg !! i) → is_Some (futures (step ev pg w).1 !! i)) ∧
  (i ∈ yielded pg → i ∈ yielded (step ev pg w).1).
Proof.
  unfold step, page_step. destruct ev as [j|j].
  - destruct (rows !! j) as [row|]; [| tauto].
    destruct (futures pg !! j) as [r0|] eqn:Hfj; [tauto |].
    destruct (download_single_sra_file env row GZ_TEMP_FOLDER w) as [r w']. simpl.
    split; [| tauto]. intros Hi. destruct (decide (j = i)) as [->|Hne].
    + rewrite lookup_insert_eq. eauto.
    + now rewrite lookup_insert_ne.
  - destruct (futures pg !! j) as [outcome|]; [| tauto].
    destruct (main_thread pg) as [pf|e]; [| tauto].
    destruct (decide (j ∈ yielded pg)); [tauto |].
    destruct (completion env GZ_TEMP_FOLDER CLEAN_DATASET_FOLDER outcome pf w) as [r w'].
    simpl. split; [tauto | set_solver].
Qed.

Lemma step_download w0 pg w i :
  page_inv w0 pg w → (i < length rows)%nat →
  is_Some (futures (step (Download i) pg w).1 !! i).
Proof.
  intros _ Hi. unfold step, page_step.
  destruct (lookup_lt_is_Some_2 rows i Hi) as [row Hrow]. rewrite Hrow.
  destruct (futures pg !! i) as [r0|] eqn:Hfi; [simpl; rewrite Hfi; eauto |].
  destruct (download_single_sra_file env row GZ_TEMP_FOLDER w) as [r w']. simpl.
  rewrite lookup_insert_eq. eauto.
Qed.

Lemma step_complete w0 pg w i :
  page_inv w0 pg w → is_Some (futures pg !! i) →
  i ∈ yielded (step (Complete i) pg w).1.
Proof.
  intros ([pf Hmain] & _) [outcome Hfi]. unfold step, page_step.
  rewrite Hfi, Hmain.
  destruct (decide (i ∈ yielded pg)) as [Hin|Hnotin]; [exact Hin |].
  destruct (completion env GZ_TEMP_FOLDER CLEAN_DATASET_FOLDER outcome pf w) as [r w'].
  simpl. set_solver.
Qed.

(** A task that the rest of the schedule still serves ends up yielded. *)
Lemma served_is_yielded w0 i sched :
  (i < length rows)%nat →
  ∀ pg w, page_inv w0 pg w →
    served i sched = true ∨
    (is_Some (futures pg !! i) ∧ existsb (is_complete i) sched = true) ∨
    i ∈ yielded pg →
    i ∈ yielded (run sched pg w).1.
Proof.
  intros Hi. unfold run. induction sched as [|ev rest IH]; intros pg w Hinv Hdue.
  - simpl in *. destruct Hdue as [H | [[_ H] | H]]; [discriminate | discriminate | exact H].
  - simpl.
    pose proof (page_inv_step w0 ev pg w Hinv) as Hinv'.
    pose proof (step_keeps ev pg w i) as [Hkf Hky].
    unfold step in Hinv', Hkf, Hky.
    destruct (page_step env rows GZ_TEMP_FOLDER CLEAN_DATASET_FOLDER ev pg w)
      as [pg' w'] eqn:Hstep.
    cbn [fst snd] in Hinv', Hkf, Hky. apply IH; [exact Hinv' |].
    destruct Hdue as [H | [[Hf H] | H]].
    + destruct ev as [j|j]; cbn [served] in H.
      * destruct (Nat.eqb_spec i j) as [Heq|Hne]; [| now left].
        subst j. right. left. split; [| exact H].
        pose proof (step_download w0 pg w i Hinv Hi) as Hsd.
        unfold step in Hsd. rewrite Hstep in Hsd. exact Hsd.
      * now left.
    + cbn [existsb] in H. apply orb_true_iff in H as [H|H].
      * destruct ev as [j|j]; cbn [is_complete] in H; [discriminate |].
        apply Nat.eqb_eq in H. subst j. right. right.
        pose proof (step_complete w0 pg w i Hinv Hf) as Hsc.
        unfold step in Hsc. rewrite Hstep in Hsc. exact Hsc.
      * right. left. split; [now apply Hkf | exact H].
    + right. right. now apply Hky.
Qed.

Lemma all_submitted : submitted rows = (length rows, true).
Proof.
  clear Hnodup Hvalid step run. revert Hrows. generalize ids. clear ids.
  induction rows as [|row rows' IH]; intros ids' H; [reflexivity |].
  inversion H as [|? id ? ids'' Hrun Hrest]; subst.
  simpl. rewrite Hrun, (IH ids'' Hrest). reflexivity.
Qed.

Lemma length_rows : length rows = length ids.
Proof. eapply Forall2_length. exact Hrows. Qed.

Definition start : Page := mkPage ∅ ∅ (Ok []).

Lemma page_inv_start w : page_inv w start w.
Proof.
  repeat split; simpl.
  - eauto.
  - intros i r. rewrite lookup_empty. discriminate.
  - intros i Hi. set_solver.
  - intros i id _. rewrite lookup_empty. discriminate.
  - intros i id _ [H|H]; [rewrite lookup_empty in H; discriminate | set_solver].
  - rewrite (tally_ext _ (λ _, false)).
    + clear. induction (length ids) as [|k IH]; simpl; lia.
    + intros i _. unfold gated. simpl. apply andb_false_iff. left.
      apply bool_decide_eq_false_2. set_solver.
Qed.

(** The page in terms of its schedule *)
Lemma page_as_schedule sched w :
  download_and_process_parallel env rows GZ_TEMP_FOLDER CLEAN_DATASET_FOLDER sched w
  = (main_thread (run sched start w).1, (run sched start w).2).
Proof.
  unfold download_and_process_parallel, bind, os_makedirs, ret.
  rewrite all_submitted. rewrite firstn_all. unfold run, start.
  destruct (run_schedule env rows GZ_TEMP_FOLDER CLEAN_DATASET_FOLDER sched
              (mkPage ∅ ∅ (Ok [])) w) as [pg w']. reflexivity.
Qed.

(** After a complete schedule: every future was yielded, no blob of the
    page is left, and the inspector ran once per successful download. *)
Lemma page_drained sched w :
  complete_schedule (length rows) sched = true →
  let pg := (run sched start w).1 in
  let w' := (run sched start w).2 in
  (∃ pf, main_thread pg = Ok pf) ∧
  (∀ i, (i < length rows)%nat → i ∈ yielded pg) ∧
  (∀ id, id ∈ ids → fs w' !! blob_path id = None) ∧
  (scratch_clean w → scratch_clean w') ∧
  length (commands w') = (length (commands w) + tally (success_at pg) (length rows))%nat.
Proof.
  intros Hsched pg w'.
  assert (Hinv : page_inv w pg w').
  { apply (run_schedule_invariant env rows GZ_TEMP_FOLDER CLEAN_DATASET_FOLDER
             (page_inv w) (page_inv_step w) sched start w (page_inv_start w)). }
  assert (Hall : ∀ i, (i < length rows)%nat → i ∈ yielded pg).
  { intros i Hi. apply (served_is_yielded w i sched Hi start w (page_inv_start w)).
    left. unfold complete_schedule in Hsched.
    rewrite forallb_forall in Hsched. apply Hsched. apply in_seq. lia. }
  destruct Hinv as (Hmain & Hout & Hyield & Hblob & Hgone & Hcmd).
  split; [exact Hmain |]. split; [exact Hall |]. split; [| split].
  - intros id Hin. apply list_elem_of_lookup_1 in Hin as [i Hi].
    apply (Hgone i id Hi). right. apply Hall. rewrite length_rows.
    eapply lookup_lt_Some. exact Hi.
  - intros Hclean.
    apply (run_schedule_invariant env rows GZ_TEMP_FOLDER CLEAN_DATASET_FOLDER
             (λ pg0 w0, page_inv w pg0 w0 ∧ scratch_clean w0)).
    + intros ev pg0 w0 [Hi Hc]. split.
      * apply (page_inv_step w ev pg0 w0 Hi).
      * apply (scratch_clean_step w ev pg0 w0 Hi Hc).
    + split; [apply page_inv_start | exact Hclean].
  - rewrite Hcmd. f_equal. rewrite length_rows. apply tally_ext.
    intros i Hi. unfold gated. rewrite <- length_rows in Hi.
    rewrite (bool_decide_eq_true_2 _ (Hall i Hi)). reflexivity.
Qed.


End PageRun.

(** ** What the gate leaves behind *)

Section Leftovers.

Variable env : Env.

Lemma left_beside_tail (dir tail : string) :
  tail = ".zip" ∨ tail = ".html" → left_beside dir (dir +:+ tail) = true.
Proof.
  unfold left_beside. intros [-> | ->]; rewrite String.eqb_refl;
    [reflexivity | apply orb_true_r].
Qed.

(** The gate removes nothing but the blob and the report directory. *)
Lemma process_keeps_files (sra_id : string) (w : World) (q : string) :
  is_Some (fs w !! q) → under (report_dir sra_id) q = false → q ≠ blob_path sra_id →
  is_Some (fs (process_downloaded_file env sra_id (blob_path sra_id)
                 CLEAN_DATASET_FOLDER w).2 !! q).
Proof.
  intros Hq Hu Hne.
  pose proof (process_effect env sra_id (blob_path sra_id) CLEAN_DATASET_FOLDER w) as H.
  destruct (path_exists (fs w) (blob_path sra_id)); [| rewrite H; exact Hq].
  destruct H as (verdict & record & fs2 & Hend & ->). simpl.
  apply gate_end_fs in Hend.
  rewrite unlinked_other by exact Hne. rewrite swept_outside by exact Hu.
  assert (Hins : is_Some (inspected env (blob_path sra_id)
                            (os_path_dirname (blob_path sra_id)) (fs w) !! q)).
  { unfold inspected. rewrite extract_outside by exact Hu. now apply beside_some. }
  destruct Hend as [-> | [blob ->]]; [exact Hins |].
  destruct (decide (clean_path sra_id = q)) as [->|Hc].
  - rewrite lookup_insert_eq. eauto.
  - now rewrite lookup_insert_ne.
Qed.

Variable rows : list (gmap string string).
Variable ids : list string.
Hypothesis Hrows : Forall2 (λ row id, row !! "run" = Some id) rows ids.
Hypothesis Hnodup : NoDup ids.
Hypothesis Hvalid : Forall (λ id, has_char slash id = false) ids.

Let step := page_step env rows GZ_TEMP_FOLDER CLEAN_DATASET_FOLDER.

(** The archive and the page of every item gated so far, if the inspector
    made them, are in the inspector's output folder. *)
Definition archives_left (pg : Page) (w : World) : Prop :=
  ∀ i id tail, ids !! i = Some id → gated pg i = true →
    is_Some (fastqc_archive env (blob_path id)) →
    tail = ".zip" ∨ tail = ".html" →
    is_Some (fs w !! (report_dir id +:+ tail)).

Lemma archives_left_step w0 ev pg w :
  page_inv ids w0 pg w → archives_left pg w →
  archives_left (step ev pg w).1 (step ev pg w).2.
Proof.
  intros ([pf Hmain] & Hout & Hyield & Hblob & Hgone & Hcmd) Hleft.
  unfold step, page_step. destruct ev as [i|i].
  - (* a worker runs task i *)
    destruct (rows !! i) as [row|] eqn:Hrow; [| exact Hleft].
    destruct (futures pg !! i) as [r0|] eqn:Hfi; [exact Hleft |].
    destruct (row_id rows ids Hrows i row Hrow) as (id & Hid & Hrun).
    destruct (download_effect env row GZ_TEMP_FOLDER id Hrun w)
      as (b & record & w' & Hdl & _ & _ & _ & Hframe & _).
    rewrite Hdl. simpl.
    assert (Hnotin : i ∉ yielded pg).
    { intros Hin. apply Hyield in Hin. rewrite Hfi in Hin. destruct Hin; discriminate. }
    intros j idj tail Hj Hgated Harch Htail.
    assert (Hne : i ≠ j).
    { intros <-. unfold gated in Hgated. simpl in Hgated.
      rewrite (bool_decide_eq_false_2 _ Hnotin) in Hgated. discriminate. }
    rewrite Hframe.
    + apply (Hleft j idj tail Hj); [| exact Harch | exact Htail].
      unfold gated, success_at in *. simpl in Hgated.
      now rewrite lookup_insert_ne in Hgated.
    + intros Heq.
      pose proof (beneath_blob_not_beside id idj (ids_valid ids Hvalid i id Hid)
                    (ids_valid ids Hvalid j idj Hj) (blob_path id) (under_refl _)) as Hno.
      fold (blob_path id) in Heq. rewrite <- Heq, (left_beside_tail _ _ Htail) in Hno.
      discriminate.
  - (* the main thread takes future i *)
    destruct (futures pg !! i) as [outcome|] eqn:Hfi; [| exact Hleft].
    rewrite Hmain.
    destruct (decide (i ∈ yielded pg)) as [Hin|Hnotin]; [exact Hleft |].
    destruct (Hout i outcome Hfi) as (id & b & Hid & ->).
    assert (Hidv := ids_valid ids Hvalid i id Hid).
    assert (Hkeep : ∀ j, j ≠ i → ∀ pf',
              gated (mkPage (futures pg) ({[i]} ∪ yielded pg) pf') j = gated pg j).
    { intros j Hne pf'. unfold gated, success_at. simpl. f_equal.
      apply bool_decide_ext. set_solver. }
    unfold completion. destruct b.
    + assert (Hex : path_exists (fs w) (blob_path id) = true) by (eapply Hblob; eauto).
      unfold bind. fold (blob_path id).
      assert (Hgoal : ∀ pf',
        archives_left (mkPage (futures pg) ({[i]} ∪ yielded pg) pf')
          (process_downloaded_file env id (blob_path id) CLEAN_DATASET_FOLDER w).2).
      { intros pf' j idj tail Hj Hgated Harch Htail.
        destruct (decide (j = i)) as [->|Hne].
        - assert (idj = id) by congruence. subst idj.
          destruct Harch as [[zip html] Harch].
          destruct (process_leaves_archive env id Hidv w zip html Hex Harch)
            as (v & w' & -> & Hz & Hh). simpl.
          destruct Htail as [-> | ->]; eauto.
        - rewrite (Hkeep j Hne) in Hgated.
          assert (Hjv := ids_valid ids Hvalid j idj Hj).
          apply process_keeps_files.
          + now apply (Hleft j idj tail Hj).
          + destruct (under (report_dir id) (report_dir idj +:+ tail)) eqn:Hu;
              [| reflexivity].
            pose proof (in_report_not_beside id idj Hidv Hjv _ Hu) as Hno.
            rewrite (left_beside_tail _ _ Htail) in Hno. discriminate.
          + intros Heq.
            pose proof (beneath_blob_not_beside id idj Hidv Hjv (blob_path id)
                          (under_refl _)) as Hno.
            rewrite <- Heq, (left_beside_tail _ _ Htail) in Hno. discriminate. }
      destruct (process_downloaded_file env id (blob_path id) CLEAN_DATASET_FOLDER w)
        as [[passed|e] w']; [destruct passed |]; apply Hgoal.
    + unfold ret. simpl. intros j idj tail Hj Hgated Harch Htail.
      destruct (decide (j = i)) as [->|Hne].
      * unfold gated, success_at in Hgated. simpl in Hgated. rewrite Hfi in Hgated.
        rewrite andb_false_r in Hgated. discriminate.
      * rewrite (Hkeep j Hne) in Hgated. now apply (Hleft j idj tail Hj).
Qed.

Lemma archives_left_start w : archives_left start w.
Proof.
  intros i id tail _ Hgated. unfold gated in Hgated. simpl in Hgated.
  rewrite bool_decide_eq_false_2 in Hgated by set_solver. discriminate.
Qed.

(** After a complete schedule the archives of all inspected items are
    there. *)
Lemma archives_stay sched w :
  complete_schedule (length rows) sched = true →
  let pg := (run_schedule env rows GZ_TEMP_FOLDER CLEAN_DATASET_FOLDER sched start w).1 in
  let w' := (run_schedule env rows GZ_TEMP_FOLDER CLEAN_DATASET_FOLDER sched start w).2 in
  ∀ i id tail, ids !! i = Some id → success_at pg i = true →
    is_Some (fastqc_archive env (blob_path id)) →
    tail = ".zip" ∨ tail = ".html" →
    is_Some (fs w' !! (report_dir id +:+ tail)).
Proof.
  intros Hsched pg w' i id tail Hid Hsucc.
  destruct (page_drained env rows ids Hrows Hnodup Hvalid sched w Hsched)
    as (_ & Hall & _).
  pose proof (run_schedule_invariant env rows GZ_TEMP_FOLDER CLEAN_DATASET_FOLDER
                (λ pg0 w0, page_inv ids w pg0 w0 ∧ archives_left pg0 w0)
                (λ ev pg0 w0 H,
                   conj (page_inv_step env rows ids Hrows Hnodup Hvalid w ev pg0 w0 (proj1 H))
                        (archives_left_step w ev pg0 w0 (proj1 H) (proj2 H)))
                sched start w
                (conj (page_inv_start rows ids Hrows Hnodup Hvalid w) (archives_left_start w)))
    as [_ Hleft].
  apply (Hleft i id tail Hid).
  unfold gated. fold pg. rewrite Hsucc, andb_true_r. apply bool_decide_eq_true_2.
  apply Hall. rewrite (length_rows rows ids Hrows). eapply lookup_lt_Some. exact Hid.
Qed.

End Leftovers.

Section CleanupClaims.




End CleanupClaims.

(** ** What the monitor sees in a line *)

Section Markers.



(** The residuals of [m] at the non-empty suffixes of [P] *)
Fixpoint suffix_residuals (P m : string) : list string :=
  match P with
  | EmptyString => []
  | String _ P' =>
      match residual P m with
      | Some m' => m' :: suffix_residuals P' m
      | None => suffix_residuals P' m
      end
  end.

Lemma str_in_append (P X m : string) :
  str_in m (P +:+ X) = existsb (startswith X) (suffix_residuals P m) || str_in m X.
Proof.
  induction P as [|x P IH]; [reflexivity |].
  rewrite append_cons. cbn [str_in]. rewrite IH.
  rewrite <- append_cons. rewrite startswith_residual.
  cbn [suffix_residuals].
  destruct (residual (String x P) m) as [m'|]; [| reflexivity].
  cbn [existsb]. now rewrite orb_assoc.
Qed.

(** A text without the first character of [m] cannot hold the start of an
    occurrence of [m]. *)
Lemma str_in_skip (c : ascii) (m' a X : string) :
  has_char c a = false →
  str_in (String c m') (a +:+ X) = str_in (String c m') X.
Proof.
  intros Ha. induction a as [|x a IH]; [reflexivity |].
  simpl in Ha. apply orb_false_iff in Ha as [Hx Ha].
  rewrite append_cons. cbn [str_in startswith]. rewrite Hx. simpl.
  now apply IH.
Qed.

Lemma startswith_skip (c : ascii) (m' a X : string) :
  has_char c a = false → startswith X (String c m') = false →
  startswith (a +:+ X) (String c m') = false.
Proof.
  intros Ha HX. destruct a as [|x a]; [exact HX |].
  simpl in Ha. apply orb_false_iff in Ha as [Hx _].
  rewrite append_cons. cbn [startswith]. now rewrite Hx.
Qed.

End Markers.

Section Accessions.

(** The characters of SRA run accessions: SRR, ERR, DRR and digits *)
Definition accession_char (c : ascii) : bool := has_char c "0123456789DERS".

Fixpoint accession (id : string) : bool :=
  match id with
  | EmptyString => true
  | String c r => accession_char c && accession r
  end.

Lemma accession_has_char (c : ascii) (id : string) :
  accession_char c = false → accession id = true → has_char c id = false.
Proof.
  intros Hc. induction id as [|x r IH]; [reflexivity |].
  simpl. intros H. apply andb_true_iff in H as [Hx Hr].
  rewrite (IH Hr). destruct (Ascii.eqb_spec c x) as [->|]; [congruence | reflexivity].
Qed.

Lemma accession_no_slash (id : string) : accession id = true → has_char slash id = false.
Proof. apply accession_has_char. reflexivity. Qed.

End Accessions.

Section Texts.



(** An arbitrary text [a] that does not hold [m], followed by [X]: [m]
    occurs in the whole only if it occurs in [X], provided no proper suffix
    of [m] starts [X]. *)
Lemma str_in_text (a X m : string) :
  m ≠ "" → str_in m a = false →
  forallb (λ m', negb (startswith X m')) (proper_suffixes m) = true →
  str_in m (a +:+ X) = str_in m X.
Proof.
  intros Hm Ha HX. induction a as [|x a IH]; [reflexivity |].
  cbn [str_in] in Ha. apply orb_false_iff in Ha as [Hhead Ha].
  rewrite append_cons. cbn [str_in]. rewrite (IH Ha).
  rewrite <- append_cons, startswith_residual.
  destruct (residual (String x a) m) as [m'|] eqn:Hres; [| reflexivity].
  destruct (residual_cases m _ _ Hres) as [[_ H]|H]; try congruence.
  rewrite forallb_forall in HX. specialize (HX m' H).
  apply negb_true_iff in HX. rewrite HX. reflexivity.
Qed.

(** *** Lines *)

Lemma split_lines_nonempty (s : string) : split_lines s ≠ [].
Proof.
  destruct s as [|c r]; simpl; [discriminate |].
  destruct (Ascii.eqb c newline); [discriminate |].
  destruct (split_lines r); discriminate.
Qed.

Lemma split_lines_newline (x y : string) :
  split_lines (x +:+ String newline y) = split_lines x ++ split_lines y.
Proof.
  induction x as [|c x IH].
  - rewrite append_nil. simpl. rewrite ?Ascii.eqb_refl. reflexivity.
  - rewrite append_cons. simpl. destruct (Ascii.eqb c newline).
    + rewrite IH. reflexivity.
    + rewrite IH. pose proof (split_lines_nonempty x) as Hne.
      destruct (split_lines x) as [|l ls]; [congruence | reflexivity].
Qed.

Lemma split_lines_plain (s : string) : has_char newline s = false → split_lines s = [s].
Proof.
  induction s as [|c r IH]; [reflexivity |].
  simpl. intros H. apply orb_false_iff in H as [Hc Hr].
  rewrite Ascii.eqb_sym in Hc. rewrite Hc. rewrite (IH Hr). reflexivity.
Qed.

(** A line of a text file has its only newline at its end. *)
Lemma file_lines_newline (s line : string) :
  In line (file_lines s) →
  ∃ body, has_char newline body = false ∧ (line = body ∨ line = body +:+ String newline "").
Proof.
  revert line. induction s as [|c r IH]; intros line; simpl; [tauto |].
  destruct (Ascii.eqb_spec c newline) as [->|Hc].
  - intros [<- | Hin]; [| now apply IH].
    exists "". split; [reflexivity | right; reflexivity].
  - destruct (file_lines r) as [|l ls] eqn:E.
    + intros [<- | []]. exists (String c ""). split; [| now left].
      simpl. apply Ascii.eqb_neq in Hc. rewrite Ascii.eqb_sym, Hc. reflexivity.
    + intros [<- | Hin].
      * destruct (IH l (or_introl eq_refl)) as (body & Hb & Hl).
        exists (String c body). split.
        -- simpl. apply Ascii.eqb_neq in Hc. rewrite Ascii.eqb_sym, Hc. exact Hb.
        -- destruct Hl as [-> | ->]; [now left | right; reflexivity].
      * apply IH. now right.
Qed.

Lemma rstrip_newline (body : string) (tail : string) :
  has_char newline body = false →
  (tail = "" ∨ tail = String newline "") →
  has_char newline (rstrip (body +:+ tail)) = false.
Proof.
  intros Hb Ht. induction body as [|c r IH].
  - rewrite append_nil. destruct Ht as [-> | ->]; reflexivity.
  - simpl in Hb. apply orb_false_iff in Hb as [Hc Hr].
    rewrite append_cons. cbn [rstrip].
    destruct (is_space c && String.eqb (rstrip (r +:+ tail)) ""); [reflexivity |].
    simpl. rewrite Hc. simpl. now apply IH.
Qed.

Lemma lstrip_suffix (s : string) : ∃ pre, s = pre +:+ lstrip s.
Proof.
  induction s as [|c r [pre IH]]; [exists ""; reflexivity |].
  simpl. destruct (is_space c).
  - exists (String c pre). rewrite append_cons. now f_equal.
  - exists "". reflexivity.
Qed.

Lemma strip_line_newline (s line : string) :
  In line (file_lines s) → has_char newline (strip line) = false.
Proof.
  intros Hin. destruct (file_lines_newline s line Hin) as (body & Hb & Hl).
  unfold strip.
  assert (H : ∃ body' tail, lstrip line = body' +:+ tail ∧
                has_char newline body' = false ∧ (tail = "" ∨ tail = String newline "")).
  { destruct Hl as [-> | ->].
    - exists (lstrip body), "". rewrite append_empty_r. split; [reflexivity |].
      split; [| now left].
      destruct (lstrip_suffix body) as [pre Hpre].
      rewrite Hpre, has_char_append in Hb. now apply orb_false_iff in Hb as [_ ?].
    - clear Hin. induction body as [|c r IH].
      + exists "", "". split; [reflexivity |]. split; [reflexivity | now left].
      + simpl in Hb. apply orb_false_iff in Hb as [Hc Hr].
        rewrite append_cons. cbn [lstrip]. destruct (is_space c).
        * now apply IH.
        * exists (String c r), (String newline ""). split; [reflexivity |].
          split; [| now right]. simpl. now rewrite Hc, Hr. }
  destruct H as (body' & tail & -> & Hb' & Ht). now apply rstrip_newline.
Qed.

End Texts.

Section Digits.

Lemma pretty_N_char_digit (d : N) : has_char (pretty_N_char d) "0123456789" = true.
Proof.
  unfold pretty_N_char.
  repeat (match goal with |- context [match ?x with _ => _ end] => destruct x end;
          try reflexivity).
Qed.

Lemma has_char_pretty_N_go (c : ascii) (x : N) (s : string) :
  has_char c "0123456789" = false →
  has_char c (pretty_N_go x s) = has_char c s.
Proof.
  intros Hc. revert s. induction (N.lt_wf_0 x) as [x _ IH]; intros s.
  destruct (decide (x = 0)%N) as [->|Hx].
  - now rewrite pretty_N_go_0.
  - rewrite pretty_N_go_step by lia. rewrite IH by (apply N.div_lt; lia).
    simpl. destruct (Ascii.eqb_spec c (pretty_N_char (x `mod` 10)%N)) as [Heq|]; [| reflexivity].
    pose proof (pretty_N_char_digit (x `mod` 10)%N) as Hd.
    rewrite <- Heq in Hd. congruence.
Qed.

(** A decimal numeral holds only digits and the minus sign. *)
Lemma has_char_pretty_Z (c : ascii) (z : Z) :
  has_char c "0123456789-" = false → has_char c (pretty z) = false.
Proof.
  intros Hc.
  assert (Hd : has_char c "0123456789" = false).
  { change "0123456789-" with ("0123456789" +:+ "-") in Hc.
    rewrite has_char_append in Hc. now apply orb_false_iff in Hc as [? _]. }
  assert (Hm : Ascii.eqb c "-" = false).
  { change "0123456789-" with ("0123456789" +:+ "-") in Hc.
    rewrite has_char_append in Hc. apply orb_false_iff in Hc as [_ H].
    simpl in H. now apply orb_false_iff in H as [? _]. }
  assert (HN : ∀ n : N, has_char c (pretty n) = false).
  { intros n. unfold pretty, pretty_N. destruct (decide (n = 0)%N).
    - simpl. destruct (Ascii.eqb_spec c "0") as [->|]; [discriminate Hd | reflexivity].
    - now rewrite has_char_pretty_N_go. }
  destruct z as [|p|p]; unfold pretty, pretty_Z.
  - simpl. destruct (Ascii.eqb_spec c "0") as [->|]; [discriminate Hd | reflexivity].
  - apply (HN (Npos p)).
  - rewrite has_char_append. simpl. rewrite Hm. simpl. apply (HN (Npos p)).
Qed.

End Digits.

(** ** The records of a page, as the monitor reads them *)

Section Sightings.

Definition marker_rejected : string := "FastQC found quality issues".
Definition marker_passed : string := "File passed quality check".

(** What a record is to the monitor: a quality rejection (first counting
    branch), an acceptance (second branch), or nothing. *)
Inductive Kind := Rejected | Accepted | Other.

Definition sighted (k : Kind) (msg : string) : Prop :=
  has_char newline msg = false ∧
  match k with
  | Rejected => str_in marker_rejected msg = true
  | Accepted => str_in marker_rejected msg = false ∧ str_in marker_passed msg = true
  | Other => str_in marker_rejected msg = false ∧ str_in marker_passed msg = false
  end.

(** A text of the environment that the monitor cannot mistake *)
Definition quiet (e : string) : Prop := sighted Other e.

Definition blocked (T m' : string) : bool :=
  match m' with
  | EmptyString => false
  | String y _ => negb (accession_char y) && negb (startswith T m')
  end.

Lemma startswith_accession (id T m' : string) :
  accession id = true → blocked T m' = true → startswith (id +:+ T) m' = false.
Proof.
  intros Hid Hb. destruct m' as [|y m'']; [discriminate |].
  simpl in Hb. apply andb_true_iff in Hb as [Hy HT].
  apply negb_true_iff in Hy, HT.
  destruct id as [|x r]; [exact HT |].
  simpl in Hid. apply andb_true_iff in Hid as [Hx _].
  rewrite append_cons. simpl.
  destruct (Ascii.eqb_spec y x) as [->|]; [congruence | reflexivity].
Qed.

(** An accession between a fixed text [P] and a text [T] hides no marker. *)
Lemma str_in_around (P id T : string) (c : ascii) (m0 : string) :
  accession_char c = false → accession id = true →
  forallb (blocked T) (suffix_residuals P (String c m0)) = true →
  str_in (String c m0) (P +:+ id +:+ T) = str_in (String c m0) T.
Proof.
  intros Hc Hid Hres. rewrite str_in_append.
  rewrite (str_in_skip c m0 id T (accession_has_char c id Hc Hid)).
  assert (Hex : existsb (startswith (id +:+ T)) (suffix_residuals P (String c m0)) = false).
  { induction (suffix_residuals P (String c m0)) as [|m' l IH]; [reflexivity |].
    simpl in Hres. apply andb_true_iff in Hres as [Hb Hl].
    simpl. rewrite (startswith_accession id T m' Hid Hb). simpl. now apply IH. }
  rewrite Hex. reflexivity.
Qed.

Lemma str_in_fixed (P X m : string) :
  suffix_residuals P m = [] → str_in m (P +:+ X) = str_in m X.
Proof. intros H. rewrite str_in_append, H. reflexivity. Qed.

Variable sra_id : string.
Hypothesis Hid : accession sra_id = true.

Let Hslash : has_char slash sra_id = false := accession_no_slash sra_id Hid.
Let Hnl : has_char newline sra_id = false :=
  accession_has_char newline sra_id eq_refl Hid.

Ltac assoc := unfold sighted, marker_rejected, marker_passed; rewrite ?append_assoc.

Lemma sighted_skip :
  sighted Other ("File " +:+ blob_name sra_id +:+ " already exists, skipping...").
Proof.
  unfold blob_name. assoc. split; [| split].
  - rewrite !has_char_append, Hnl. reflexivity.
  - rewrite (str_in_around "File " sra_id _ "F" _ eq_refl Hid); reflexivity.
  - rewrite (str_in_around "File " sra_id _ "F" _ eq_refl Hid); reflexivity.
Qed.

Lemma sighted_downloaded :
  sighted Other ("Successfully downloaded " +:+ blob_name sra_id).
Proof.
  unfold blob_name. assoc. split; [| split].
  - rewrite !has_char_append, Hnl. reflexivity.
  - rewrite (str_in_around "Successfully downloaded " sra_id _ "F" _ eq_refl Hid); reflexivity.
  - rewrite (str_in_around "Successfully downloaded " sra_id _ "F" _ eq_refl Hid); reflexivity.
Qed.

Lemma sighted_failed (e : string) :
  quiet e → sighted Other ("Failed to download " +:+ sra_id +:+ ": " +:+ e).
Proof.
  intros (He0 & He1 & He2). unfold marker_rejected, marker_passed in *. assoc.
  split; [| split].
  - rewrite !has_char_append, Hnl, He0. reflexivity.
  - rewrite (str_in_around "Failed to download " sra_id _ "F" _ eq_refl Hid) by reflexivity.
    rewrite str_in_fixed by reflexivity. exact He1.
  - rewrite (str_in_around "Failed to download " sra_id _ "F" _ eq_refl Hid) by reflexivity.
    rewrite str_in_fixed by reflexivity. exact He2.
Qed.

Lemma sighted_passed :
  sighted Other ("File " +:+ sra_id +:+ " passed quality check").
Proof.
  assoc. split; [| split].
  - rewrite !has_char_append, Hnl. reflexivity.
  - rewrite (str_in_around "File " sra_id _ "F" _ eq_refl Hid); reflexivity.
  - rewrite (str_in_around "File " sra_id _ "F" _ eq_refl Hid); reflexivity.
Qed.

Lemma sighted_accepted :
  sighted Accepted
    ("File passed quality check and copied to clean dataset folder: " +:+ clean_path sra_id).
Proof.
  rewrite (clean_path_eq sra_id Hslash). unfold blob_name. assoc. split; [| split].
  - rewrite !has_char_append, Hnl. reflexivity.
  - change ("File passed quality check and copied to clean dataset folder: " +:+
            "clean_datasets/" +:+ sra_id +:+ ".fastq.gz")
      with ("File passed quality check and copied to clean dataset folder: clean_datasets/"
            +:+ sra_id +:+ ".fastq.gz").
    rewrite (str_in_around _ sra_id _ "F" _ eq_refl Hid); reflexivity.
  - reflexivity.
Qed.

Lemma sighted_rejected (detail : string) :
  has_char newline detail = false →
  sighted Rejected
    ("FastQC found quality issues in " +:+ os_path_basename (blob_path sra_id) +:+
     ": " +:+ detail).
Proof.
  intros Hd. rewrite (basename_blob sra_id Hslash). unfold blob_name. assoc. split.
  - rewrite !has_char_append, Hnl, Hd. reflexivity.
  - reflexivity.
Qed.

Lemma sighted_error (e : string) :
  quiet e →
  sighted Other ("Error running FastQC on " +:+ blob_path sra_id +:+ ": " +:+ e).
Proof.
  intros (He0 & He1 & He2). unfold marker_rejected, marker_passed in *.
  rewrite (blob_path_eq sra_id Hslash). unfold blob_name. assoc.
  change ("Error running FastQC on " +:+ "temp_gz_files/" +:+ sra_id +:+ ".fastq.gz" +:+ ": " +:+ e)
    with ("Error running FastQC on temp_gz_files/" +:+ sra_id +:+ ".fastq.gz: " +:+ e).
  split; [| split].
  - rewrite !has_char_append, Hnl, He0. reflexivity.
  - rewrite (str_in_around _ sra_id _ "F" _ eq_refl Hid) by reflexivity.
    rewrite str_in_fixed by reflexivity. exact He1.
  - rewrite (str_in_around _ sra_id _ "F" _ eq_refl Hid) by reflexivity.
    rewrite str_in_fixed by reflexivity. exact He2.
Qed.

End Sightings.

Section MoreSightings.

Lemma replace_from_has_char (c : ascii) (old new s : string) (skip : nat) :
  has_char c new = false → has_char c s = false →
  has_char c (replace_from old new s skip) = false.
Proof.
  intros Hnew. revert skip. induction s as [|x r IH]; intros skip Hs; [reflexivity |].
  simpl in Hs. apply orb_false_iff in Hs as [Hc Hr].
  simpl. destruct skip as [|k].
  - destruct (startswith (String x r) old).
    + rewrite has_char_append, Hnew. simpl. now apply IH.
    + simpl. rewrite Hc. simpl. now apply IH.
  - now apply IH.
Qed.

Variable sra_id : string.
Hypothesis Hid : accession sra_id = true.

Let Hslash : has_char slash sra_id = false := accession_no_slash sra_id Hid.

Lemma report_name_has_char (c : ascii) :
  accession_char c = false → has_char c ".fastq.gz" = false →
  has_char c "_fastqc" = false → has_char c (report_name sra_id) = false.
Proof.
  intros Hc Hext Hnew. unfold report_name, replace.
  apply replace_from_has_char; [exact Hnew |].
  unfold blob_name. rewrite has_char_append, Hext.
  rewrite (accession_has_char c sra_id Hc Hid). reflexivity.
Qed.

Lemma sighted_no_summary :
  sighted Other
    ("FastQC summary file not found: " +:+ os_path_join (report_dir sra_id) "summary.txt").
Proof.
  rewrite (report_dir_eq sra_id Hslash).
  pose proof (report_name_has_char "F" eq_refl eq_refl eq_refl) as HF.
  pose proof (report_name_has_char newline eq_refl eq_refl eq_refl) as HN.
  unfold sighted, marker_rejected, marker_passed, os_path_join.
  change (startswith "summary.txt" "/") with false. cbv iota.
  destruct (String.eqb ("temp_gz_files/fastqc_temp/" +:+ report_name sra_id) "" ||
            endswith_slash ("temp_gz_files/fastqc_temp/" +:+ report_name sra_id));
    rewrite ?append_assoc.
  - change ("FastQC summary file not found: " +:+ "temp_gz_files/fastqc_temp/" +:+
            report_name sra_id +:+ "summary.txt")
      with ("FastQC summary file not found: temp_gz_files/fastqc_temp/" +:+
            report_name sra_id +:+ "summary.txt").
    split; [| split].
    + rewrite !has_char_append, HN. reflexivity.
    + rewrite str_in_fixed by reflexivity. rewrite (str_in_skip "F" _ _ _ HF). reflexivity.
    + rewrite str_in_fixed by reflexivity. rewrite (str_in_skip "F" _ _ _ HF). reflexivity.
  - change ("FastQC summary file not found: " +:+ "temp_gz_files/fastqc_temp/" +:+
            report_name sra_id +:+ "/" +:+ "summary.txt")
      with ("FastQC summary file not found: temp_gz_files/fastqc_temp/" +:+
            report_name sra_id +:+ "/summary.txt").
    split; [| split].
    + rewrite !has_char_append, HN. reflexivity.
    + rewrite str_in_fixed by reflexivity. rewrite (str_in_skip "F" _ _ _ HF). reflexivity.
    + rewrite str_in_fixed by reflexivity. rewrite (str_in_skip "F" _ _ _ HF). reflexivity.
Qed.

Lemma sighted_running (fastqc : string) :
  quiet fastqc →
  sighted Other
    ("Running FastQC: " +:+ fastqc +:+ " " +:+ blob_path sra_id +:+ " -o " +:+
     os_path_join (os_path_dirname (blob_path sra_id)) FASTQ_TEMP_FOLDER +:+ " --extract").
Proof.
  intros (Hq0 & Hq1 & Hq2). unfold marker_rejected, marker_passed in *.
  rewrite (dirname_blob sra_id Hslash), (blob_path_eq sra_id Hslash).
  unfold blob_name, sighted, marker_rejected, marker_passed. rewrite ?append_assoc.
  assert (Hnl : has_char newline sra_id = false)
    by (apply (accession_has_char newline sra_id eq_refl Hid)).
  split; [| split].
  - rewrite !has_char_append, Hnl, Hq0. reflexivity.
  - rewrite str_in_fixed by reflexivity.
    rewrite str_in_text; [| discriminate | exact Hq1 | reflexivity].
    change (" " +:+ "temp_gz_files/" +:+ sra_id +:+ ?T) with (" temp_gz_files/" +:+ sra_id +:+ T).
    rewrite (str_in_around " temp_gz_files/" sra_id _ "F" _ eq_refl Hid); reflexivity.
  - rewrite str_in_fixed by reflexivity.
    rewrite str_in_text; [| discriminate | exact Hq2 | reflexivity].
    change (" " +:+ "temp_gz_files/" +:+ sra_id +:+ ?T) with (" temp_gz_files/" +:+ sra_id +:+ T).
    rewrite (str_in_around " temp_gz_files/" sra_id _ "F" _ eq_refl Hid); reflexivity.
Qed.

End MoreSightings.

Lemma quiet_size_mismatch (actual total : Z) : quiet (size_mismatch actual total).
Proof.
  unfold quiet, sighted, size_mismatch, marker_rejected, marker_passed.
  pose proof (has_char_pretty_Z "F" actual eq_refl) as Fa.
  pose proof (has_char_pretty_Z "F" total eq_refl) as Ft.
  pose proof (has_char_pretty_Z newline actual eq_refl) as Na.
  pose proof (has_char_pretty_Z newline total eq_refl) as Nt.
  split; [| split].
  - rewrite !has_char_append, Na, Nt. reflexivity.
  - rewrite str_in_fixed by reflexivity. rewrite (str_in_skip "F" _ _ _ Fa).
    rewrite str_in_fixed by reflexivity. rewrite (str_in_skip "F" _ _ _ Ft). reflexivity.
  - rewrite str_in_fixed by reflexivity. rewrite (str_in_skip "F" _ _ _ Fa).
    rewrite str_in_fixed by reflexivity. rewrite (str_in_skip "F" _ _ _ Ft). reflexivity.
Qed.

(** ** Counting what the monitor counts *)

Section Counting.

Definition quiet_env (env : Env) : Prop :=
  quiet (fastqc_path env) ∧
  (∀ url e, http_head env url = HeadRaises e → quiet e) ∧
  (∀ url e, http_get env url = GetRaises e → quiet e) ∧
  (∀ url chunks e, http_get env url = GetBody chunks (Some e) → quiet e) ∧
  (∀ p e, read_fault env p = Some e → quiet e) ∧
  (∀ p e, copy_fault env p = Some e → quiet e).

(** A time stamp made by [asctime]: no letter F, no newline *)
Definition stamp_ok (stamp : string) : Prop :=
  has_char "F" stamp = false ∧ has_char newline stamp = false.

Definition bump (cs : Counters) (k : Kind) : Counters :=
  match k with
  | Rejected => mkCounters (total_checked cs + 1) (current_clean cs)
  | Accepted => mkCounters (total_checked cs + 1) (current_clean cs + 1)
  | Other => cs
  end.

Definition is_rejected (k : Kind) : bool := match k with Rejected => true | _ => false end.
Definition is_accepted (k : Kind) : bool := match k with Accepted => true | _ => false end.

Definition rejections (kinds : list Kind) : nat := length (List.filter is_rejected kinds).
Definition acceptances (kinds : list Kind) : nat := length (List.filter is_accepted kinds).

Lemma line_marker (c : ascii) (m0 stamp : string) (r : Level * string) :
  has_char c stamp = false →
  suffix_residuals " - INFO - " (String c m0) = [] →
  suffix_residuals " - WARNING - " (String c m0) = [] →
  suffix_residuals " - ERROR - " (String c m0) = [] →
  str_in (String c m0) (format_record stamp r) = str_in (String c m0) r.2.
Proof.
  intros Hs Hi Hw He. destruct r as [lvl msg]. unfold format_record. simpl fst. simpl snd.
  rewrite (str_in_skip c m0 stamp _ Hs).
  destruct lvl; simpl levelname.
  - change (" - " +:+ "INFO" +:+ " - " +:+ msg) with (" - INFO - " +:+ msg).
    now apply str_in_fixed.
  - change (" - " +:+ "WARNING" +:+ " - " +:+ msg) with (" - WARNING - " +:+ msg).
    now apply str_in_fixed.
  - change (" - " +:+ "ERROR" +:+ " - " +:+ msg) with (" - ERROR - " +:+ msg).
    now apply str_in_fixed.
Qed.

Lemma count_line_sighted (stamp : string) (r : Level * string) (k : Kind) (cs : Counters) :
  stamp_ok stamp → sighted k r.2 → count_line cs (format_record stamp r) = bump cs k.
Proof.
  intros [HF _] [_ Hk]. unfold count_line.
  change "FastQC found quality issues" with marker_rejected.
  change "File passed quality check" with marker_passed.
  unfold marker_rejected, marker_passed in *.
  rewrite (line_marker "F" _ stamp r HF) by reflexivity.
  rewrite (line_marker "F" _ stamp r HF) by reflexivity.
  destruct k.
  - rewrite Hk. reflexivity.
  - destruct Hk as [-> ->]. reflexivity.
  - destruct Hk as [-> ->]. reflexivity.
Qed.

Lemma line_plain (stamp : string) (r : Level * string) (k : Kind) :
  stamp_ok stamp → sighted k r.2 → has_char newline (format_record stamp r) = false.
Proof.
  intros [_ HN] [Hmsg _]. destruct r as [lvl msg]. unfold format_record. simpl in *.
  rewrite !has_char_append, HN, Hmsg. destruct lvl; reflexivity.
Qed.

Lemma count_line_empty (cs : Counters) : count_line cs "" = cs.
Proof. reflexivity. Qed.

Variable asctime : nat → string.
Hypothesis Hclock : ∀ k, stamp_ok (asctime k).

Lemma log_file_from_app (k : nat) (l1 l2 : list (Level * string)) :
  log_file_from asctime k (l1 ++ l2) =
  log_file_from asctime k l1 +:+ log_file_from asctime (k + length l1) l2.
Proof.
  revert k. induction l1 as [|r l1 IH]; intros k; simpl.
  - rewrite Nat.add_0_r. reflexivity.
  - rewrite IH. replace (k + S (length l1))%nat with (S k + length l1)%nat by lia.
    now rewrite !append_assoc.
Qed.

Lemma log_file_from_ends (k : nat) (l : list (Level * string)) :
  log_file_from asctime k l = "" ∨
  ∃ X, log_file_from asctime k l = X +:+ String newline "".
Proof.
  revert k. induction l as [|r l IH]; intros k; [now left |].
  right. simpl. destruct (IH (S k)) as [-> | [X ->]].
  - exists (format_record (asctime k) r). now rewrite append_empty_r.
  - exists (format_record (asctime k) r +:+ String newline "" +:+ X).
    now rewrite !append_assoc.
Qed.

(** Reading a log that has grown: the scan of the old part, continued over
    the lines of the new part. *)
Lemma scan_log_grown (A B : string) (cs : Counters) :
  A = "" ∨ (∃ X, A = X +:+ String newline "") →
  scan_log (A +:+ B) cs = fold_left count_line (split_lines B) (scan_log A cs).
Proof.
  unfold scan_log. intros [-> | [X ->]].
  - reflexivity.
  - rewrite append_assoc.
    change (String newline "" +:+ B) with (String newline B).
    rewrite !split_lines_newline, !fold_left_app. reflexivity.
Qed.

Lemma scan_page_lines (kinds : list Kind) (added : list (Level * string)) :
  Forall2 (λ k r, sighted k r.2) kinds added →
  ∀ k cs,
    fold_left count_line (split_lines (log_file_from asctime k added)) cs =
    fold_left bump kinds cs.
Proof.
  induction 1 as [|kd r kinds added Hs _ IH]; intros k cs; [reflexivity |].
  cbn [log_file_from].
  change (String newline "" +:+ log_file_from asctime (S k) added)
    with (String newline (log_file_from asctime (S k) added)).
  rewrite split_lines_newline, fold_left_app.
  rewrite (split_lines_plain _ (line_plain _ r kd (Hclock k) Hs)).
  cbn [fold_left]. rewrite (count_line_sighted _ r kd cs (Hclock k) Hs).
  apply IH.
Qed.

Lemma bump_totals (kinds : list Kind) :
  ∀ cs,
    total_checked (fold_left bump kinds cs) =
      total_checked cs + Z.of_nat (rejections kinds + acceptances kinds) ∧
    current_clean (fold_left bump kinds cs) =
      current_clean cs + Z.of_nat (acceptances kinds).
Proof.
  unfold rejections, acceptances.
  induction kinds as [|k kinds IH]; intros cs; simpl.
  - split; lia.
  - destruct (IH (bump cs k)) as [H1 H2]. rewrite H1, H2.
    destruct k; simpl; split; lia.
Qed.

End Counting.

Section PageRecords.

Variable env : Env.
Hypothesis Henv : quiet_env env.
Variable sra_id : string.
Hypothesis Hid : accession sra_id = true.

Lemma quiet_constant (e : string) :
  e = "OSError" ∨ e = "FileNotFoundError" ∨ e = "SameFileError" → quiet e.
Proof. intros [-> | [-> | ->]]; repeat split. Qed.

Lemma fetch_record_sighted (success : bool) (record : Level * string) :
  fetch_record env sra_id success record → sighted Other record.2.
Proof.
  destruct Henv as (_ & Hhead & Hget & Hbody & _).
  unfold fetch_record. destruct success.
  - intros [-> | ->]; simpl.
    + now apply sighted_skip.
    + now apply sighted_downloaded.
  - intros (e & He & ->). simpl. apply sighted_failed; [exact Hid |].
    destruct He as [H | [H | [[chunks H] | (actual & total & ->)]]].
    + eapply Hhead; exact H.
    + eapply Hget; exact H.
    + eapply Hbody; exact H.
    + apply quiet_size_mismatch.
Qed.

End PageRecords.

Section PageLog.

Variable ids : list string.
Hypothesis Hacc : Forall (λ id, accession id = true) ids.

Lemma accessions_valid : Forall (λ id, has_char slash id = false) ids.
Proof. eapply Forall_impl; [exact Hacc |]. intros id. apply accession_no_slash. Qed.

Lemma ids_accession i id : ids !! i = Some id → accession id = true.
Proof.
  intros H. rewrite Forall_forall in Hacc. apply Hacc.
  eapply list_elem_of_lookup_2. exact H.
Qed.

Lemma rejections_app (a b : list Kind) : rejections (a ++ b) = (rejections a + rejections b)%nat.
Proof. unfold rejections. now rewrite List.filter_app, length_app. Qed.

Lemma acceptances_app (a b : list Kind) :
  acceptances (a ++ b) = (acceptances a + acceptances b)%nat.
Proof. unfold acceptances. now rewrite List.filter_app, length_app. Qed.

End PageLog.

Section MonitorClaims.

Lemma count_line_bounds (cs : Counters) (line : string) :
  total_checked cs ≤ total_checked (count_line cs line) ∧
  current_clean cs ≤ current_clean (count_line cs line) ∧
  total_checked cs - current_clean cs ≤
    total_checked (count_line cs line) - current_clean (count_line cs line).
Proof.
  unfold count_line.
  destruct (str_in "FastQC found quality issues" line); simpl; [lia |].
  destruct (str_in "File passed quality check" line); simpl; lia.
Qed.

Lemma scan_lines_bounds (lines : list string) (cs : Counters) :
  total_checked cs ≤ total_checked (fold_left count_line lines cs) ∧
  current_clean cs ≤ current_clean (fold_left count_line lines cs) ∧
  total_checked cs - current_clean cs ≤
    total_checked (fold_left count_line lines cs)
    - current_clean (fold_left count_line lines cs).
Proof.
  revert cs. induction lines as [|line lines IH]; intros cs; simpl; [lia |].
  pose proof (count_line_bounds cs line). specialize (IH (count_line cs line)). lia.
Qed.

Lemma polls_bounds (snapshots : list string) (cs : Counters) :
  let cs' := fold_left (λ cs0 log_content, scan_log log_content cs0) snapshots cs in
  total_checked cs ≤ total_checked cs' ∧
  current_clean cs ≤ current_clean cs' ∧
  total_checked cs - current_clean cs ≤ total_checked cs' - current_clean cs'.
Proof.
  revert cs. induction snapshots as [|s snapshots IH]; intros cs; simpl; [lia |].
  pose proof (scan_lines_bounds (split_lines s) cs) as H.
  specialize (IH (scan_log s cs)). unfold scan_log in *. simpl in IH. lia.
Qed.

(** C2. Whatever the monitor has read so far, the count of accepted (clean)
    datasets is at most the count of checked datasets, neither is negative,
    and reading further (any snapshots of the log, after any further pages)
    never lowers the checked count. *)
Theorem accepted_at_most_checked (snapshots more : list string) :
  0 ≤ current_clean (monitor snapshots) ∧
  current_clean (monitor snapshots) ≤ total_checked (monitor snapshots) ∧
  total_checked (monitor snapshots) ≤ total_checked (monitor (snapshots ++ more)).
Proof.
  unfold monitor. rewrite fold_left_app.
  pose proof (polls_bounds snapshots (mkCounters 0 0)) as H1.
  pose proof (polls_bounds more
                (fold_left (λ cs0 log_content, scan_log log_content cs0) snapshots
                   (mkCounters 0 0))) as H2.
  simpl in *. lia.
Qed.

Lemma mixed_env_quiet : quiet_env Scenario.mixed_env.
Proof.
  unfold quiet_env, Scenario.mixed_env. simpl.
  split; [vm_compute; auto |]. split; [discriminate |].
  split.
  { intros url e. destruct (String.eqb url _); [| discriminate].
    intros [= <-]. vm_compute. auto. }
  split.
  { intros url chunks e. destruct (String.eqb url _); discriminate. }
  split; [| discriminate].
  intros p e. destruct (String.eqb p _); [| discriminate].
  intros [= <-]. vm_compute. auto.
Qed.

Lemma mixed_ids_accessions : Forall (λ id, accession id = true) Scenario.mixed_ids.
Proof. repeat constructor. Qed.

Lemma mixed_rows_ids :
  Forall2 (λ (row : gmap string string) id, row !! "run" = Some id)
    Scenario.mixed_rows Scenario.mixed_ids.
Proof. repeat constructor. Qed.

Lemma mixed_ids_distinct : NoDup Scenario.mixed_ids.
Proof. apply (bool_decide_unpack (NoDup Scenario.mixed_ids)). vm_compute. exact I. Qed.

Lemma clock_stamps k : stamp_ok (Scenario.clock k).
Proof. split; vm_compute; reflexivity. Qed.

End MonitorClaims.


(** * More of the pipeline *)

(** ** The catalog client inside a pass *)

Section CatalogPass.

Variable env : Env.
Variable sched : list Event.
Variable search_term : string.
Variable num_clean_datasets : Z.

(** The address [get_uid_from_term] asks *)
Definition esearch_url (term : string) (retmax retstart : Z) : string :=
  NCBI_EUTILS_BASEURL +:+ "esearch.fcgi?db=sra&term=" +:+ term +:+
  "&retmax=" +:+ pretty retmax +:+ "&retstart=" +:+ pretty retstart.

(** The address [get_sraid_from_uid] asks *)
Definition efetch_url (uid_list : list Z) : string :=
  NCBI_EUTILS_BASEURL +:+ "efetch.fcgi?db=sra&id=" +:+
  String.concat "," (map pretty uid_list) +:+ "&rettype=runinfo&retmode=xml".

Lemma search_answer (term : string) (retmax retstart : Z) (w : World) :
  get_uid_from_term env term retmax retstart w =
    let url := esearch_url term retmax retstart in
    let w' := mkWorld (fs w) (log w) (requests w ++ [GET url]) (commands w) in
    match esearch env url with
    | NoResponse e => (Raise e, w')
    | Response status_code body =>
        if status_code =? 200 then
          match body with
          | Ok found => (Ok (found.2, found.1, retstart), w')
          | Raise e => (Raise e, w')
          end
        else
          let msg := "Failed to fetch data from NCBI: " +:+ pretty status_code in
          (Raise msg,
           mkWorld (fs w) (log w ++ [(ERROR, msg)]) (requests w ++ [GET url]) (commands w))
    end.
Proof.
  unfold get_uid_from_term, bind, catalog_get. fold (esearch_url term retmax retstart).
  cbv zeta. destruct (esearch env _) as [e|status body]; [reflexivity |].
  destruct (status =? 200); simpl; [| reflexivity].
  destruct body; reflexivity.
Qed.

Lemma lookup_answer (uid_list : list Z) (w : World) :
  get_sraid_from_uid env uid_list w =
    let url := efetch_url uid_list in
    let w' := mkWorld (fs w) (log w) (requests w ++ [GET url]) (commands w) in
    match efetch env url with
    | NoResponse e => (Raise e, w')
    | Response status_code body =>
        if status_code =? 200 then
          match body with
          | Ok rows =>
              (Ok rows,
               mkWorld (fs w) (log w ++ [(INFO, "Run info list: " +:+ json_dumps env rows)])
                       (requests w ++ [GET url]) (commands w))
          | Raise e => (Raise e, w')
          end
        else
          let msg := "Failed to fetch data from NCBI: " +:+ pretty status_code in
          (Raise msg,
           mkWorld (fs w) (log w ++ [(ERROR, msg)]) (requests w ++ [GET url]) (commands w))
    end.
Proof.
  unfold get_sraid_from_uid, bind, catalog_get. fold (efetch_url uid_list).
  cbv zeta. destruct (efetch env _) as [e|status body]; [reflexivity |].
  destruct (status =? 200); simpl; [| reflexivity].
  destruct body; reflexivity.
Qed.

End CatalogPass.

Section CatalogExtras.

(** X1. A pass whose search is answered with a status other than 200 costs that
    one request and nothing else: no file changes, the inspector does not
    run, the status is logged as an error, the loop logs the same text
    again as its own error, and the pass ends with cursor and count as
    they were. *)
Theorem failed_search_costs_one_request (env : Env) (sched : list Event)
    (search_term : string) (num_clean_datasets : Z) (c : Cursor) (w : World)
    (status_code : Z) (body : result (Z * list Z)) :
  esearch env (esearch_url search_term batch_size (retstart c))
    = Response status_code body →
  status_code ≠ 200 →
  let msg := "Failed to fetch data from NCBI: " +:+ pretty status_code in
  main_body env sched search_term num_clean_datasets c w =
    (Ok (false, c),
     mkWorld (fs w)
             (log w ++ [(ERROR, msg); (ERROR, "Error in main processing loop: " +:+ msg)])
             (requests w ++ [GET (esearch_url search_term batch_size (retstart c))])
             (commands w)).
Proof.
  intros Hans Hbad msg.
  unfold main_body, try_except, main_try. unfold bind at 1.
  rewrite search_answer. cbv zeta. rewrite Hans.
  apply Z.eqb_neq in Hbad. rewrite Hbad.
  unfold bind, logging, ret. simpl. rewrite <- app_assoc. reflexivity.
Qed.

Lemma failed_search_costs_one_request_witness :
  main_body Scenario.broken_env [] "cancer" 3 (mkCursor 20 1) Scenario.empty_world =
    (Ok (false, mkCursor 20 1),
     mkWorld ∅
             [(ERROR, "Failed to fetch data from NCBI: 500");
              (ERROR, "Error in main processing loop: Failed to fetch data from NCBI: 500")]
             [GET (esearch_url "cancer" 10 20)] []).
Proof.
  apply (failed_search_costs_one_request Scenario.broken_env [] "cancer" 3 (mkCursor 20 1)
           Scenario.empty_world 500 (Raise "no body")).
  - reflexivity.
  - discriminate.
Defined.

Lemma run_schedule_no_rows (env : Env) (output_dir clean_dataset_dir : string)
    (sched : list Event) (pg : Page) (w : World) :
  futures pg = ∅ →
  run_schedule env [] output_dir clean_dataset_dir sched pg w = (pg, w).
Proof.
  intros Hf. induction sched as [|ev rest IH]; [reflexivity |].
  simpl. destruct ev as [i|i]; simpl.
  - exact IH.
  - rewrite Hf, lookup_empty. exact IH.
Qed.

(** X2. A page without rows: whatever the schedule, nothing is accepted and the
    world stays as it is.  In the loop such a page (the search found
    identifiers, the run-info lookup returned no row) adds nothing to the
    count and still moves the window on by ten; the loop is left when the
    window has then reached the total. *)
Theorem empty_page_moves_the_window (env : Env) (sched : list Event)
    (search_term : string) (num_clean_datasets : Z) (c : Cursor) (w : World)
    (total : Z) (uids : list Z) :
  (∀ output_dir clean_dataset_dir w0,
     download_and_process_parallel env [] output_dir clean_dataset_dir sched w0
       = (Ok [], w0))
  ∧ (clean_datasets_count c < num_clean_datasets →
     uids ≠ [] →
     esearch env (esearch_url search_term batch_size (retstart c))
       = Response 200 (Ok (total, uids)) →
     efetch env (efetch_url uids) = Response 200 (Ok []) →
     ∃ w', main_body env sched search_term num_clean_datasets c w =
             (Ok (retstart c + 10 >=? total,
                  mkCursor (retstart c + 10) (clean_datasets_count c)), w') ∧
           fs w' = fs w ∧ commands w' = commands w).
Proof.
  assert (Hpage : ∀ output_dir clean_dataset_dir w0,
     download_and_process_parallel env [] output_dir clean_dataset_dir sched w0
       = (Ok [], w0)).
  { intros output_dir clean_dataset_dir w0.
    unfold download_and_process_parallel, bind, os_makedirs, ret. simpl.
    rewrite run_schedule_no_rows by reflexivity. reflexivity. }
  split; [exact Hpage |].
  intros Hlt Hne Hsearch Hfetch.
  unfold main_body, try_except, main_try. unfold bind at 1.
  rewrite search_answer. cbv zeta. rewrite Hsearch. simpl.
  destruct uids as [|u uids']; [congruence |].
  unfold bind at 1. rewrite lookup_answer. cbv zeta. rewrite Hfetch. simpl.
  unfold bind at 1. rewrite Hpage. simpl.
  unfold bind at 1, logging at 1.
  rewrite Z.add_0_r.
  assert (Hge : (clean_datasets_count c >=? num_clean_datasets) = false)
    by (rewrite Z.geb_leb; apply Z.leb_gt; lia).
  rewrite Hge. unfold batch_size.
  destruct (retstart c + 10 >=? total).
  - unfold bind, logging, ret. eexists. split; [reflexivity |]. split; reflexivity.
  - unfold ret. eexists. split; [reflexivity |]. split; reflexivity.
Qed.

Lemma empty_page_moves_the_window_witness :
  ∃ w', main_body (Scenario.env_of None [] [] [7] 25 []) [Download 0; Complete 0] "cancer" 3
          (mkCursor 0 0) Scenario.empty_world =
          (Ok (false, mkCursor 10 0), w') ∧
        fs w' = ∅ ∧ commands w' = [].
Proof.
  destruct (empty_page_moves_the_window (Scenario.env_of None [] [] [7] 25 [])
              [Download 0; Complete 0] "cancer" 3 (mkCursor 0 0) Scenario.empty_world 25 [7])
    as [_ H].
  apply H.
  - reflexivity.
  - discriminate.
  - reflexivity.
  - reflexivity.
Defined.

End CatalogExtras.

(** ** The fetch stage and the gate at their edges *)

Section StageExtras.

(** X3. Given a row with a ['run'] entry, the fetch stage never raises: it
    returns the identifier with a success flag, writes exactly one log
    record (an error exactly on failure), runs no command and touches no
    file but the blob's.  On success the blob exists; on failure, whatever
    failed (the probe, the request, the stream, the size check), no file is
    left at the blob's path. *)
Theorem fetch_reports_and_cleans (env : Env) (run_info : gmap string string)
    (output_dir sra_id : string) (w : World) :
  run_info !! "run" = Some sra_id →
  let path := os_path_join output_dir (sra_id +:+ ".fastq.gz") in
  ∃ (success : bool) (record : Level * string) (w' : World),
    download_single_sra_file env run_info output_dir w = (Ok (sra_id, success), w') ∧
    log w' = log w ++ [record] ∧
    record.1 = (if success then INFO else ERROR) ∧
    commands w' = commands w ∧
    (∀ q, q ≠ path → fs w' !! q = fs w !! q) ∧
    (if success then path_exists (fs w') path = true else fs w' !! path = None).
Proof.
  intros Hrun path.
  destruct (download_effect env run_info output_dir sra_id Hrun w)
    as (success & record & w' & Hdl & Hc & Hl & Hrec & Hframe & Hres).
  exists success, record, w'.
  split; [exact Hdl |]. split; [exact Hl |]. split.
  - unfold fetch_record in Hrec. destruct success.
    + destruct Hrec as [-> | ->]; reflexivity.
    + destruct Hrec as (e & _ & ->). reflexivity.
  - split; [exact Hc |]. split; [exact Hframe | exact Hres].
Qed.

Lemma fetch_reports_and_cleans_witness :
  ∃ (success : bool) (record : Level * string) (w' : World),
    download_single_sra_file Scenario.mixed_env (Scenario.row "SRR2") GZ_TEMP_FOLDER
      (Scenario.world_with [("clean_datasets/SRR1.fastq.gz", "reads")])
      = (Ok ("SRR2", success), w') ∧
    log w' = log (Scenario.world_with [("clean_datasets/SRR1.fastq.gz", "reads")])
             ++ [record] ∧
    record.1 = (if success then INFO else ERROR) ∧
    commands w' = commands (Scenario.world_with [("clean_datasets/SRR1.fastq.gz", "reads")]) ∧
    (∀ q, q ≠ os_path_join GZ_TEMP_FOLDER ("SRR2" +:+ ".fastq.gz") →
          fs w' !! q =
          fs (Scenario.world_with [("clean_datasets/SRR1.fastq.gz", "reads")]) !! q) ∧
    (if success
     then path_exists (fs w') (os_path_join GZ_TEMP_FOLDER ("SRR2" +:+ ".fastq.gz")) = true
     else fs w' !! os_path_join GZ_TEMP_FOLDER ("SRR2" +:+ ".fastq.gz") = None).
Proof.
  apply (fetch_reports_and_cleans Scenario.mixed_env (Scenario.row "SRR2") GZ_TEMP_FOLDER
           "SRR2").
  reflexivity.
Defined.

(** X4. The gate given a blob that is not there (it vanished after the
    download): the answer is [False] and nothing at all happens, no
    inspector run, no log record, no change of any file; the completion
    loop then leaves the list of accepted files as it was. *)
Theorem missing_blob_is_skipped (env : Env) (sra_id output_dir clean_dataset_dir : string)
    (processed_files : list string) (w : World) :
  path_exists (fs w) (os_path_join output_dir (sra_id +:+ ".fastq.gz")) = false →
  process_downloaded_file env sra_id (os_path_join output_dir (sra_id +:+ ".fastq.gz"))
    clean_dataset_dir w = (Ok false, w)
  ∧ completion env output_dir clean_dataset_dir (Ok (sra_id, true)) processed_files w
    = (Ok processed_files, w).
Proof.
  intros Hex.
  pose proof (process_effect env sra_id (os_path_join output_dir (sra_id +:+ ".fastq.gz"))
                clean_dataset_dir w) as H.
  rewrite Hex in H. split; [exact H |].
  unfold completion, bind, blob_name. rewrite H. reflexivity.
Qed.

Lemma missing_blob_is_skipped_witness :
  process_downloaded_file Scenario.mixed_env "SRR1"
    (os_path_join GZ_TEMP_FOLDER ("SRR1" +:+ ".fastq.gz")) CLEAN_DATASET_FOLDER
    Scenario.empty_world = (Ok false, Scenario.empty_world)
  ∧ completion Scenario.mixed_env GZ_TEMP_FOLDER CLEAN_DATASET_FOLDER (Ok ("SRR1", true))
      ["SRR9"] Scenario.empty_world = (Ok ["SRR9"], Scenario.empty_world).
Proof.
  apply (missing_blob_is_skipped Scenario.mixed_env "SRR1" GZ_TEMP_FOLDER
           CLEAN_DATASET_FOLDER ["SRR9"] Scenario.empty_world).
  vm_compute. reflexivity.
Defined.

(** X5. When the clean folder is the folder the blob lies in, so that the copy
    would go onto the blob itself, the gate never accepts: whatever the
    report says, the answer is [False]. *)
Theorem same_folder_never_accepts (env : Env)
    (fastq_gz_file_path temp_output_dir clean_dataset_dir : string) (w : World) :
  os_path_join clean_dataset_dir (os_path_basename fastq_gz_file_path) = fastq_gz_file_path →
  ∃ w',
    run_fastqc_and_save_in_clean_dataset_folder_if_all_params_in_summary_txt_file_are_NOT_FAIL
      env fastq_gz_file_path temp_output_dir clean_dataset_dir w = (Ok false, w').
Proof.
  intros Hsame.
  destruct (gate_effect env fastq_gz_file_path temp_output_dir clean_dataset_dir w)
    as (verdict & record & fs2 & Hrun & Hend).
  destruct Hend as [Hs | e Hs He | text line Hs Hr Ht Hf | text blob Hs Hr Ht Hf Hc Hb Hd];
    try (eexists; exact Hrun).
  exfalso. apply Hd. symmetry. exact Hsame.
Qed.

Lemma same_folder_never_accepts_witness :
  ∃ w',
    run_fastqc_and_save_in_clean_dataset_folder_if_all_params_in_summary_txt_file_are_NOT_FAIL
      (Scenario.plain_env None []) "temp_gz_files/SRR1.fastq.gz" GZ_TEMP_FOLDER
      GZ_TEMP_FOLDER (Scenario.world_with [("temp_gz_files/SRR1.fastq.gz", "reads")])
    = (Ok false, w').
Proof.
  apply (same_folder_never_accepts (Scenario.plain_env None []) "temp_gz_files/SRR1.fastq.gz"
           GZ_TEMP_FOLDER GZ_TEMP_FOLDER).
  vm_compute. reflexivity.
Defined.

End StageExtras.

(** ** A page with a row that has no run *)

Section BrokenRow.

Variable env : Env.
Variable rows : list (gmap string string).
Variables (output_dir clean_dataset_dir : string).

Lemma submitted_stops (l : list (gmap string string)) :
  (∃ row, row ∈ l ∧ row !! "run" = None) → (submitted l).2 = false.
Proof.
  induction l as [|r l IH]; intros (row & Hin & Hnone).
  - apply elem_of_nil in Hin. destruct Hin.
  - simpl. destruct (r !! "run") as [id|] eqn:Hr; [| reflexivity].
    apply elem_of_cons in Hin as [-> | Hin]; [congruence |].
    specialize (IH (ex_intro _ row (conj Hin Hnone))).
    destruct (submitted l) as [n ok]. exact IH.
Qed.

(** The main thread has left the page with an exception; the workers go on. *)
Definition aborted (e : string) (w0 : World) (pg : Page) (w : World) : Prop :=
  main_thread pg = Raise e ∧
  commands w = commands w0 ∧
  ∀ q, (∀ sra_id, q ≠ os_path_join output_dir (blob_name sra_id)) → fs w !! q = fs w0 !! q.

Lemma aborted_step (l : list (gmap string string)) (e : string) (w0 : World)
    (ev : Event) (pg : Page) (w : World) :
  aborted e w0 pg w →
  aborted e w0 (page_step env l output_dir clean_dataset_dir ev pg w).1
               (page_step env l output_dir clean_dataset_dir ev pg w).2.
Proof.
  intros Hinv. pose proof Hinv as (Hmain & Hcmd & Hfs). unfold page_step.
  destruct ev as [i|i].
  - destruct (l !! i) as [row|] eqn:Hrow; [| exact Hinv].
    destruct (futures pg !! i) as [r0|] eqn:Hfi; [exact Hinv |].
    destruct (row !! "run") as [sra_id|] eqn:Hrun.
    + destruct (download_effect env row output_dir sra_id Hrun w)
        as (b & record & w' & Hdl & Hc & _ & _ & Hframe & _).
      rewrite Hdl. simpl. split; [exact Hmain |]. split; [congruence |].
      intros q Hq. rewrite Hframe by apply Hq. now apply Hfs.
    + unfold download_single_sra_file. rewrite Hrun. unfold raise. simpl.
      split; [exact Hmain |]. split; assumption.
  - destruct (futures pg !! i); [| exact Hinv]. rewrite Hmain. exact Hinv.
Qed.

End BrokenRow.

Section BrokenRowExtras.

(** X6. When a row of the page has no ['run'] entry, the page raises
    (a [KeyError]) whatever the schedule: the completion loop is never
    entered, so the inspector does not run and nothing is accepted, and no
    file changes except blobs in the download folder (the tasks that were
    submitted before the error still run). *)
Theorem row_without_run_aborts_page (env : Env) (rows : list (gmap string string))
    (output_dir clean_dataset_dir : string) (sched : list Event) (w : World) :
  (∃ row, row ∈ rows ∧ row !! "run" = None) →
  ∃ e w',
    download_and_process_parallel env rows output_dir clean_dataset_dir sched w
      = (Raise e, w') ∧
    commands w' = commands w ∧
    ∀ q, (∀ sra_id, q ≠ os_path_join output_dir (sra_id +:+ ".fastq.gz")) →
         fs w' !! q = fs w !! q.
Proof.
  intros Hbad. apply submitted_stops in Hbad.
  unfold download_and_process_parallel, bind, os_makedirs, ret.
  destruct (submitted rows) as [n ok]. simpl in Hbad. subst ok.
  pose proof (run_schedule_invariant env (take n rows) output_dir clean_dataset_dir
                (aborted output_dir "KeyError: 'run'" w)
                (aborted_step env output_dir clean_dataset_dir (take n rows)
                   "KeyError: 'run'" w)
                sched (mkPage ∅ ∅ (Raise "KeyError: 'run'")) w) as Hrun.
  destruct (run_schedule env (take n rows) output_dir clean_dataset_dir sched
              (mkPage ∅ ∅ (Raise "KeyError: 'run'")) w) as [pg w'].
  destruct Hrun as (Hmain & Hcmd & Hfs).
  { split; [reflexivity |]. split; reflexivity. }
  exists "KeyError: 'run'", w'. simpl in *.
  split; [now rewrite Hmain |]. split; [exact Hcmd | exact Hfs].
Qed.

Lemma row_without_run_aborts_page_witness :
  ∃ e w',
    download_and_process_parallel (Scenario.plain_env None ["reads"])
      [Scenario.row "SRR1"; {[ "experiment" := "SRX1" ]}; Scenario.row "SRR3"]
      GZ_TEMP_FOLDER CLEAN_DATASET_FOLDER [Download 0; Download 1; Complete 0]
      Scenario.empty_world
      = (Raise e, w') ∧
    commands w' = commands Scenario.empty_world ∧
    ∀ q, (∀ sra_id, q ≠ os_path_join GZ_TEMP_FOLDER (sra_id +:+ ".fastq.gz")) →
         fs w' !! q = fs Scenario.empty_world !! q.
Proof.
  apply (row_without_run_aborts_page (Scenario.plain_env None ["reads"])
           [Scenario.row "SRR1"; {[ "experiment" := "SRX1" ]}; Scenario.row "SRR3"]).
  exists {[ "experiment" := "SRX1" ]}. split.
  - apply elem_of_cons. right. apply elem_of_cons. left. reflexivity.
  - reflexivity.
Defined.

End BrokenRowExtras.

(** ** What a page accepts *)

Section Accepting.

Variable env : Env.
Variable sra_id : string.
Hypothesis Hvalid : has_char slash sra_id = false.

Lemma blob_outside_report : under (report_dir sra_id) (blob_path sra_id) = false.
Proof. apply (beneath_blob_not_report sra_id sra_id Hvalid Hvalid). apply under_refl. Qed.

Lemma clean_outside_report (b : string) :
  has_char slash b = false → under (report_dir sra_id) (clean_path b) = false.
Proof.
  intros Hb. destruct (under (report_dir sra_id) (clean_path b)) eqn:E; [| reflexivity].
  exfalso. exact (in_report_not_clean sra_id b Hvalid Hb _ E eq_refl).
Qed.

(** An accepted blob has been copied, as it was, into the clean folder. *)
Lemma process_accepted (w w' : World) :
  process_downloaded_file env sra_id (blob_path sra_id) CLEAN_DATASET_FOLDER w
    = (Ok true, w') →
  ∃ blob, fs w !! blob_path sra_id = Some blob ∧ fs w' !! clean_path sra_id = Some blob.
Proof.
  intros Hp.
  pose proof (process_effect env sra_id (blob_path sra_id) CLEAN_DATASET_FOLDER w) as H.
  destruct (path_exists (fs w) (blob_path sra_id)); [| congruence].
  destruct H as (verdict & record & fs2 & Hend & Hrun).
  rewrite Hrun in Hp.
  destruct Hend as [Hs | e Hs He | text line Hs Hr Ht Hf | text blob Hs Hr Ht Hf Hc Hb Hd];
    try discriminate Hp.
  injection Hp as <-. exists blob. split.
  - rewrite inspected_input in Hb; [exact Hb |].
    apply blob_outside_report.
  - simpl. rewrite unlinked_other by apply (clean_not_blob sra_id sra_id Hvalid Hvalid).
    rewrite swept_outside by apply (clean_outside_report sra_id Hvalid).
    apply lookup_insert_eq.
Qed.

End Accepting.

Section AcceptedFiles.

Variable env : Env.
Variable rows : list (gmap string string).
Variable ids : list string.
Hypothesis Hrows : Forall2 (λ row id, row !! "run" = Some id) rows ids.
Hypothesis Hnodup : NoDup ids.
Hypothesis Hvalid : Forall (λ id, has_char slash id = false) ids.

Let step := page_step env rows GZ_TEMP_FOLDER CLEAN_DATASET_FOLDER.

Lemma clean_path_inj (a b : string) :
  has_char slash a = false → has_char slash b = false →
  clean_path a = clean_path b → a = b.
Proof.
  intros Ha Hb. rewrite !clean_path_eq by assumption. unfold blob_name. intros H.
  apply append_inv_head in H. now apply append_inv_tail in H.
Qed.

(** The accepted identifiers are distinct identifiers of the page whose
    downloads succeeded and whose futures were yielded, and each has its
    file in the clean folder. *)
Definition accepted_inv (pg : Page) (w : World) : Prop :=
  ∀ pf, main_thread pg = Ok pf →
    NoDup pf ∧
    ∀ id, id ∈ pf →
      (∃ i, ids !! i = Some id ∧ i ∈ yielded pg ∧ futures pg !! i = Some (Ok (id, true))) ∧
      is_Some (fs w !! clean_path id).

Lemma accepted_inv_step w0 ev pg w :
  page_inv ids w0 pg w → accepted_inv pg w →
  accepted_inv (step ev pg w).1 (step ev pg w).2.
Proof.
  intros Hinv Hacc.
  destruct Hinv as ([pf Hmain] & Hout & Hyield & Hblob & Hgone & Hcmd).
  unfold step, page_step. destruct ev as [i|i].
  - destruct (rows !! i) as [row|] eqn:Hrow; [| exact Hacc].
    destruct (futures pg !! i) as [r0|] eqn:Hfi; [exact Hacc |].
    destruct (row_id rows ids Hrows i row Hrow) as (idi & Hidi & Hrun).
    destruct (download_effect env row GZ_TEMP_FOLDER idi Hrun w)
      as (b & record & w' & Hdl & _ & _ & _ & Hframe & _).
    rewrite Hdl. simpl. intros pf' Hpf'. simpl in Hpf'.
    destruct (Hacc pf' Hpf') as [Hnd Hall]. split; [exact Hnd |].
    intros id Hin. destruct (Hall id Hin) as [(j & Hj & Hjy & Hjf) Hfile]. split.
    + exists j. split; [exact Hj |]. split; [exact Hjy |]. simpl.
      rewrite lookup_insert_ne; [exact Hjf |].
      intros <-. rewrite Hfi in Hjf. discriminate.
    + rewrite Hframe; [exact Hfile |].
      apply (clean_not_blob id idi (ids_valid ids Hvalid j id Hj)
               (ids_valid ids Hvalid i idi Hidi)).
  - destruct (futures pg !! i) as [outcome|] eqn:Hfi; [| exact Hacc].
    rewrite Hmain.
    destruct (decide (i ∈ yielded pg)) as [Hin|Hnotin]; [exact Hacc |].
    destruct (Hout i outcome Hfi) as (idi & b & Hidi & ->).
    assert (Hiv := ids_valid ids Hvalid i idi Hidi).
    destruct (Hacc pf Hmain) as [Hnd Hall].
    assert (Hfresh : idi ∉ pf).
    { intros Hin. destruct (Hall idi Hin) as [(j & Hj & Hjy & _) _].
      assert (j = i) by apply (NoDup_lookup ids j i idi Hnodup Hj Hidi). subst j. contradiction. }
    assert (Hold : ∀ w', (∀ id j, ids !! j = Some id → j ≠ i →
                                  fs w' !! clean_path id = fs w !! clean_path id) →
              ∀ id, id ∈ pf →
                (∃ j, ids !! j = Some id ∧ j ∈ {[i]} ∪ yielded pg ∧
                      futures pg !! j = Some (Ok (id, true))) ∧
                is_Some (fs w' !! clean_path id)).
    { intros w' Hkeep id Hin. destruct (Hall id Hin) as [(j & Hj & Hjy & Hjf) Hfile]. split.
      - exists j. split; [exact Hj |]. split; [apply elem_of_union; now right | exact Hjf].
      - rewrite (Hkeep id j Hj); [exact Hfile |]. intros ->. contradiction. }
    unfold completion. destruct b.
    + destruct (process_on_page env idi w)
        as (verdict & w' & Hp & _ & _ & Hframe & _).
      unfold bind. fold (blob_path idi). rewrite Hp.
      assert (Hkeep : ∀ id j, ids !! j = Some id → j ≠ i →
                              fs w' !! clean_path id = fs w !! clean_path id).
      { intros id j Hj Hne. assert (Hjv := ids_valid ids Hvalid j id Hj).
        apply Hframe.
        - apply (clean_outside_report idi Hiv id Hjv).
        - intros Heq. apply clean_path_inj in Heq; [| assumption | assumption].
          subst id. apply Hne. apply (NoDup_lookup ids j i idi Hnodup Hj Hidi).
        - apply (clean_not_blob id idi Hjv Hiv).
        - apply (clean_not_beside id idi Hjv Hiv). }
      destruct verdict; unfold ret; simpl; intros pf' [= <-].
      * split.
        { apply NoDup_app. split; [exact Hnd |]. split.
          - intros x Hx Hx'. apply list_elem_of_singleton in Hx'. subst x. contradiction.
          - apply NoDup_singleton. }
        intros id Hin. apply elem_of_app in Hin as [Hin | Hin].
        -- apply (Hold w' Hkeep id Hin).
        -- apply list_elem_of_singleton in Hin. subst id. split.
           ++ exists i. split; [exact Hidi |]. split; [| exact Hfi].
              apply elem_of_union. left. now apply elem_of_singleton.
           ++ destruct (process_accepted env idi Hiv w w' Hp) as (blob & _ & Hcopy).
              rewrite Hcopy. eauto.
      * split; [exact Hnd |]. apply (Hold w' Hkeep).
    + unfold ret. simpl. intros pf' [= <-]. split; [exact Hnd |].
      apply (Hold w). reflexivity.
Qed.

Lemma accepted_inv_start w : accepted_inv start w.
Proof.
  intros pf [= <-]. split; [apply NoDup_nil_2 |].
  intros id Hin. apply elem_of_nil in Hin. destruct Hin.
Qed.

End AcceptedFiles.

Section AcceptedExtras.



End AcceptedExtras.

(** ** The controller: edges and invariants *)

(** *** The download folder *)

Section FolderStaysFree.

(** Every path the pipeline writes has a slash in it; the download folder's
    own path has none. *)
Lemma joined_has_slash (name : string) :
  has_char slash (os_path_join GZ_TEMP_FOLDER name) = true ∧
  has_char slash (os_path_join CLEAN_DATASET_FOLDER name) = true.
Proof.
  unfold os_path_join. destruct (startswith name "/") eqn:E.
  - assert (H : has_char slash name = true)
      by (apply (startswith_has_char slash name "/" E); reflexivity).
    now split.
  - split; apply has_slash_child.
Qed.

Lemma results_dir_has_slash (gz temp : string) :
  has_char slash (results_dir (os_path_join temp FASTQ_TEMP_FOLDER) gz) = true.
Proof.
  destruct (results_dir_child gz temp) as [o ->]. apply has_slash_child.
Qed.

Lemma no_slash_outside (d q : string) :
  has_char slash d = true → has_char slash q = false →
  under d q = false ∧ left_beside d q = false.
Proof.
  intros Hd Hq. split.
  - destruct (under d q) eqn:E; [| reflexivity].
    apply under_startswith in E.
    rewrite (startswith_has_char slash q d E Hd) in Hq. discriminate.
  - destruct (left_beside d q) eqn:E; [| reflexivity].
    apply left_beside_spec in E.
    destruct E as [-> | ->]; rewrite has_char_append, Hd in Hq; discriminate.
Qed.

Variable env : Env.

Lemma fetch_keeps_folder (run_info : gmap string string) (w : World) :
  fs w !! GZ_TEMP_FOLDER = None →
  fs (download_single_sra_file env run_info GZ_TEMP_FOLDER w).2 !! GZ_TEMP_FOLDER = None.
Proof.
  intros Hfree. destruct (run_info !! "run") as [sra_id|] eqn:Hrun.
  - destruct (download_effect env run_info GZ_TEMP_FOLDER sra_id Hrun w)
      as (b & record & w' & Hdl & _ & _ & _ & Hframe & _).
    rewrite Hdl. simpl. rewrite Hframe; [exact Hfree |].
    intros Heq. destruct (joined_has_slash (blob_name sra_id)) as [H _].
    rewrite <- Heq in H. discriminate H.
  - unfold download_single_sra_file. rewrite Hrun. exact Hfree.
Qed.

Lemma gate_keeps_folder (sra_id : string) (w : World) :
  fs w !! GZ_TEMP_FOLDER = None →
  fs (process_downloaded_file env sra_id (blob_path sra_id) CLEAN_DATASET_FOLDER w).2
    !! GZ_TEMP_FOLDER = None.
Proof.
  intros Hfree.
  pose proof (process_effect env sra_id (blob_path sra_id) CLEAN_DATASET_FOLDER w) as H.
  destruct (path_exists (fs w) (blob_path sra_id)); [| rewrite H; exact Hfree].
  destruct H as (verdict & record & fs2 & Hend & ->). simpl.
  apply gate_end_fs in Hend.
  destruct (no_slash_outside _ GZ_TEMP_FOLDER
              (results_dir_has_slash (blob_path sra_id) (os_path_dirname (blob_path sra_id)))
              eq_refl) as [Hu Hb].
  apply unlinked_none. rewrite swept_outside by exact Hu.
  assert (Hins : inspected env (blob_path sra_id) (os_path_dirname (blob_path sra_id)) (fs w)
                   !! GZ_TEMP_FOLDER = None).
  { rewrite inspected_outside by assumption. exact Hfree. }
  destruct Hend as [-> | [blob ->]]; [exact Hins |].
  rewrite lookup_insert_ne; [exact Hins |].
  intros Heq. destruct (joined_has_slash (os_path_basename (blob_path sra_id))) as [_ H].
  unfold clean_path in Heq. rewrite Heq in H. discriminate H.
Qed.

Lemma step_keeps_folder (rows : list (gmap string string)) (ev : Event) (pg : Page)
    (w : World) :
  fs w !! GZ_TEMP_FOLDER = None →
  fs (page_step env rows GZ_TEMP_FOLDER CLEAN_DATASET_FOLDER ev pg w).2
    !! GZ_TEMP_FOLDER = None.
Proof.
  intros Hfree. unfold page_step. destruct ev as [i|i].
  - destruct (rows !! i) as [row|]; [| exact Hfree].
    destruct (futures pg !! i); [exact Hfree |].
    pose proof (fetch_keeps_folder row w Hfree) as H.
    destruct (download_single_sra_file env row GZ_TEMP_FOLDER w) as [r w']. exact H.
  - destruct (futures pg !! i) as [outcome|]; [| exact Hfree].
    destruct (main_thread pg) as [pf|e]; [| exact Hfree].
    destruct (decide (i ∈ yielded pg)); [exact Hfree |].
    unfold completion. destruct outcome as [[sra_id success]|e]; [| exact Hfree].
    destruct success; [| exact Hfree].
    pose proof (gate_keeps_folder sra_id w Hfree) as H.
    unfold bind. fold (blob_path sra_id).
    destruct (process_downloaded_file env sra_id (blob_path sra_id) CLEAN_DATASET_FOLDER w)
      as [[passed|e] w']; [destruct passed |]; exact H.
Qed.

Lemma page_keeps_folder (rows : list (gmap string string)) (sched : list Event) (w : World) :
  fs w !! GZ_TEMP_FOLDER = None →
  fs (download_and_process_parallel env rows GZ_TEMP_FOLDER CLEAN_DATASET_FOLDER sched w).2
    !! GZ_TEMP_FOLDER = None.
Proof.
  intros Hfree. unfold download_and_process_parallel, bind, os_makedirs, ret.
  destruct (submitted rows) as [n all_submitted].
  pose proof (run_schedule_invariant env (take n rows) GZ_TEMP_FOLDER CLEAN_DATASET_FOLDER
                (λ _ w0, fs w0 !! GZ_TEMP_FOLDER = None)
                (λ ev pg0 w0 H, step_keeps_folder (take n rows) ev pg0 w0 H)
                sched
                (mkPage ∅ ∅ (if all_submitted then Ok [] else Raise "KeyError: 'run'"))
                w Hfree) as H.
  destruct (run_schedule env (take n rows) GZ_TEMP_FOLDER CLEAN_DATASET_FOLDER sched _ w)
    as [pg w']. exact H.
Qed.

End FolderStaysFree.

(** *** The run as a whole *)

Section ControllerExtras.

Lemma catalog_get_fs {A} (oracle : string → CatalogResponse A) (url : string) (w : World) :
  fs (catalog_get oracle url w).2 = fs w.
Proof.
  unfold catalog_get. destruct (oracle url) as [e|status_code body]; [reflexivity |].
  destruct (negb (status_code =? 200)); [reflexivity |].
  destruct body; reflexivity.
Qed.

(** A pass leaves the path of the download folder free. *)
Lemma main_body_keeps_folder (env : Env) (sched : list Event) (search_term : string)
    (num_clean_datasets : Z) (c : Cursor) (w : World) :
  fs w !! GZ_TEMP_FOLDER = None →
  fs (main_body env sched search_term num_clean_datasets c w).2 !! GZ_TEMP_FOLDER = None.
Proof.
  intros Hfree.
  assert (Htry : fs (main_try env sched search_term num_clean_datasets c w).2
                   !! GZ_TEMP_FOLDER = None).
  { unfold main_try, get_uid_from_term. unfold bind at 1. unfold bind at 1.
    match goal with |- context [catalog_get ?o ?u w] =>
      pose proof (catalog_get_fs o u w) as H1;
      destruct (catalog_get o u w) as [[found|e] w1]
    end; simpl in H1; [| simpl; now rewrite H1].
    unfold ret at 1. destruct found as [max_count uids]. cbn [fst snd].
    destruct uids as [|u uids'].
    - unfold bind, logging, ret. simpl. now rewrite H1.
    - unfold get_sraid_from_uid. unfold bind at 1. unfold bind at 1.
      match goal with |- context [catalog_get ?o ?u w1] =>
        pose proof (catalog_get_fs o u w1) as H2;
        destruct (catalog_get o u w1) as [[rows|e] w2]
      end; simpl in H2; [| simpl; now rewrite H2, H1].
      unfold bind at 1, logging at 1. unfold ret at 1. unfold bind at 1.
      match goal with |- context [download_and_process_parallel env rows _ _ sched ?w3] =>
        pose proof (page_keeps_folder env rows sched w3) as H3;
        destruct (download_and_process_parallel env rows GZ_TEMP_FOLDER
                    CLEAN_DATASET_FOLDER sched w3) as [[processed|e] w4]
      end; simpl in H3; specialize (H3 ltac:(now rewrite H2, H1)); [| exact H3].
      cbv zeta. unfold bind at 1, logging at 1.
      destruct (clean_datasets_count c + Z.of_nat (length processed) >=? num_clean_datasets);
        [exact H3 |].
      destruct (retstart c + batch_size >=? max_count); exact H3. }
  unfold main_body, try_except.
  destruct (main_try env sched search_term num_clean_datasets c w) as [[r|e] w1];
    [exact Htry | exact Htry].
Qed.

Lemma main_loop_keeps_folder (search_term : string) (num_clean_datasets : Z)
    (rounds : list (Env * list Event)) :
  ∀ passes c w,
    fs w !! GZ_TEMP_FOLDER = None →
    fs (main_loop rounds search_term num_clean_datasets passes c w).2
      !! GZ_TEMP_FOLDER = None.
Proof.
  induction rounds as [|[env sched] rest IH]; intros passes c w Hfree; simpl.
  - destruct (clean_datasets_count c <? num_clean_datasets); exact Hfree.
  - destruct (clean_datasets_count c <? num_clean_datasets); [| exact Hfree].
    unfold bind.
    pose proof (main_body_keeps_folder env sched search_term num_clean_datasets c w Hfree)
      as Hbody.
    destruct (main_body env sched search_term num_clean_datasets c w) as [[[brk c1]|e] w1];
      [| exact Hbody].
    simpl. destruct brk; [exact Hbody |]. now apply IH.
Qed.

(** The first record of a run *)
Definition opening_record (search_term : string) (num_clean_datasets : Z)
    : Level * string :=
  (INFO, "Starting download process for term: " +:+ search_term +:+ ", target: " +:+
         pretty num_clean_datasets +:+ " clean datasets").

(** X8. With a target of zero or less the loop is never entered.  Where the
    download folder can be made, [main] sends no request, runs no command,
    changes no file, logs its first and its last record and ends with
    nothing collected, which counts as success (no warning is logged).
    Where a regular file stands at the folder's path, [main] raises after
    its first record and does nothing else. *)
Theorem nothing_asked_nothing_done (rounds : list (Env * list Event))
    (search_term : string) (num_clean_datasets : Z) (w : World) :
  num_clean_datasets ≤ 0 →
  match fs w !! GZ_TEMP_FOLDER with
  | None =>
      main rounds search_term num_clean_datasets w =
        (Ok (Left 0 (mkCursor 0 0)),
         mkWorld (fs w)
                 (log w ++
                  [opening_record search_term num_clean_datasets;
                   (INFO, "Process completed. Collected 0 clean datasets")])
                 (requests w) (commands w))
      ∧ terminal num_clean_datasets (Left 0 (mkCursor 0 0)) = Some DoneSuccess
  | Some _ =>
      ∃ e, main rounds search_term num_clean_datasets w =
             (Raise e,
              mkWorld (fs w) (log w ++ [opening_record search_term num_clean_datasets])
                      (requests w) (commands w))
  end.
Proof.
  intros Hle.
  assert (Hlt : (0 <? num_clean_datasets) = false) by (apply Z.ltb_ge; exact Hle).
  destruct (fs w !! GZ_TEMP_FOLDER) as [content|] eqn:Hfolder;
    unfold main; unfold bind at 1, logging at 1; unfold bind at 1, os_makedirs_exist_ok;
    cbn [fs]; rewrite Hfolder; cbv beta iota.
  - eexists. reflexivity.
  - split.
    + unfold bind at 1.
      assert (Hloop : ∀ w0, main_loop rounds search_term num_clean_datasets 0 (mkCursor 0 0) w0
                            = (Ok (Left 0 (mkCursor 0 0)), w0)).
      { intros w0. destruct rounds as [|[env sched] rest]; simpl; rewrite Hlt; reflexivity. }
      rewrite Hloop. simpl. rewrite Hlt.
      unfold bind, logging, when, ret. simpl. rewrite <- app_assoc. reflexivity.
    + unfold terminal. simpl. rewrite Hlt. reflexivity.
Qed.

Lemma nothing_asked_nothing_done_witness :
  (main [(Scenario.page_env 10 25, Scenario.page_sched 10)] "cancer" 0 Scenario.empty_world =
     (Ok (Left 0 (mkCursor 0 0)),
      mkWorld ∅
              [(INFO, "Starting download process for term: cancer, target: 0 clean datasets");
               (INFO, "Process completed. Collected 0 clean datasets")]
              [] [])
   ∧ terminal 0 (Left 0 (mkCursor 0 0)) = Some DoneSuccess)
  ∧ (∃ e, main [(Scenario.page_env 10 25, Scenario.page_sched 10)] "cancer" 0
            (Scenario.world_with [("temp_gz_files", "not a folder")]) =
          (Raise e,
           mkWorld (fs (Scenario.world_with [("temp_gz_files", "not a folder")]))
                   [(INFO, "Starting download process for term: cancer, target: 0 clean datasets")]
                   [] [])).
Proof.
  split.
  - apply (nothing_asked_nothing_done [(Scenario.page_env 10 25, Scenario.page_sched 10)]
             "cancer" 0 Scenario.empty_world).
    reflexivity.
  - apply (nothing_asked_nothing_done [(Scenario.page_env 10 25, Scenario.page_sched 10)]
             "cancer" 0 (Scenario.world_with [("temp_gz_files", "not a folder")])).
    reflexivity.
Defined.

Definition cursor_of (run : Run) : Cursor :=
  match run with Left _ c => c | Going c => c end.

Definition passes_of (run : Run) (otherwise : nat) : nat :=
  match run with Left passes _ => passes | Going _ => otherwise end.

(** One pass through the body: the window stays or moves on by ten, the
    count does not go down. *)
Lemma main_body_cursor (env : Env) (sched : list Event) (search_term : string)
    (num_clean_datasets : Z) (c c' : Cursor) (brk : bool) (w w' : World) :
  main_body env sched search_term num_clean_datasets c w = (Ok (brk, c'), w') →
  (retstart c' = retstart c ∨ retstart c' = retstart c + 10) ∧
  clean_datasets_count c ≤ clean_datasets_count c'.
Proof.
  destruct (main_try env sched search_term num_clean_datasets c w) as [[r|e] w1] eqn:Htry.
  - rewrite (main_body_ok _ _ _ _ _ _ _ _ Htry). intros [= -> <-].
    revert Htry. unfold main_try. unfold bind at 1.
    destruct (get_uid_from_term env search_term batch_size (retstart c) w)
      as [[[[uids max_count] prev]|e] w2]; [| discriminate].
    destruct uids as [|u uids'].
    + unfold bind, logging, ret. intros [= <- <-]. split; [now left | lia].
    + unfold bind at 1.
      destruct (get_sraid_from_uid env (u :: uids') w2) as [[rows|e] w3]; [| discriminate].
      unfold bind at 1.
      destruct (download_and_process_parallel env rows GZ_TEMP_FOLDER
                  CLEAN_DATASET_FOLDER sched w3) as [[processed|e] w4]; [| discriminate].
      cbv zeta. unfold bind at 1, logging at 1.
      destruct (clean_datasets_count c + Z.of_nat (length processed) >=? num_clean_datasets).
      * unfold ret. intros [= <- <-]. simpl. split; [now left | lia].
      * destruct (retstart c + batch_size >=? max_count).
        -- unfold bind, logging, ret. intros [= <- <-]. simpl. split; [now right | lia].
        -- unfold ret. intros [= <- <-]. simpl. split; [now right | lia].
  - rewrite (main_body_raise _ _ _ _ _ _ _ _ Htry). intros [= <- <-].
    split; [now left | lia].
Qed.

Lemma main_loop_cursor (search_term : string) (num_clean_datasets : Z)
    (rounds : list (Env * list Event)) :
  ∀ passes c w run w',
    main_loop rounds search_term num_clean_datasets passes c w = (Ok run, w') →
    (∃ k : nat, (k ≤ length rounds)%nat ∧
                retstart (cursor_of run) = retstart c + 10 * Z.of_nat k) ∧
    clean_datasets_count c ≤ clean_datasets_count (cursor_of run) ∧
    (passes ≤ passes_of run passes ≤ passes + length rounds)%nat.
Proof.
  induction rounds as [|[env sched] rest IH]; intros passes c w run w'; simpl.
  - destruct (clean_datasets_count c <? num_clean_datasets); unfold ret;
      intros [= <- <-]; simpl; (split; [exists 0%nat; split; [lia | lia] |]); lia.
  - destruct (clean_datasets_count c <? num_clean_datasets).
    + unfold bind.
      destruct (main_body_total env sched search_term num_clean_datasets c w)
        as ([brk c1] & w1 & Hbody).
      rewrite Hbody. simpl.
      apply main_body_cursor in Hbody as [Hwin Hcount].
      destruct brk.
      * unfold ret. intros [= <- <-]. simpl. split; [| lia].
        destruct Hwin as [-> | ->]; [exists 0%nat | exists 1%nat]; split; lia.
      * intros Hrest. apply IH in Hrest as ((k & Hk & Hwin') & Hcount' & Hpasses).
        split; [| split; [lia |]].
        -- destruct Hwin as [Hw | Hw]; rewrite Hw in Hwin';
             [exists k | exists (S k)]; split; lia.
        -- destruct run; simpl in *; lia.
    + unfold ret. intros [= <- <-]. simpl.
      split; [exists 0%nat; split; lia | lia].
Qed.

(** X9. [main] raises in one case only: when a regular file stands where the
    download folder is to be made; it then stops after its first record,
    before any request.  In every other case it returns, whatever the
    passes meet.  The window it has then reached is ten times the number of
    pages it moved over, which is at most the number of passes made; the
    count of clean datasets is not negative; a loop that was left was left
    after at most as many passes as there were rounds; and the path of the
    download folder is still free, so that no page found a regular file
    there. *)
Theorem window_moves_in_tens (rounds : list (Env * list Event)) (search_term : string)
    (num_clean_datasets : Z) (w : World) :
  match fs w !! GZ_TEMP_FOLDER with
  | Some _ =>
      ∃ e, main rounds search_term num_clean_datasets w =
             (Raise e,
              mkWorld (fs w) (log w ++ [opening_record search_term num_clean_datasets])
                      (requests w) (commands w))
  | None =>
      ∃ run w',
        main rounds search_term num_clean_datasets w = (Ok run, w') ∧
        (∃ k : nat, (k ≤ length rounds)%nat ∧ retstart (cursor_of run) = 10 * Z.of_nat k) ∧
        0 ≤ clean_datasets_count (cursor_of run) ∧
        (passes_of run 0 ≤ length rounds)%nat ∧
        fs w' !! GZ_TEMP_FOLDER = None
  end.
Proof.
  destruct (fs w !! GZ_TEMP_FOLDER) as [content|] eqn:Hfolder;
    unfold main; unfold bind at 1, logging at 1; unfold bind at 1, os_makedirs_exist_ok;
    cbn [fs]; rewrite Hfolder; cbv beta iota.
  { eexists. reflexivity. }
  unfold bind at 1.
  match goal with |- context [main_loop _ _ _ _ _ ?w0] =>
    pose proof (main_loop_keeps_folder search_term num_clean_datasets rounds 0
                  (mkCursor 0 0) w0 Hfolder) as Hfree;
    destruct (main_loop_total search_term num_clean_datasets rounds 0 (mkCursor 0 0) w0)
      as (run & w1 & Hloop)
  end.
  rewrite Hloop in Hfree |- *. simpl in Hfree.
  apply main_loop_cursor in Hloop as ((k & Hk & Hwin) & Hcount & Hpasses).
  simpl in Hwin, Hcount.
  assert (Hend : ∃ w', (match run with
                        | Going _ => ret run
                        | Left _ c =>
                            bind (logging INFO ("Process completed. Collected " +:+
                                    pretty (clean_datasets_count c) +:+ " clean datasets"))
                              (λ _, bind (when (clean_datasets_count c <? num_clean_datasets)
                                      (logging WARNING ("Could only collect " +:+
                                         pretty (clean_datasets_count c) +:+
                                         " clean datasets out of requested " +:+
                                         pretty num_clean_datasets)))
                                    (λ _, ret run))
                        end) w1 = (Ok run, w') ∧ fs w' = fs w1).
  { destruct run as [p c|c]; [| eexists; split; reflexivity].
    unfold bind, logging, when, ret.
    destruct (clean_datasets_count c <? num_clean_datasets); eexists; split; reflexivity. }
  destruct Hend as (w' & Hend & Hfs).
  exists run, w'. split; [exact Hend |].
  split; [exists k; split; [exact Hk | lia] |]. split; [lia |].
  split; [destruct run; simpl in *; lia |].
  rewrite Hfs. exact Hfree.
Qed.

End ControllerExtras.

Section LastWords.

(** The records [main] writes once the loop is left *)
Definition closing_records (num_clean_datasets : Z) (c : Cursor) : list (Level * string) :=
  let count := clean_datasets_count c in
  (INFO, "Process completed. Collected " +:+ pretty count +:+ " clean datasets") ::
  match terminal num_clean_datasets (Left 0 c) with
  | Some DonePartial =>
      [(WARNING, "Could only collect " +:+ pretty count +:+
                 " clean datasets out of requested " +:+ pretty num_clean_datasets)]
  | _ => []
  end.

(** X10. When the loop has been left, the log ends with the record of
    completion, which tells the count reached; it is followed by the
    warning that less was collected than requested exactly when the run is
    partial.  Before these come the opening record and the records of the
    loop; nothing but the log changes after the loop. *)
Theorem last_words_tell_the_outcome (rounds : list (Env * list Event))
    (search_term : string) (num_clean_datasets : Z) (w w' : World) (passes : nat)
    (c : Cursor) :
  main rounds search_term num_clean_datasets w = (Ok (Left passes c), w') →
  ∃ w1,
    main_loop rounds search_term num_clean_datasets 0 (mkCursor 0 0)
      (mkWorld (fs w)
         (log w ++ [(INFO, "Starting download process for term: " +:+ search_term +:+
                           ", target: " +:+ pretty num_clean_datasets +:+ " clean datasets")])
         (requests w) (commands w))
      = (Ok (Left passes c), w1) ∧
    log w' = log w1 ++ closing_records num_clean_datasets c ∧
    fs w' = fs w1 ∧ requests w' = requests w1 ∧ commands w' = commands w1.
Proof.
  unfold main. unfold bind at 1, logging at 1. unfold bind at 1, os_makedirs_exist_ok.
  cbn [fs]. destruct (fs w !! GZ_TEMP_FOLDER) as [content|]; cbv beta iota;
    [discriminate |].
  unfold bind at 1.
  match goal with |- context [main_loop _ _ _ _ _ ?w0] =>
    destruct (main_loop rounds search_term num_clean_datasets 0 (mkCursor 0 0) w0)
      as [[run|e] w1] eqn:Hloop
  end; [| discriminate].
  destruct run as [p c0|c0]; [| unfold ret; discriminate].
  unfold closing_records, terminal.
  unfold bind, logging, when, ret.
  destruct (clean_datasets_count c0 <? num_clean_datasets) eqn:Hlt;
    intros [= -> -> <-]; exists w1; simpl; rewrite Hlt;
    rewrite <- ?app_assoc; repeat split; reflexivity.
Qed.

Lemma last_words_tell_the_outcome_witness :
  ∃ w1,
    main_loop [(Scenario.barren_env, [])] "cancer" 100 0 (mkCursor 0 0)
      (mkWorld (fs Scenario.empty_world)
         (log Scenario.empty_world ++
            [(INFO, "Starting download process for term: " +:+ "cancer" +:+
                    ", target: " +:+ pretty 100 +:+ " clean datasets")])
         (requests Scenario.empty_world) (commands Scenario.empty_world))
      = (Ok (Left 1 (mkCursor 0 0)), w1) ∧
    log (main [(Scenario.barren_env, [])] "cancer" 100 Scenario.empty_world).2
      = log w1 ++ closing_records 100 (mkCursor 0 0) ∧
    fs (main [(Scenario.barren_env, [])] "cancer" 100 Scenario.empty_world).2 = fs w1 ∧
    requests (main [(Scenario.barren_env, [])] "cancer" 100 Scenario.empty_world).2
      = requests w1 ∧
    commands (main [(Scenario.barren_env, [])] "cancer" 100 Scenario.empty_world).2
      = commands w1.
Proof.
  apply (last_words_tell_the_outcome [(Scenario.barren_env, [])] "cancer" 100
           Scenario.empty_world
           (main [(Scenario.barren_env, [])] "cancer" 100 Scenario.empty_world).2 1
           (mkCursor 0 0)).
  vm_compute. reflexivity.
Defined.

End LastWords.

Section ReportDirectory.

Lemma replace_blob_name (sra_id : string) :
  has_char "." sra_id = false →
  replace (sra_id +:+ ".fastq.gz") ".fastq.gz" "_fastqc" = sra_id +:+ "_fastqc".
Proof.
  unfold replace. induction sra_id as [|c r IH]; intros Hdot.
  - reflexivity.
  - simpl in Hdot. apply orb_false_iff in Hdot as [Hc Hr].
    rewrite !append_cons. simpl. rewrite Hc. f_equal. apply IH. exact Hr.
Qed.


(** Joining a file name onto the report directory of a dot-free identifier *)
Lemma report_child (sra_id name : string) :
  has_char slash sra_id = false → has_char "." sra_id = false →
  startswith name "/" = false →
  os_path_join (report_dir sra_id) name
  = "temp_gz_files/fastqc_temp/" +:+ sra_id +:+ "_fastqc" +:+ "/" +:+ name.
Proof.
  intros Hslash Hdot Hname.
  rewrite (report_dir_eq sra_id Hslash). unfold report_name, blob_name.
  rewrite (replace_blob_name sra_id Hdot).
  unfold os_path_join. rewrite Hname.
  assert (Hne : String.eqb ("temp_gz_files/fastqc_temp/" +:+ sra_id +:+ "_fastqc") ""
                = false) by reflexivity.
  rewrite Hne.
  assert (Hend : endswith_slash ("temp_gz_files/fastqc_temp/" +:+ sra_id +:+ "_fastqc")
                 = false).
  { rewrite <- append_assoc. apply endswith_slash_letters; [discriminate | reflexivity]. }
  rewrite Hend. simpl. rewrite !append_assoc. reflexivity.
Qed.

(** X11. For an identifier without slash and without dot, the gate looks for
    the inspector's report in
    [temp_gz_files/fastqc_temp/<identifier>_fastqc], reads
    [summary.txt] there, and copies an accepted blob to
    [clean_datasets/<identifier>.fastq.gz]. *)
Theorem where_the_gate_looks (sra_id : string) :
  has_char slash sra_id = false →
  has_char "." sra_id = false →
  let gz := os_path_join GZ_TEMP_FOLDER (sra_id +:+ ".fastq.gz") in
  let temp_output_dir := os_path_dirname gz in
  let fastqc_output_dir := os_path_join temp_output_dir FASTQ_TEMP_FOLDER in
  gz = "temp_gz_files/" +:+ sra_id +:+ ".fastq.gz" ∧
  fastqc_output_dir = "temp_gz_files/fastqc_temp" ∧
  results_dir fastqc_output_dir gz = "temp_gz_files/fastqc_temp/" +:+ sra_id +:+ "_fastqc" ∧
  os_path_join (results_dir fastqc_output_dir gz) "summary.txt"
    = "temp_gz_files/fastqc_temp/" +:+ sra_id +:+ "_fastqc/summary.txt" ∧
  os_path_join CLEAN_DATASET_FOLDER (os_path_basename gz)
    = "clean_datasets/" +:+ sra_id +:+ ".fastq.gz".
Proof.
  intros Hslash Hdot. cbv zeta.
  fold (blob_name sra_id). fold (blob_path sra_id).
  pose proof (report_dir_eq sra_id Hslash) as Hrd. unfold report_dir in Hrd.
  split; [apply (blob_path_eq sra_id Hslash) |].
  split; [rewrite (dirname_blob sra_id Hslash); reflexivity |].
  assert (Hname : report_name sra_id = sra_id +:+ "_fastqc").
  { unfold report_name, blob_name. now apply replace_blob_name. }
  split; [rewrite Hrd, Hname; reflexivity |]. split.
  - fold (report_dir sra_id). rewrite (report_child sra_id "summary.txt" Hslash Hdot eq_refl).
    reflexivity.
  - apply (clean_path_eq sra_id Hslash).
Qed.

Lemma where_the_gate_looks_witness :
  let gz := os_path_join GZ_TEMP_FOLDER ("SRR32410640" +:+ ".fastq.gz") in
  let temp_output_dir := os_path_dirname gz in
  let fastqc_output_dir := os_path_join temp_output_dir FASTQ_TEMP_FOLDER in
  gz = "temp_gz_files/" +:+ "SRR32410640" +:+ ".fastq.gz" ∧
  fastqc_output_dir = "temp_gz_files/fastqc_temp" ∧
  results_dir fastqc_output_dir gz
    = "temp_gz_files/fastqc_temp/" +:+ "SRR32410640" +:+ "_fastqc" ∧
  os_path_join (results_dir fastqc_output_dir gz) "summary.txt"
    = "temp_gz_files/fastqc_temp/" +:+ "SRR32410640" +:+ "_fastqc/summary.txt" ∧
  os_path_join CLEAN_DATASET_FOLDER (os_path_basename gz)
    = "clean_datasets/" +:+ "SRR32410640" +:+ ".fastq.gz".
Proof.
  apply (where_the_gate_looks "SRR32410640"); reflexivity.
Defined.

End ReportDirectory.

(** ** The order of events does not matter *)

Section Regions.

(** What the handling of an identifier reads: its blob (and what might lie
    beneath it) and the inspector's report directory for it. *)
Definition region (sra_id q : string) : bool :=
  under (blob_path sra_id) q || under (report_dir sra_id) q.

Definition agree (sra_id : string) (f g : gmap string string) : Prop :=
  ∀ q, region sra_id q = true → f !! q = g !! q.

Lemma agree_refl (sra_id : string) (f : gmap string string) : agree sra_id f f.
Proof. intros q _. reflexivity. Qed.

Lemma agree_trans (sra_id : string) (f g h : gmap string string) :
  agree sra_id f g → agree sra_id g h → agree sra_id f h.
Proof. intros H1 H2 q Hq. now rewrite (H1 q Hq), (H2 q Hq). Qed.

Lemma report_name_accession (sra_id : string) :
  accession sra_id = true → report_name sra_id = sra_id +:+ "_fastqc".
Proof.
  intros Hid. unfold report_name, blob_name. apply replace_blob_name.
  now apply (accession_has_char "." sra_id).
Qed.

Lemma accession_suffix_inj (a b : string) :
  accession a = true → accession b = true →
  startswith (b +:+ "_fastqc") (a +:+ "_fastqc") = true → a = b.
Proof.
  revert b. induction a as [|x a IH]; intros b Ha Hb.
  - destruct b as [|y b]; [reflexivity |].
    simpl in Hb. apply andb_true_iff in Hb as [Hy _].
    rewrite append_nil, append_cons. simpl.
    destruct (Ascii.eqb_spec "_" y) as [<-|]; [discriminate Hy | discriminate].
  - simpl in Ha. apply andb_true_iff in Ha as [Hx Ha].
    destruct b as [|y b].
    + rewrite append_nil, append_cons. simpl.
      destruct (Ascii.eqb_spec x "_") as [->|]; [discriminate Hx | discriminate].
    + simpl in Hb. apply andb_true_iff in Hb as [_ Hb].
      rewrite !append_cons. simpl.
      destruct (Ascii.eqb_spec x y) as [->|]; [| discriminate].
      intros H. f_equal. now apply IH.
Qed.

(** The report directories of two accessions share nothing. *)
Lemma report_dirs_apart (a b q : string) :
  accession a = true → accession b = true → a ≠ b →
  under (report_dir a) q = true → under (report_dir b) q = false.
Proof.
  intros Ha Hb Hne Hqa.
  destruct (under (report_dir b) q) eqn:Hqb; [| reflexivity].
  exfalso. apply Hne.
  apply under_startswith in Hqa, Hqb.
  rewrite report_dir_eq in Hqa, Hqb by now apply accession_no_slash.
  rewrite report_name_accession in Hqa, Hqb by assumption.
  destruct (startswith_comparable q _ _ Hqa Hqb) as [H|H];
    rewrite startswith_cancel in H.
  - symmetry. now apply accession_suffix_inj.
  - now apply accession_suffix_inj.
Qed.

(** What is done with [b] leaves alone what the handling of [a] reads. *)
Lemma region_not_blob (a b q : string) :
  accession a = true → accession b = true → a ≠ b →
  region a q = true → q ≠ blob_path b.
Proof.
  intros Ha Hb Hne Hq. apply accession_no_slash in Ha, Hb.
  apply orb_true_iff in Hq as [Hq|Hq].
  - now apply (beneath_blob_not_blob a b Ha Hb q).
  - now apply (in_report_not_blob a b Ha Hb q).
Qed.

Lemma region_not_clean (a b q : string) :
  accession a = true → accession b = true → region a q = true → q ≠ clean_path b.
Proof.
  intros Ha Hb Hq. apply accession_no_slash in Ha, Hb.
  apply orb_true_iff in Hq as [Hq|Hq].
  - now apply (beneath_blob_not_clean a b Ha Hb q).
  - now apply (in_report_not_clean a b Ha Hb q).
Qed.

Lemma region_not_report (a b q : string) :
  accession a = true → accession b = true → a ≠ b →
  region a q = true → under (report_dir b) q = false.
Proof.
  intros Ha Hb Hne Hq.
  apply orb_true_iff in Hq as [Hq|Hq].
  - apply (beneath_blob_not_report a b); try apply accession_no_slash; assumption.
  - now apply (report_dirs_apart a b q).
Qed.

Lemma region_not_beside (a b q : string) :
  accession a = true → accession b = true →
  region a q = true → left_beside (report_dir b) q = false.
Proof.
  intros Ha Hb Hq. apply accession_no_slash in Ha, Hb.
  apply orb_true_iff in Hq as [Hq|Hq].
  - now apply (beneath_blob_not_beside a b Ha Hb q).
  - now apply (in_report_not_beside a b Ha Hb q).
Qed.

End Regions.

Section FetchFunction.

Variable env : Env.
Variables (run_info : gmap string string) (output_dir sra_id : string).
Hypothesis Hrun : run_info !! "run" = Some sra_id.

Let url := NCBI_TRACE_BASEURL +:+ sra_id.
Let path := os_path_join output_dir (blob_name sra_id).

(** The outcome of the fetch stage, given whether the blob is there: the
    success flag, and the body of a blob newly written. *)
Definition fetched (present : bool) : bool * option string :=
  if present then (true, None)
  else
    match http_head env (NCBI_TRACE_BASEURL +:+ sra_id) with
    | HeadRaises _ => (false, None)
    | HeadHeaders content_length =>
        match http_get env (NCBI_TRACE_BASEURL +:+ sra_id) with
        | GetRaises _ => (false, None)
        | GetBody _ (Some _) => (false, None)
        | GetBody chunks None =>
            let body := String.concat "" chunks in
            if Z.of_nat (String.length body) <? default 0 content_length
            then (false, None) else (true, Some body)
        end
    end.

Definition put (written : option string) (f : gmap string string) : gmap string string :=
  match written with
  | Some body => <[os_path_join output_dir (blob_name sra_id) := body]> f
  | None => f
  end.

Lemma failed_fetch_restores (w w' : World) :
  path_exists (fs w) path = false →
  (∀ q, q ≠ path → fs w' !! q = fs w !! q) → fs w' !! path = None →
  fs w' = fs w.
Proof.
  intros Hex Hframe Hnone. apply map_eq. intros q.
  destruct (decide (q = path)) as [->|Hne]; [| now apply Hframe].
  rewrite Hnone. symmetry. now apply path_absent_lookup.
Qed.

(** The fetch stage as a function of what it reads *)
Lemma download_function (w : World) :
  ∃ w',
    download_single_sra_file env run_info output_dir w
      = (Ok (sra_id, (fetched (path_exists (fs w) path)).1), w') ∧
    fs w' = put (fetched (path_exists (fs w) path)).2 (fs w).
Proof.
  unfold fetched, put. fold url path.
  destruct (path_exists (fs w) path) eqn:Hex.
  - rewrite (download_existing env run_info output_dir sra_id Hrun w Hex).
    eexists. split; reflexivity.
  - unfold download_single_sra_file. rewrite Hrun. fold path url.
    unfold try_except. unfold bind at 1. unfold os_path_exists at 1. rewrite Hex.
    unfold bind at 1. unfold requests_head.
    destruct (http_head env url) as [e|cl] eqn:Hhead.
    + destruct (fetch_handler env output_dir sra_id e w
                  (mkWorld (fs w) (log w) (requests w ++ [HEAD url]) (commands w)) [])
        as (record & w' & Hh & _ & _ & _ & Hframe & Hnone);
        try reflexivity; [left; exact Hhead |].
      exists w'. split; [exact Hh |]. simpl. now apply failed_fetch_restores.
    + unfold bind at 1. unfold requests_get. simpl.
      destruct (http_get env url) as [e|chunks broken] eqn:Hget.
      * destruct (fetch_handler env output_dir sra_id e w
                    (mkWorld (fs w) (log w) ((requests w ++ [HEAD url]) ++ [GET url])
                             (commands w)) [])
          as (record & w' & Hh & _ & _ & _ & Hframe & Hnone);
          try reflexivity; [right; left; exact Hget |].
        exists w'. split; [exact Hh |]. simpl. now apply failed_fetch_restores.
      * unfold bind at 1. unfold open_wb. simpl.
        unfold bind at 1.
        rewrite (write_chunks_spec output_dir sra_id chunks broken "")
          by (simpl; apply lookup_insert_eq).
        rewrite append_nil. fold path.
        set (body := String.concat "" chunks).
        set (wm := set_fs (<[path := body]>) (set_fs (<[path := ""]>)
                     (mkWorld (fs w) (log w) ((requests w ++ [HEAD url]) ++ [GET url])
                              (commands w)))).
        assert (Hwm : ∀ q, q ≠ path → fs wm !! q = fs w !! q).
        { intros q Hq. unfold wm. simpl. rewrite !lookup_insert_ne by congruence.
          reflexivity. }
        destruct broken as [e|].
        -- destruct (fetch_handler env output_dir sra_id e w wm [])
             as (record & w' & Hh & _ & _ & _ & Hframe & Hnone);
             try reflexivity; try exact Hwm.
           { right; right; left. exists chunks. exact Hget. }
           exists w'. split; [exact Hh |]. simpl. now apply failed_fetch_restores.
        -- unfold bind at 1. unfold os_path_getsize.
           assert (Hbody : fs wm !! path = Some body).
           { unfold wm. simpl. apply lookup_insert_eq. }
           rewrite Hbody.
           destruct (Z.of_nat (String.length body) <? default 0 cl).
           ++ unfold raise.
              destruct (fetch_handler env output_dir sra_id
                          (size_mismatch (Z.of_nat (String.length body)) (default 0 cl))
                          w wm []) as (record & w' & Hh & _ & _ & _ & Hframe & Hnone);
                try reflexivity; try exact Hwm.
              { right; right; right. eexists. eexists. reflexivity. }
              exists w'. split; [exact Hh |]. simpl. now apply failed_fetch_restores.
           ++ unfold bind, logging, ret. simpl.
              eexists. split; [reflexivity |]. simpl.
              now rewrite insert_insert_eq.
Qed.

End FetchFunction.

Section OnlyTheRunMatters.

(** Of a row the fetch stage reads the ['run'] entry and nothing else. *)
Lemma download_by_run (env : Env) (run_info : gmap string string)
    (output_dir sra_id : string) (w : World) :
  run_info !! "run" = Some sra_id →
  download_single_sra_file env run_info output_dir w
  = download_single_sra_file env {[ "run" := sra_id ]} output_dir w.
Proof.
  intros Hrun. unfold download_single_sra_file. rewrite Hrun, lookup_singleton_eq.
  reflexivity.
Qed.

End OnlyTheRunMatters.

Section GateFunction.

Variable env : Env.

(** The verdict of the gate is settled by three things it reads after the
    inspector has run: whether the summary exists, what it holds, and the
    blob. *)
Lemma gate_end_verdict (gz temp clean : string)
    (fs1 fs1' fs2 fs2' : gmap string string) (v v' : bool) (r r' : Level * string) :
  let summary :=
    os_path_join (results_dir (os_path_join temp FASTQ_TEMP_FOLDER) gz) "summary.txt" in
  gate_end env gz temp clean fs1 v r fs2 →
  gate_end env gz temp clean fs1' v' r' fs2' →
  path_exists fs1 summary = path_exists fs1' summary →
  fs1 !! summary = fs1' !! summary →
  fs1 !! gz = fs1' !! gz →
  v = v'.
Proof.
  intros summary H H' Hpe Hsum Hgz. subst summary.
  destruct H as [Hs | e Hs He | text line Hs Hr Ht Hf | text blob Hs Hr Ht Hf Hc Hb Hd];
    destruct H' as [Hs' | e' Hs' He' | text' line' Hs' Hr' Ht' Hf'
                   | text' blob' Hs' Hr' Ht' Hf' Hc' Hb' Hd'];
    try reflexivity; exfalso;
    try (unfold gate_error in *);
    try (destruct He as [?|[[? ?]|[?|[[? ?]|[? ?]]]]]);
    try (destruct He' as [?|[[? ?]|[?|[[? ?]|[? ?]]]]]);
    congruence.
Qed.

Variable sra_id : string.
Hypothesis Hid : accession sra_id = true.

Let Hslash : has_char slash sra_id = false := accession_no_slash sra_id Hid.
Let Hdot : has_char "." sra_id = false := accession_has_char "." sra_id eq_refl Hid.

Lemma blob_in_region : region sra_id (blob_path sra_id) = true.
Proof. unfold region. now rewrite under_refl. Qed.

Lemma beneath_blob_in_region (q : string) :
  under (blob_path sra_id) q = true → region sra_id q = true.
Proof. intros H. unfold region. now rewrite H. Qed.

Lemma report_in_region (q : string) :
  under (report_dir sra_id) q = true → region sra_id q = true.
Proof. intros H. unfold region. rewrite H. apply orb_true_r. Qed.

Lemma beneath_summary (q : string) :
  under (os_path_join (report_dir sra_id) "summary.txt") q = true →
  under (report_dir sra_id) q = true.
Proof.
  rewrite (report_child sra_id "summary.txt" Hslash Hdot eq_refl).
  rewrite (report_dir_eq sra_id Hslash).
  unfold report_name, blob_name. rewrite (replace_blob_name sra_id Hdot).
  set (rd := "temp_gz_files/fastqc_temp/" +:+ sra_id +:+ "_fastqc").
  intros H. apply under_startswith in H.
  unfold under. apply orb_true_iff. right.
  assert (Hshape : "temp_gz_files/fastqc_temp/" +:+ sra_id +:+ "_fastqc" +:+ "/" +:+
                   "summary.txt" = (rd +:+ "/") +:+ "summary.txt").
  { unfold rd. rewrite !append_assoc. reflexivity. }
  rewrite Hshape in H. eapply startswith_append_l. exact H.
Qed.

Lemma extract_agree (d : string) (files : list (string * string))
    (f g : gmap string string) (q : string) :
  f !! q = g !! q → extract d files f !! q = extract d files g !! q.
Proof.
  intros H. induction files as [|[name c] files IH]; simpl; [exact H |].
  destruct (decide (d +:+ "/" +:+ name = q)) as [->|Hne].
  - now rewrite !lookup_insert_eq.
  - now rewrite !lookup_insert_ne.
Qed.

Lemma beside_agree (d : string) (archive : option (string * string))
    (f g : gmap string string) (q : string) :
  f !! q = g !! q → beside d archive f !! q = beside d archive g !! q.
Proof.
  intros H. unfold beside. destruct archive as [[zip html]|]; [| exact H].
  destruct (decide (d +:+ ".zip" = q)) as [->|Hz]; [now rewrite !lookup_insert_eq |].
  rewrite !(lookup_insert_ne _ (d +:+ ".zip")) by exact Hz.
  destruct (decide (d +:+ ".html" = q)) as [->|Hh]; [now rewrite !lookup_insert_eq |].
  now rewrite !lookup_insert_ne.
Qed.

(** Two worlds that agree on what the handling of the identifier reads get
    the same verdict from the gate. *)
Lemma process_verdict_agree (w1 w2 : World) :
  agree sra_id (fs w1) (fs w2) →
  (process_downloaded_file env sra_id (blob_path sra_id) CLEAN_DATASET_FOLDER w1).1
  = (process_downloaded_file env sra_id (blob_path sra_id) CLEAN_DATASET_FOLDER w2).1.
Proof.
  intros Hag.
  pose proof (process_effect env sra_id (blob_path sra_id) CLEAN_DATASET_FOLDER w1) as H1.
  pose proof (process_effect env sra_id (blob_path sra_id) CLEAN_DATASET_FOLDER w2) as H2.
  assert (Hpe : path_exists (fs w1) (blob_path sra_id)
                = path_exists (fs w2) (blob_path sra_id)).
  { apply path_exists_frame. intros q Hq.
    apply Hag. now apply beneath_blob_in_region. }
  destruct (path_exists (fs w1) (blob_path sra_id)) eqn:E1;
    destruct (path_exists (fs w2) (blob_path sra_id)) eqn:E2; try discriminate Hpe.
  - destruct H1 as (v1 & r1 & fs21 & Hend1 & Hrun1).
    destruct H2 as (v2 & r2 & fs22 & Hend2 & Hrun2).
    rewrite Hrun1, Hrun2. simpl. f_equal.
    assert (Hins : ∀ q, region sra_id q = true →
              inspected env (blob_path sra_id) (os_path_dirname (blob_path sra_id))
                (fs w1) !! q
              = inspected env (blob_path sra_id) (os_path_dirname (blob_path sra_id))
                  (fs w2) !! q).
    { intros q Hq. unfold inspected. apply extract_agree, beside_agree. now apply Hag. }
    apply (gate_end_verdict _ _ _ _ _ _ _ _ _ _ _ Hend1 Hend2).
    + apply path_exists_frame. intros q Hq. apply Hins.
      apply report_in_region. now apply beneath_summary.
    + apply Hins. apply report_in_region. apply beneath_summary. apply under_refl.
    + apply Hins. apply blob_in_region.
  - rewrite H1, H2. reflexivity.
Qed.

End GateFunction.

Section Independence.

Variable env : Env.
Variable rows : list (gmap string string).
Variable ids : list string.
Hypothesis Hrows : Forall2 (λ row id, row !! "run" = Some id) rows ids.
Hypothesis Hnodup : NoDup ids.
Hypothesis Hacc : Forall (λ id, accession id = true) ids.

Let Hvalid : Forall (λ id, has_char slash id = false) ids := accessions_valid ids Hacc.
Let step := page_step env rows GZ_TEMP_FOLDER CLEAN_DATASET_FOLDER.

(** The identifier handled on its own, from the world the page starts in:
    fetched and, if that succeeds, gated at once. *)
Definition accepted_alone (w0 : World) (sra_id : string) : bool :=
  match download_single_sra_file env {[ "run" := sra_id ]} GZ_TEMP_FOLDER w0 with
  | (Ok (_, true), w1) =>
      match process_downloaded_file env sra_id
              (os_path_join GZ_TEMP_FOLDER (sra_id +:+ ".fastq.gz"))
              CLEAN_DATASET_FOLDER w1 with
      | (Ok passed, _) => passed
      | (Raise _, _) => false
      end
  | _ => false
  end.

Variable w0 : World.

(** While the page runs, what the handling of an identifier reads is as it
    would be had the identifier been handled on its own up to the same
    point; and the identifiers gated so far were accepted exactly when they
    would have been accepted on their own. *)
Definition indep_inv (pg : Page) (w : World) : Prop :=
  (∀ i id, ids !! i = Some id → futures pg !! i = None → agree id (fs w) (fs w0)) ∧
  (∀ i id r, ids !! i = Some id → i ∉ yielded pg → futures pg !! i = Some r →
     ∃ w1, download_single_sra_file env {[ "run" := id ]} GZ_TEMP_FOLDER w0 = (r, w1) ∧
           agree id (fs w) (fs w1)) ∧
  (∀ pf, main_thread pg = Ok pf →
     ∀ i id, ids !! i = Some id → i ∈ yielded pg →
       (id ∈ pf ↔ accepted_alone w0 id = true)).

Lemma put_agree (sra_id a : string) (written : option string) (f g : gmap string string) :
  agree a f g → agree a (put GZ_TEMP_FOLDER sra_id written f) (put GZ_TEMP_FOLDER sra_id written g).
Proof.
  intros H q Hq. unfold put. destruct written as [body|]; [| now apply H].
  destruct (decide (os_path_join GZ_TEMP_FOLDER (blob_name sra_id) = q)) as [->|Hne].
  - now rewrite !lookup_insert_eq.
  - rewrite !lookup_insert_ne by exact Hne. now apply H.
Qed.

Lemma put_elsewhere (sra_id q : string) (written : option string) (f : gmap string string) :
  q ≠ blob_path sra_id → put GZ_TEMP_FOLDER sra_id written f !! q = f !! q.
Proof.
  intros Hq. unfold put. destruct written as [body|]; [| reflexivity].
  apply lookup_insert_ne. intros Heq. apply Hq. symmetry. exact Heq.
Qed.

Lemma indep_inv_step ev pg w :
  page_inv ids w0 pg w → accepted_inv ids pg w → indep_inv pg w →
  indep_inv (step ev pg w).1 (step ev pg w).2.
Proof.
  intros Hinv Hacc0 Hind.
  destruct Hinv as ([pf Hmain] & Hout & Hyield & _ & _ & _).
  destruct Hind as (Hnew & Hdone & Hpf).
  unfold step, page_step. destruct ev as [i|i].
  - (* a worker runs task i *)
    destruct (rows !! i) as [row|] eqn:Hrow; [| now split].
    destruct (futures pg !! i) as [r0|] eqn:Hfi; [now split |].
    destruct (row_id rows ids Hrows i row Hrow) as (idi & Hidi & Hrun).
    assert (Hia := ids_accession ids Hacc i idi Hidi).
    rewrite (download_by_run env row GZ_TEMP_FOLDER idi w Hrun).
    assert (Hsingle : ({[ "run" := idi ]} : gmap string string) !! "run" = Some idi)
      by apply lookup_singleton_eq.
    destruct (download_function env _ GZ_TEMP_FOLDER idi Hsingle w) as (w' & Hdl & Hfs).
    destruct (download_function env _ GZ_TEMP_FOLDER idi Hsingle w0) as (w1 & Hdl0 & Hfs0).
    assert (Hsame : agree idi (fs w) (fs w0)) by (eapply Hnew; eassumption).
    assert (Hpe : path_exists (fs w) (os_path_join GZ_TEMP_FOLDER (blob_name idi))
                  = path_exists (fs w0) (os_path_join GZ_TEMP_FOLDER (blob_name idi))).
    { apply path_exists_frame. intros q Hq. apply Hsame.
      now apply beneath_blob_in_region. }
    rewrite Hpe in Hdl, Hfs. rewrite Hdl. simpl.
    assert (Hother : ∀ j idj, ids !! j = Some idj → j ≠ i →
                       ∀ q, region idj q = true → fs w' !! q = fs w !! q).
    { intros j idj Hj Hne q Hq. rewrite Hfs. apply put_elsewhere.
      apply (region_not_blob idj idi q (ids_accession ids Hacc j idj Hj) Hia); [| exact Hq].
      intros ->. apply Hne. apply (NoDup_lookup ids j i idi Hnodup Hj Hidi). }
    split; [| split].
    + intros j idj Hj Hfj. simpl in Hfj.
      destruct (decide (i = j)) as [<-|Hne]; [rewrite lookup_insert_eq in Hfj; discriminate |].
      rewrite lookup_insert_ne in Hfj by exact Hne.
      intros q Hq. rewrite (Hother j idj Hj (not_eq_sym Hne) q Hq).
      now apply (Hnew j idj Hj Hfj).
    + intros j idj r Hj Hny Hfj. simpl in Hny, Hfj.
      destruct (decide (i = j)) as [<-|Hne].
      * rewrite lookup_insert_eq in Hfj. injection Hfj as <-.
        assert (idj = idi) by congruence. subst idj.
        exists w1. split; [exact Hdl0 |].
        rewrite Hfs, Hfs0. now apply put_agree.
      * rewrite lookup_insert_ne in Hfj by exact Hne.
        destruct (Hdone j idj r Hj Hny Hfj) as (w1' & Hd & Hag).
        exists w1'. split; [exact Hd |].
        intros q Hq. rewrite (Hother j idj Hj (not_eq_sym Hne) q Hq). now apply Hag.
    + exact Hpf.
  - (* the main thread takes future i *)
    destruct (futures pg !! i) as [outcome|] eqn:Hfi; [| now split].
    rewrite Hmain.
    destruct (decide (i ∈ yielded pg)) as [Hin|Hnotin]; [now split |].
    destruct (Hout i outcome Hfi) as (idi & b & Hidi & ->).
    assert (Hia := ids_accession ids Hacc i idi Hidi).
    destruct (Hdone i idi _ Hidi Hnotin Hfi) as (w1 & Hdl0 & Hag).
    destruct (Hacc0 pf Hmain) as [_ Hall].
    assert (Hfresh : idi ∉ pf).
    { intros Hin. destruct (Hall idi Hin) as [(j & Hj & Hjy & _) _].
      assert (j = i) by apply (NoDup_lookup ids j i idi Hnodup Hj Hidi).
      subst j. contradiction. }
    assert (Hothers : ∀ pf' : list string, (∀ x, x ≠ idi → x ∈ pf' ↔ x ∈ pf) →
              ∀ j idj, ids !! j = Some idj → j ∈ yielded pg →
                (idj ∈ pf' ↔ accepted_alone w0 idj = true)).
    { intros pf' Hsame j idj Hj Hjy. rewrite <- (Hpf pf Hmain j idj Hj Hjy).
      apply Hsame. intros ->.
      assert (j = i) by apply (NoDup_lookup ids j i idi Hnodup Hj Hidi).
      subst j. contradiction. }
    unfold completion. destruct b.
    + destruct (process_on_page env idi w) as (v & w' & Hp & _ & _ & Hframe & _).
      unfold bind. fold (blob_path idi). rewrite Hp.
      assert (Halone : accepted_alone w0 idi = v).
      { unfold accepted_alone. rewrite Hdl0. fold (blob_name idi). fold (blob_path idi).
        pose proof (process_verdict_agree env idi Hia w w1 Hag) as Hv.
        rewrite Hp in Hv. simpl in Hv.
        destruct (process_downloaded_file env idi (blob_path idi) CLEAN_DATASET_FOLDER w1)
          as [[v1|e] w1']; simpl in Hv; congruence. }
      assert (Hother : ∀ j idj, ids !! j = Some idj → j ≠ i →
                         ∀ q, region idj q = true → fs w' !! q = fs w !! q).
      { intros j idj Hj Hne q Hq.
        assert (Hja := ids_accession ids Hacc j idj Hj).
        assert (Hdiff : idj ≠ idi).
        { intros ->. apply Hne. apply (NoDup_lookup ids j i idi Hnodup Hj Hidi). }
        apply Hframe.
        - now apply (region_not_report idj idi q).
        - now apply (region_not_clean idj idi q).
        - now apply (region_not_blob idj idi q).
        - now apply (region_not_beside idj idi q). }
      assert (Hgoal : ∀ pf' : list string,
                (idi ∈ pf' ↔ v = true) → (∀ x, x ≠ idi → x ∈ pf' ↔ x ∈ pf) →
                indep_inv (mkPage (futures pg) ({[i]} ∪ yielded pg) (Ok pf')) w').
      { intros pf' Hi Hsame. split; [| split]; simpl.
        - intros j idj Hj Hfj.
          assert (Hne : j ≠ i) by (intros ->; congruence).
          intros q Hq. rewrite (Hother j idj Hj Hne q Hq). now apply (Hnew j idj Hj Hfj).
        - intros j idj r Hj Hny Hfj.
          assert (Hne : j ≠ i) by (intros ->; apply Hny; apply elem_of_union; left;
                                   now apply elem_of_singleton).
          assert (Hny' : j ∉ yielded pg)
            by (intros Hy; apply Hny; apply elem_of_union; now right).
          destruct (Hdone j idj r Hj Hny' Hfj) as (w1' & Hd & Hag').
          exists w1'. split; [exact Hd |].
          intros q Hq. rewrite (Hother j idj Hj Hne q Hq). now apply Hag'.
        - intros pf'' [= <-] j idj Hj Hjy.
          apply elem_of_union in Hjy as [Hjy|Hjy].
          + apply elem_of_singleton in Hjy. subst j.
            assert (idj = idi) by congruence. subst idj. now rewrite Halone.
          + now apply (Hothers pf' Hsame j idj Hj Hjy). }
      destruct v; unfold ret; simpl; apply Hgoal.
      * split; [reflexivity |]. intros _. apply elem_of_app. right.
        now apply list_elem_of_singleton.
      * intros x Hx. rewrite elem_of_app, list_elem_of_singleton. tauto.
      * split; [intros Hin; contradiction | discriminate].
      * tauto.
    + unfold ret. simpl.
      assert (Halone : accepted_alone w0 idi = false)
        by (unfold accepted_alone; now rewrite Hdl0).
      split; [| split]; simpl.
      * exact Hnew.
      * intros j idj r Hj Hny Hfj. apply (Hdone j idj r Hj); [| exact Hfj].
        intros Hy. apply Hny. apply elem_of_union. now right.
      * intros pf' [= <-] j idj Hj Hjy.
        apply elem_of_union in Hjy as [Hjy|Hjy].
        -- apply elem_of_singleton in Hjy. subst j.
           assert (idj = idi) by congruence. subst idj. rewrite Halone.
           split; [intros Hin; contradiction | discriminate].
        -- now apply (Hpf pf Hmain j idj Hj Hjy).
Qed.

Lemma indep_inv_start : indep_inv start w0.
Proof.
  split; [| split]; simpl.
  - intros i id _ _. apply agree_refl.
  - intros i id r _ _ H. rewrite lookup_empty in H. discriminate.
  - intros pf _ i id _ Hy. apply elem_of_empty in Hy. destruct Hy.
Qed.

End Independence.

Section IndependenceExtras.



End IndependenceExtras.

(** ** What the monitor counts *)

(** How the handling of one identifier ends *)
Inductive Outcome :=
| FetchFailed        (* the download did not succeed; the gate is not run *)
| ReportMissing      (* the inspector ran and no summary is there *)
| InspectionFailed   (* reading the summary or copying the blob raised *)
| QualityRejected    (* a line of the summary holds FAIL *)
| QualityAccepted.   (* no line does, and the blob was copied *)

#[export] Instance outcome_eq_dec : EqDecision Outcome.
Proof. solve_decision. Defined.

(** How the gate ends, told from the files the inspector leaves and from the
    faults the environment has in store: the tests of the gate in their
    order.  That the gate answers and logs as this tells is
    [gate_by_outcome] below. *)
Definition gate_outcome (env : Env)
    (fastq_gz_file_path temp_output_dir clean_dataset_dir : string)
    (fs0 : gmap string string) : Outcome :=
  let fastqc_output_dir := os_path_join temp_output_dir FASTQ_TEMP_FOLDER in
  let summary_file :=
    os_path_join (results_dir fastqc_output_dir fastq_gz_file_path) "summary.txt" in
  let clean_file_path :=
    os_path_join clean_dataset_dir (os_path_basename fastq_gz_file_path) in
  let fs1 := inspected env fastq_gz_file_path temp_output_dir fs0 in
  if path_exists fs1 summary_file then
    match read_fault env summary_file, fs1 !! summary_file with
    | None, Some text =>
        match find (str_in "FAIL") (file_lines text) with
        | Some _ => QualityRejected
        | None =>
            match copy_fault env fastq_gz_file_path, fs1 !! fastq_gz_file_path with
            | None, Some _ =>
                if String.eqb fastq_gz_file_path clean_file_path then InspectionFailed
                else QualityAccepted
            | _, _ => InspectionFailed
            end
        end
    | _, _ => InspectionFailed
    end
  else ReportMissing.

(** The identifier handled on its own, from the world the page starts in *)
Definition outcome_alone (env : Env) (w0 : World) (sra_id : string) : Outcome :=
  match download_single_sra_file env {[ "run" := sra_id ]} GZ_TEMP_FOLDER w0 with
  | (Ok (_, true), w1) =>
      gate_outcome env (blob_path sra_id) (os_path_dirname (blob_path sra_id))
        CLEAN_DATASET_FOLDER (fs w1)
  | _ => FetchFailed
  end.

Section GateOutcome.

Variable env : Env.
Variables (fastq_gz_file_path temp_output_dir clean_dataset_dir : string).

Let outdir := os_path_join temp_output_dir FASTQ_TEMP_FOLDER.
Let rdir := results_dir outdir fastq_gz_file_path.
Let name := os_path_basename fastq_gz_file_path.
Let summary := os_path_join rdir "summary.txt".
Let clean_file_path := os_path_join clean_dataset_dir name.
Let cmd := fastqc_path env +:+ " " +:+ fastq_gz_file_path +:+ " -o " +:+
           outdir +:+ " --extract".

(** The record the gate logs after the inspector has run, by outcome *)
Definition outcome_record (fs0 : gmap string string) (o : Outcome)
    (record : Level * string) : Prop :=
  match o with
  | FetchFailed => False
  | ReportMissing => record = (ERROR, "FastQC summary file not found: " +:+ summary)
  | InspectionFailed =>
      ∃ e, gate_error env fastq_gz_file_path temp_output_dir clean_dataset_dir
             (inspected env fastq_gz_file_path temp_output_dir fs0) e ∧
           record = (ERROR, "Error running FastQC on " +:+ fastq_gz_file_path +:+ ": " +:+ e)
  | QualityRejected =>
      ∃ line, has_char newline (strip line) = false ∧
              record = (INFO, "FastQC found quality issues in " +:+ name +:+ ": " +:+ strip line)
  | QualityAccepted =>
      record = (INFO, "File passed quality check and copied to clean dataset folder: " +:+
                      clean_file_path)
  end.

Ltac finish :=
  match goal with
  | |- context [path_exists ?f rdir] => destruct (path_exists f rdir)
  end;
  (eexists; eexists; split; [reflexivity | split; [reflexivity |]]).

(** The gate answers [True] exactly on acceptance, and logs the record of
    its outcome after the record of the command. *)
Lemma gate_by_outcome (w : World) :
  let o := gate_outcome env fastq_gz_file_path temp_output_dir clean_dataset_dir (fs w) in
  ∃ (record : Level * string) (w' : World),
    run_fastqc_and_save_in_clean_dataset_folder_if_all_params_in_summary_txt_file_are_NOT_FAIL
      env fastq_gz_file_path temp_output_dir clean_dataset_dir w
    = (Ok (bool_decide (o = QualityAccepted)), w') ∧
    log w' = (log w ++ [(INFO, "Running FastQC: " +:+ cmd)]) ++ [record] ∧
    outcome_record (fs w) o record.
Proof.
  unfold run_fastqc_and_save_in_clean_dataset_folder_if_all_params_in_summary_txt_file_are_NOT_FAIL.
  unfold gate_outcome, outcome_record.
  fold outdir. fold rdir. fold name. fold summary. fold clean_file_path. fold cmd.
  unfold os_makedirs, bind at 1, ret at 1.
  unfold try_finally, try_except.
  unfold bind at 1, logging at 1.
  unfold bind at 1, os_system at 1. cbv zeta. simpl.
  fold rdir.
  change (extract rdir (fastqc env fastq_gz_file_path)
            (beside rdir (fastqc_archive env fastq_gz_file_path) (fs w)))
    with (inspected env fastq_gz_file_path temp_output_dir (fs w)).
  set (fs1 := inspected env fastq_gz_file_path temp_output_dir (fs w)).
  unfold bind at 1, os_path_exists at 1. simpl.
  destruct (path_exists fs1 summary) eqn:Hsum; simpl.
  - unfold bind at 1, faulty.
    destruct (read_fault env summary) as [e|] eqn:Hread.
    + unfold raise at 1. unfold bind, logging, ret, os_path_exists, when, shutil_rmtree; simpl.
      finish; (exists e; split; [left; exact Hread | reflexivity]).
    + unfold ret at 1. unfold bind at 1, read_lines. simpl.
      destruct (fs1 !! summary) as [text|] eqn:Htext.
      * destruct (find (str_in "FAIL") (file_lines text)) as [line|] eqn:Hfind.
        -- unfold bind, logging, ret, os_path_exists, when, shutil_rmtree; simpl.
           destruct (find_some_in _ _ _ Hfind) as [Hin _].
           finish; (exists line; split; [| reflexivity];
                    eapply strip_line_newline; exact Hin).
        -- unfold bind at 1, os_makedirs, ret at 1.
           unfold bind at 1.
           destruct (copy_fault env fastq_gz_file_path) as [e|] eqn:Hcopy; simpl.
           ++ unfold raise. unfold bind, logging, ret, os_path_exists, when, shutil_rmtree; simpl.
              finish; (exists e; split; [right; right; left; exact Hcopy | reflexivity]).
           ++ unfold ret at 1. unfold bind at 1, copy2. simpl.
              destruct (fs1 !! fastq_gz_file_path) as [blob|] eqn:Hblob.
              ** destruct (String.eqb_spec fastq_gz_file_path clean_file_path) as [Hsame|Hdiff].
                 --- unfold bind, logging, ret, os_path_exists, when, shutil_rmtree; simpl.
                     finish; (exists "SameFileError"; split; [| reflexivity];
                              right; right; right; right; split; [exact Hsame | reflexivity]).
                 --- unfold bind, logging, ret, os_path_exists, when, shutil_rmtree; simpl.
                     finish; reflexivity.
              ** unfold bind, logging, ret, os_path_exists, when, shutil_rmtree; simpl.
                 finish; (exists "FileNotFoundError"; split; [| reflexivity];
                          right; right; right; left; split; [exact Hblob | reflexivity]).
      * unfold bind, logging, ret, os_path_exists, when, shutil_rmtree; simpl.
        finish; (exists "OSError"; split; [| reflexivity];
                 right; left; split; [exact Htext | reflexivity]).
  - unfold bind, logging, ret, os_path_exists, when, shutil_rmtree; simpl.
    finish; reflexivity.
Qed.

Lemma gate_outcome_gated (fs0 : gmap string string) :
  gate_outcome env fastq_gz_file_path temp_output_dir clean_dataset_dir fs0 ≠ FetchFailed.
Proof.
  unfold gate_outcome.
  repeat match goal with
         | |- context [match ?x with _ => _ end] => destruct x
         | |- context [if ?x then _ else _] => destruct x
         end; discriminate.
Qed.

End GateOutcome.

Section ItemOutcome.

Variable env : Env.
Hypothesis Henv : quiet_env env.
Variable sra_id : string.
Hypothesis Hid : accession sra_id = true.

Let gz := blob_path sra_id.

(** What the monitor makes of the record of an outcome *)
Definition kind_of (o : Outcome) : Kind :=
  match o with
  | QualityRejected => Rejected
  | QualityAccepted => Accepted
  | _ => Other
  end.

Lemma outcome_record_sighted (fs0 : gmap string string) (o : Outcome)
    (record : Level * string) :
  outcome_record env gz (os_path_dirname gz) CLEAN_DATASET_FOLDER fs0 o record →
  sighted (kind_of o) record.2.
Proof.
  destruct Henv as (_ & _ & _ & _ & Hread & Hcopy).
  unfold outcome_record. destruct o; simpl.
  - intros [].
  - intros ->. simpl. fold (report_dir sra_id). now apply sighted_no_summary.
  - intros (e & He & ->). simpl. apply sighted_error; [exact Hid |].
    destruct He as [H | [[_ ->] | [H | [[_ ->] | [_ ->]]]]].
    + eapply Hread; exact H.
    + apply quiet_constant. auto.
    + eapply Hcopy; exact H.
    + apply quiet_constant. auto.
    + apply quiet_constant. auto.
  - intros (line & Hline & ->). simpl. now apply sighted_rejected.
  - intros ->. simpl. fold (clean_path sra_id). now apply sighted_accepted.
Qed.

(** One run of the gate on a blob that is there: the answer, and what the
    monitor will count of the records, both by the outcome. *)
Lemma process_by_outcome (w : World) :
  path_exists (fs w) gz = true →
  let o := gate_outcome env gz (os_path_dirname gz) CLEAN_DATASET_FOLDER (fs w) in
  ∃ (w' : World) (kinds : list Kind) (added : list (Level * string)),
    process_downloaded_file env sra_id gz CLEAN_DATASET_FOLDER w
      = (Ok (bool_decide (o = QualityAccepted)), w') ∧
    log w' = log w ++ added ∧
    Forall2 (λ k r, sighted k r.2) kinds added ∧
    rejections kinds = (if decide (o = QualityRejected) then 1 else 0)%nat ∧
    acceptances kinds = (if decide (o = QualityAccepted) then 1 else 0)%nat.
Proof.
  intros Hex o.
  pose proof (gate_by_outcome env gz (os_path_dirname gz) CLEAN_DATASET_FOLDER w) as H.
  cbv zeta in H. fold o in H. destruct H as (record & w1 & Hrun & Hlog & Hrec).
  apply outcome_record_sighted in Hrec.
  destruct Henv as (Hpath & _).
  pose proof (sighted_running sra_id Hid (fastqc_path env) Hpath) as Hrunning.
  fold gz in Hrunning.
  unfold process_downloaded_file, try_finally, try_except, bind, os_path_exists.
  cbv beta. rewrite Hex. cbn [negb]. rewrite Hrun.
  assert (Hkinds : Forall2 (λ k r, sighted k r.2) [Other; kind_of o]
                     [(INFO, "Running FastQC: " +:+ fastqc_path env +:+ " " +:+ gz +:+
                             " -o " +:+ os_path_join (os_path_dirname gz) FASTQ_TEMP_FOLDER
                             +:+ " --extract"); record]).
  { constructor; [exact Hrunning |]. constructor; [exact Hrec | constructor]. }
  destruct (bool_decide (o = QualityAccepted)) eqn:Hacc.
  - apply bool_decide_eq_true in Hacc.
    unfold logging, ret, when, os_remove, set_fs; cbn [fs log requests commands].
    destruct (path_exists (fs w1) gz);
      (eexists; exists [Other; kind_of o; Other]; eexists;
       split; [reflexivity |]; cbn [log];
       split; [rewrite Hlog, <- !app_assoc; reflexivity |];
       split; [repeat (constructor; [eassumption || (inversion Hkinds as [|? ? ? ? ? Hk2]; subst; inversion Hk2; subst; assumption) || now apply sighted_passed |]); constructor |];
       rewrite Hacc; split; reflexivity).
  - apply bool_decide_eq_false in Hacc.
    unfold logging, ret, when, os_remove, set_fs; cbn [fs log requests commands].
    destruct (path_exists (fs w1) gz);
      (eexists; exists [Other; kind_of o]; eexists;
       split; [reflexivity |]; cbn [log];
       split; [rewrite Hlog, <- !app_assoc; reflexivity |];
       split; [exact Hkinds |];
       destruct o; try congruence; split; reflexivity).
Qed.

Let Hslash : has_char slash sra_id = false := accession_no_slash sra_id Hid.

(** The outcome of the gate depends on nothing but what the handling of the
    identifier reads. *)
Lemma gate_outcome_agree (f g : gmap string string) :
  agree sra_id f g →
  gate_outcome env gz (os_path_dirname gz) CLEAN_DATASET_FOLDER f
  = gate_outcome env gz (os_path_dirname gz) CLEAN_DATASET_FOLDER g.
Proof.
  intros Hag.
  assert (Hins : ∀ q, region sra_id q = true →
            inspected env gz (os_path_dirname gz) f !! q
            = inspected env gz (os_path_dirname gz) g !! q).
  { intros q Hq. unfold inspected. apply extract_agree, beside_agree. now apply Hag. }
  unfold gate_outcome. cbv zeta.
  change (results_dir (os_path_join (os_path_dirname gz) FASTQ_TEMP_FOLDER) gz)
    with (report_dir sra_id).
  rewrite (path_exists_frame (inspected env gz (os_path_dirname gz) g)
             (inspected env gz (os_path_dirname gz) f)
             (os_path_join (report_dir sra_id) "summary.txt")).
  - rewrite (Hins (os_path_join (report_dir sra_id) "summary.txt")).
    + rewrite (Hins gz) by apply blob_in_region. reflexivity.
    + apply report_in_region. apply (beneath_summary sra_id Hid). apply under_refl.
  - intros q Hq. apply Hins. apply report_in_region. now apply (beneath_summary sra_id Hid).
Qed.

End ItemOutcome.

Section Counts.

Lemma tally_filter {A} (P : A → Prop) `{∀ x, Decision (P x)} (l : list A) :
  tally (λ i, match l !! i with Some x => bool_decide (P x) | None => false end) (length l)
  = length (filter P l).
Proof.
  induction l as [|x l IH] using rev_ind; [reflexivity |].
  rewrite length_app, filter_app, length_app. simpl length at 2.
  rewrite Nat.add_1_r. cbn [tally].
  rewrite (tally_ext _ (λ i, match l !! i with
                             | Some x0 => bool_decide (P x0) | None => false end)).
  - rewrite IH. f_equal.
    rewrite lookup_app_r by lia. rewrite Nat.sub_diag. simpl.
    rewrite filter_cons, filter_nil. destruct (decide (P x)).
    + now rewrite bool_decide_eq_true_2.
    + now rewrite bool_decide_eq_false_2.
  - intros i Hi. now rewrite lookup_app_l.
Qed.

(** Every item ends in one of the five ways. *)
Lemma outcome_partition {A} (f : A → Outcome) (l : list A) :
  (length (filter (λ x, f x = FetchFailed) l) +
   length (filter (λ x, f x = ReportMissing) l) +
   length (filter (λ x, f x = InspectionFailed) l) +
   length (filter (λ x, f x = QualityRejected) l) +
   length (filter (λ x, f x = QualityAccepted) l))%nat = length l.
Proof.
  induction l as [|x l IH]; [reflexivity |].
  rewrite !filter_cons. simpl length at 6. rewrite <- IH.
  destruct (f x); repeat case_decide; try congruence; simpl; lia.
Qed.

End Counts.

Section PageOutcomes.

Variable env : Env.
Variable rows : list (gmap string string).
Variable ids : list string.
Hypothesis Hrows : Forall2 (λ row id, row !! "run" = Some id) rows ids.
Hypothesis Hnodup : NoDup ids.
Hypothesis Hacc : Forall (λ id, accession id = true) ids.
Hypothesis Henv : quiet_env env.

Let Hvalid : Forall (λ id, has_char slash id = false) ids := accessions_valid ids Hacc.
Let step := page_step env rows GZ_TEMP_FOLDER CLEAN_DATASET_FOLDER.

Variable w0 : World.

(** The items that have been yielded and end in the given way *)
Definition item (o : Outcome) (pg : Page) (i : nat) : bool :=
  bool_decide (i ∈ yielded pg) &&
  match ids !! i with
  | Some id => bool_decide (outcome_alone env w0 id = o)
  | None => false
  end.

(** Every future holds what the download returns when run on its own, and
    the records logged so far are read rightly by the monitor: as many
    rejections and acceptances as items were yielded that end so. *)
Definition count_inv (pg : Page) (w : World) : Prop :=
  (∀ i id r, ids !! i = Some id → futures pg !! i = Some r →
     (download_single_sra_file env {[ "run" := id ]} GZ_TEMP_FOLDER w0).1 = r) ∧
  ∃ added kinds,
    log w = log w0 ++ added ∧
    Forall2 (λ k r, sighted k r.2) kinds added ∧
    rejections kinds = tally (item QualityRejected pg) (length ids) ∧
    acceptances kinds = tally (item QualityAccepted pg) (length ids).

Lemma tally_yield (o : Outcome) (pg : Page) (i : nat) (id : string)
    (r : result (list string)) :
  ids !! i = Some id → i ∉ yielded pg →
  tally (item o (mkPage (futures pg) ({[i]} ∪ yielded pg) r)) (length ids)
  = (tally (item o pg) (length ids) +
     if decide (outcome_alone env w0 id = o) then 1 else 0)%nat.
Proof.
  intros Hid Hnotin.
  assert (Hilt : (i < length ids)%nat) by (eapply lookup_lt_Some; eassumption).
  assert (Hold : item o pg i = false).
  { unfold item. now rewrite (bool_decide_eq_false_2 _ Hnotin). }
  assert (Hsame : ∀ j, j ≠ i →
            item o (mkPage (futures pg) ({[i]} ∪ yielded pg) r) j = item o pg j).
  { intros j Hne. unfold item. simpl. f_equal. apply bool_decide_ext. set_solver. }
  destruct (decide (outcome_alone env w0 id = o)) as [Ho|Ho].
  - rewrite (tally_flip (item o pg) _ (length ids) i Hilt Hold); [lia | | exact Hsame].
    unfold item. simpl. rewrite Hid.
    rewrite bool_decide_eq_true_2 by set_solver. now rewrite bool_decide_eq_true_2.
  - rewrite Nat.add_0_r. apply tally_ext. intros j _.
    destruct (decide (j = i)) as [->|Hne]; [| now apply Hsame].
    rewrite Hold. unfold item. simpl. rewrite Hid.
    rewrite (bool_decide_eq_false_2 _ Ho). apply andb_false_r.
Qed.

Lemma failed_alone (id : string) (w1 : World) :
  download_single_sra_file env {[ "run" := id ]} GZ_TEMP_FOLDER w0 = (Ok (id, false), w1) →
  outcome_alone env w0 id = FetchFailed.
Proof. intros H. unfold outcome_alone. now rewrite H. Qed.

Lemma count_inv_step ev pg w :
  page_inv ids w0 pg w → indep_inv env ids w0 pg w →
  indep_inv env ids w0 (step ev pg w).1 (step ev pg w).2 →
  count_inv pg w → count_inv (step ev pg w).1 (step ev pg w).2.
Proof.
  intros ([pf Hmain] & Hout & Hyield & Hblob & Hgone & Hcmd) (Hnew & Hdone & Hpf).
  intros Hind' (Hfut & added & kinds & Hadded & Hkinds & Hrej & Hac).
  revert Hind'. unfold step, page_step. destruct ev as [i|i].
  - (* a worker runs task i *)
    destruct (rows !! i) as [row|] eqn:Hrow;
      [| intros _; split; [exact Hfut | eauto 10]].
    destruct (futures pg !! i) as [r0|] eqn:Hfi;
      [intros _; split; [exact Hfut | eauto 10] |].
    destruct (row_id rows ids Hrows i row Hrow) as (id & Hid & Hrun).
    destruct (download_effect env row GZ_TEMP_FOLDER id Hrun w)
      as (b & record & w' & Hdl & _ & Hl & Hrec & _).
    rewrite Hdl. simpl. intros (_ & Hdone' & _).
    assert (Hnotin : i ∉ yielded pg).
    { intros Hin. apply Hyield in Hin. rewrite Hfi in Hin. destruct Hin; discriminate. }
    split.
    + intros j idj r Hj Hfj. simpl in Hfj. destruct (decide (i = j)) as [<-|Hne].
      * destruct (Hdone' i idj r Hj Hnotin Hfj) as (w1 & -> & _). reflexivity.
      * rewrite lookup_insert_ne in Hfj by exact Hne. now apply (Hfut j idj r).
    + exists (added ++ [record]), (kinds ++ [Other]).
      split; [rewrite Hl, Hadded, app_assoc; reflexivity |].
      split; [| split].
      * apply Forall2_app; [exact Hkinds |]. constructor; [| constructor].
        eapply fetch_record_sighted; [exact Henv | | exact Hrec].
        eapply ids_accession; [exact Hacc | exact Hid].
      * rewrite rejections_app, Hrej. apply Nat.add_0_r.
      * rewrite acceptances_app, Hac. apply Nat.add_0_r.
  - (* the main thread takes future i *)
    destruct (futures pg !! i) as [outcome|] eqn:Hfi;
      [| intros _; split; [exact Hfut | eauto 10]].
    rewrite Hmain.
    destruct (decide (i ∈ yielded pg)) as [Hin|Hnotin];
      [intros _; split; [exact Hfut | eauto 10] |].
    destruct (Hout i outcome Hfi) as (id & b & Hid & ->).
    assert (Hia := ids_accession ids Hacc i id Hid).
    unfold completion. destruct b.
    + (* the download succeeded: the gate runs *)
      assert (Hex : path_exists (fs w) (blob_path id) = true) by (eapply Hblob; eauto).
      destruct (Hdone i id _ Hid Hnotin Hfi) as (w1 & Hdl0 & Hag).
      assert (Halone : outcome_alone env w0 id
                       = gate_outcome env (blob_path id) (os_path_dirname (blob_path id))
                           CLEAN_DATASET_FOLDER (fs w)).
      { unfold outcome_alone. rewrite Hdl0. symmetry.
        now apply gate_outcome_agree. }
      destruct (process_by_outcome env Henv id Hia w Hex)
        as (w' & kinds1 & added1 & Hp & Hl & Hk1 & Hrej1 & Hac1).
      rewrite <- Halone in Hp, Hrej1, Hac1.
      unfold bind. fold (blob_path id). rewrite Hp. intros _.
      assert (Hgoal : ∀ r, count_inv (mkPage (futures pg) ({[i]} ∪ yielded pg) r) w').
      { intros r. split; [exact Hfut |].
        exists (added ++ added1), (kinds ++ kinds1).
        split; [rewrite Hl, Hadded, app_assoc; reflexivity |].
        split; [now apply Forall2_app |]. split.
        - rewrite rejections_app, Hrej, Hrej1. symmetry. now apply tally_yield.
        - rewrite acceptances_app, Hac, Hac1. symmetry. now apply tally_yield. }
      destruct (bool_decide (outcome_alone env w0 id = QualityAccepted)); apply Hgoal.
    + (* the download failed: nothing happens *)
      unfold ret. simpl. intros _.
      assert (Halone : outcome_alone env w0 id = FetchFailed).
      { pose proof (Hfut i id _ Hid Hfi) as H.
        destruct (download_single_sra_file env {[ "run" := id ]} GZ_TEMP_FOLDER w0)
          as [r w1] eqn:Hdl0. simpl in H. subst r. now apply (failed_alone id w1). }
      split; [exact Hfut |]. exists added, kinds.
      split; [exact Hadded |]. split; [exact Hkinds |]. split.
      * rewrite (tally_yield QualityRejected pg i id (Ok pf) Hid Hnotin), Halone, Hrej.
        simpl. lia.
      * rewrite (tally_yield QualityAccepted pg i id (Ok pf) Hid Hnotin), Halone, Hac.
        simpl. lia.
Qed.

Lemma count_inv_start : count_inv start w0.
Proof.
  split.
  - intros i id r _ H. simpl in H. rewrite lookup_empty in H. discriminate.
  - exists [], []. split; [now rewrite app_nil_r |]. split; [constructor |].
    assert (Hnone : ∀ o, tally (item o start) (length ids) = 0%nat).
    { intros o. rewrite (tally_ext _ (λ _, false)).
      - clear. induction (length ids) as [|k IH]; simpl; lia.
      - intros i _. unfold item. simpl. rewrite bool_decide_eq_false_2 by set_solver.
        reflexivity. }
    rewrite !Hnone. split; reflexivity.
Qed.

(** Accepted on its own: the gate's answer and the outcome say the same. *)
Lemma accepted_alone_outcome (id : string) :
  accession id = true →
  accepted_alone env w0 id = true ↔ outcome_alone env w0 id = QualityAccepted.
Proof.
  intros Hia. unfold accepted_alone, outcome_alone.
  assert (Hsingle : ({[ "run" := id ]} : gmap string string) !! "run" = Some id)
    by apply lookup_singleton_eq.
  destruct (download_effect env _ GZ_TEMP_FOLDER id Hsingle w0)
    as (b & record & w1 & -> & _ & _ & _ & _ & Hres).
  destruct b; [| split; discriminate].
  fold (blob_name id) (blob_path id) in *.
  destruct (process_by_outcome env Henv id Hia w1 Hres) as (w' & _ & _ & -> & _).
  split.
  - intros H. now apply bool_decide_eq_true in H.
  - intros H. now apply bool_decide_eq_true.
Qed.

End PageOutcomes.

Section CheckedClaims.



(** The five items of that page end in the five ways, one each. *)
Lemma mixed_page_outcomes :
  map (outcome_alone Scenario.mixed_env Scenario.empty_world) Scenario.mixed_ids
  = [QualityAccepted; FetchFailed; QualityRejected; ReportMissing; InspectionFailed].
Proof. vm_compute. reflexivity. Qed.


End CheckedClaims.


(** * More of the monitor ([app.py]) *)

(** The regular expressions of [app.py] are modelled on ASCII text, where
    [\d] is a decimal digit, [\w] a letter, a digit or the underscore, and
    [.] any character but the newline. *)

Definition is_digit (c : ascii) : bool := has_char c "0123456789".

Definition is_word (c : ascii) : bool :=
  has_char c "0123456789ABCDEFGHIJKLMNOPQRSTUVWXYZ_abcdefghijklmnopqrstuvwxyz".

Definition not_newline (c : ascii) : bool := negb (Ascii.eqb c newline).

(** A literal at the start of [s]: what follows it *)
Fixpoint strip_prefix (pre s : string) : option string :=
  match pre with
  | EmptyString => Some s
  | String c pre' =>
      match s with
      | EmptyString => None
      | String d s' => if Ascii.eqb c d then strip_prefix pre' s' else None
      end
  end.

(** [X+] or [X*] at the start of [s]: the longest run of the class, and the
    rest.  In the patterns below the character after such a run must lie
    outside the class, so no shorter run can match. *)
Fixpoint span (p : ascii → bool) (s : string) : string * string :=
  match s with
  | EmptyString => ("", "")
  | String c r =>
      if p c then let '(run, rest) := span p r in (String c run, rest)
      else ("", s)
  end.

(** [X{n}] at the start of [s]: what follows it *)
Fixpoint exactly (p : ascii → bool) (n : nat) (s : string) : option string :=
  match n with
  | O => Some s
  | S k =>
      match s with
      | EmptyString => None
      | String c r => if p c then exactly p k r else None
      end
  end.

(** [int(digits)] for a string of decimal digits *)
Fixpoint int_from (acc : Z) (digits : string) : Z :=
  match digits with
  | EmptyString => acc
  | String c r => int_from (acc * 10 + (Z.of_nat (nat_of_ascii c) - 48)) r
  end.

Definition int (digits : string) : Z := int_from 0 digits.

(** [Clean datasets collected: (\d+)/(\d+)] at the start of [s]: the two groups *)
Definition progress_here (s : string) : option (string * string) :=
  match strip_prefix "Clean datasets collected: " s with
  | None => None
  | Some r =>
      let '(current, r1) := span is_digit r in
      if String.eqb current "" then None
      else match strip_prefix "/" r1 with
           | None => None
           | Some r2 =>
               let '(target, _) := span is_digit r2 in
               if String.eqb target "" then None else Some (current, target)
           end
  end.

(** [re.search] with that pattern: the leftmost match *)
Fixpoint search_progress (s : string) : option (string * string) :=
  match progress_here s with
  | Some groups => Some groups
  | None =>
      match s with
      | EmptyString => None
      | String _ r => search_progress r
      end
  end.

Definition parse_log_line (line : string) : option (Z * Z) :=
  if str_in "Clean datasets collected:" line then
    match search_progress line with
    | Some (current, target) => Some (int current, int target)
    | None => None
    end
  else None.

(** A pattern without choice: literals and digits in given numbers *)
Inductive Piece :=
| Lit (text : string)
| Digits (n : nat).

Fixpoint match_pieces (pieces : list Piece) (s : string) : option string :=
  match pieces with
  | [] => Some s
  | Lit text :: rest =>
      match strip_prefix text s with
      | Some r => match_pieces rest r
      | None => None
      end
  | Digits n :: rest =>
      match exactly is_digit n s with
      | Some r => match_pieces rest r
      | None => None
      end
  end.

(** [(\d{4}-\d{2}-\d{2} \d{2}:\d{2}:\d{2},\d{3})] at the start of the line *)
Definition asctime_pieces : list Piece :=
  [Digits 4; Lit "-"; Digits 2; Lit "-"; Digits 2; Lit " ";
   Digits 2; Lit ":"; Digits 2; Lit ":"; Digits 2; Lit ","; Digits 3].

Definition after_timestamp (line : string) : option string :=
  match_pieces asctime_pieces line.

(** [ - (\w+) - ] after the time stamp *)
Definition after_level (s : string) : option string :=
  match strip_prefix " - " s with
  | None => None
  | Some r =>
      let '(level, r1) := span is_word r in
      if String.eqb level "" then None else strip_prefix " - " r1
  end.

(** Group 3 of the pattern when [re.match] succeeds: [(.+)] wants at least
    one character and stops at a newline. *)
Definition message_group (line : string) : option string :=
  match after_timestamp line with
  | None => None
  | Some r =>
      match after_level r with
      | None => None
      | Some rest =>
          let message := (span not_newline rest).1 in
          if String.eqb message "" then None else Some message
      end
  end.

(** The message of a log line: group 3 when the pattern matches, the whole
    line otherwise. *)
Definition log_message (line : string) : string :=
  default line (message_group line).

(** [.+\.fastq\.gz] at the start of [s]: the longest match *)
Fixpoint blob_match (s : string) : option string :=
  match s with
  | EmptyString => None
  | String c r =>
      if not_newline c then
        match blob_match r with
        | Some m => Some (String c m)
        | None => if startswith r ".fastq.gz" then Some (String c ".fastq.gz") else None
        end
      else None
  end.

(** [re.search(r'Downloading (.+\.fastq\.gz)', message)]: group 1 of the
    leftmost match *)
Fixpoint search_download (s : string) : option string :=
  match
    match strip_prefix "Downloading " s with
    | Some r => blob_match r
    | None => None
    end
  with
  | Some filename => Some filename
  | None =>
      match s with
      | EmptyString => None
      | String _ r => search_download r
      end
  end.

(** The status message and the status type of a log line; [None] stands
    for the pair [(None, None)]. *)
Definition parse_status_from_log (line : string) : option (string * string) :=
  let message := log_message line in
  if str_in "Starting download process for term:" message then
    Some ("🚀 Starting download process..." +:+ String newline (" " +:+ message), "start")
  else if str_in "Searching SRA database" message then
    Some ("🔍 Searching SRA database..." +:+ String newline (" " +:+ message), "search")
  else if str_in "Run info list:" message then
    Some ("📋 Retrieved dataset information", "info")
  else if str_in "Downloading" message && str_in ".fastq.gz" message then
    let filename := default "dataset" (search_download message) in
    Some ("⬇️ Downloading " +:+ filename, "download")
  else if str_in "Running FastQC:" message then
    Some ("🔬 Running quality check...", "analysis")
  else if str_in "FastQC found quality issues" message then
    Some ("❌ Dataset failed quality check", "fail")
  else if str_in "File passed quality check" message then
    Some ("✅ Dataset passed quality check", "pass")
  else if str_in "Clean datasets collected:" message then
    match search_progress message with
    | Some (current, target) =>
        Some ("📊 Progress: " +:+ current +:+ "/" +:+ target +:+ " clean datasets",
              "progress")
    | None => None
    end
  else if str_in "Process completed" message then
    Some ("✨ Process completed", "complete")
  else None.

(** *** The display of the polling loop *)

Record Display := mkDisplay {
  current_status : string;
  recent_events : list string     (* newest first *)
}.

Definition max_events : nat := 5.

(** The display before the first poll *)
Definition initial_display : Display := mkDisplay "🚀 Starting process..." [].

(** What the loop over the lines does with one line, apart from counting;
    [timestamp] is what [time.strftime("%H:%M:%S")] returns at that line. *)
Definition show_line (timestamp : string) (d : Display) (line : string) : Display :=
  match parse_status_from_log line with
  | Some (status_msg, _) =>
      if String.eqb status_msg "" then d
      else
        let event := timestamp +:+ " - " +:+ status_msg in
        mkDisplay status_msg
          (if bool_decide (event ∈ recent_events d) then recent_events d
           else take max_events (event :: recent_events d))
  | None => d
  end.

(** The style class an event is drawn with *)
Definition event_class (event : string) : string :=
  match parse_status_from_log event with
  | Some (_, status_type) =>
      if String.eqb status_type "" then "event-box" else "event-box " +:+ status_type
  | None => "event-box"
  end.

(** *** Finding the log file *)

(** The name of the log file the pipeline opens; [stamp] is the time of its
    start as ['%Y%m%d_%H%M%S'] formats it. *)
Definition log_filename (stamp : string) : string :=
  "sra_downloader_" +:+ stamp +:+ ".log".

(** [name.endswith(suffix)] *)
Fixpoint endswith (name suffix : string) : bool :=
  String.eqb name suffix ||
  match name with
  | EmptyString => false
  | String _ r => endswith r suffix
  end.

(** The pattern ['sra_downloader_*.log'] *)
Definition glob_match (name : string) : bool :=
  match strip_prefix "sra_downloader_" name with
  | Some rest => endswith rest ".log"
  | None => false
  end.

(** [max(log_files, key=mtime)]: the first of the entries with the greatest
    modification time *)
Fixpoint newest (best : string * Z) (entries : list (string * Z)) : string * Z :=
  match entries with
  | [] => best
  | entry :: rest => newest (if best.2 <? entry.2 then entry else best) rest
  end.

(** [entries] is the current directory as listed, each name with its
    modification time. *)
Definition get_current_log_file (entries : list (string * Z)) : option string :=
  match List.filter (λ entry, glob_match entry.1) entries with
  | [] => None
  | first :: rest => Some (newest first rest).1
  end.

(** ** Finding the log file *)

Section LogFile.

Lemma strip_prefix_append (pre X : string) : strip_prefix pre (pre +:+ X) = Some X.
Proof.
  induction pre as [|c pre IH]; [reflexivity |].
  rewrite append_cons. simpl. now rewrite Ascii.eqb_refl.
Qed.

Lemma endswith_append (a suffix : string) : endswith (a +:+ suffix) suffix = true.
Proof.
  induction a as [|c a IH].
  - rewrite append_nil. destruct suffix; cbn [endswith]; now rewrite String.eqb_refl.
  - rewrite append_cons. cbn [endswith]. rewrite IH. apply orb_true_r.
Qed.

Lemma newest_spec (entries : list (string * Z)) :
  ∀ best,
    (newest best entries = best ∨ In (newest best entries) entries) ∧
    best.2 ≤ (newest best entries).2 ∧
    ∀ e, In e entries → e.2 ≤ (newest best entries).2.
Proof.
  induction entries as [|entry rest IH]; intros best; simpl.
  - split; [now left |]. split; [lia | tauto].
  - destruct (IH (if best.2 <? entry.2 then entry else best)) as (Hin & Hle & Hall).
    destruct (Z.ltb_spec best.2 entry.2) as [Hlt|Hge].
    + split; [destruct Hin as [-> | Hin]; right; [now left | now right] |].
      split; [lia |]. intros e [<- | He]; [exact Hle | now apply Hall].
    + split; [destruct Hin as [-> | Hin]; [now left | right; now right] |].
      split; [exact Hle |]. intros e [<- | He]; [lia | now apply Hall].
Qed.

(** X13. The monitor finds the pipeline's log: every name the pipeline gives
    its log file matches the monitor's pattern; and of a directory listing
    the monitor takes a file whose name matches the pattern and than which
    no matching file is newer, or nothing when no name matches. *)
Theorem newest_log_is_taken (entries : list (string * Z)) :
  (∀ stamp, glob_match (log_filename stamp) = true) ∧
  match get_current_log_file entries with
  | None => ∀ e, In e entries → glob_match e.1 = false
  | Some file =>
      ∃ mtime, In (file, mtime) entries ∧ glob_match file = true ∧
               ∀ e, In e entries → glob_match e.1 = true → e.2 ≤ mtime
  end.
Proof.
  split.
  - intros stamp. unfold glob_match, log_filename.
    rewrite strip_prefix_append. apply endswith_append.
  - unfold get_current_log_file.
    destruct (List.filter (λ entry, glob_match entry.1) entries) as [|first rest] eqn:Hf.
    + intros e He. destruct (glob_match e.1) eqn:E; [| reflexivity].
      assert (Hin : In e (List.filter (λ entry, glob_match entry.1) entries))
        by (apply filter_In; split; assumption).
      rewrite Hf in Hin. destruct Hin.
    + destruct (newest_spec rest first) as (Hin & Hle & Hall).
      assert (Hmem : In (newest first rest) (first :: rest))
        by (destruct Hin as [-> | Hin]; [now left | now right]).
      rewrite <- Hf in Hmem. apply filter_In in Hmem as [Hmem Hmatch].
      exists (newest first rest).2. split; [| split].
      * destruct (newest first rest) as [f t]. exact Hmem.
      * exact Hmatch.
      * intros e He Hm.
        assert (Hin' : In e (first :: rest))
          by (rewrite <- Hf; apply filter_In; split; assumption).
        destruct Hin' as [<- | Hin']; [exact Hle | now apply Hall].
Qed.

End LogFile.

(** ** Polling again and again *)

Section Polling.

Definition add_counters (a b : Counters) : Counters :=
  mkCounters (total_checked a + total_checked b) (current_clean a + current_clean b).

Definition zero : Counters := mkCounters 0 0.

Lemma add_counters_zero (cs : Counters) : add_counters cs zero = cs.
Proof. destruct cs as [t c]. unfold add_counters. simpl. f_equal; lia. Qed.

Lemma count_line_shift (cs : Counters) (line : string) :
  count_line cs line = add_counters cs (count_line zero line).
Proof.
  unfold count_line, add_counters. destruct cs as [t c].
  destruct (str_in "FastQC found quality issues" line); simpl; [f_equal; lia |].
  destruct (str_in "File passed quality check" line); simpl; f_equal; lia.
Qed.

Lemma add_counters_assoc (a b c : Counters) :
  add_counters (add_counters a b) c = add_counters a (add_counters b c).
Proof. unfold add_counters. simpl. f_equal; lia. Qed.

Lemma scan_lines_shift (lines : list string) :
  ∀ cs, fold_left count_line lines cs = add_counters cs (fold_left count_line lines zero).
Proof.
  induction lines as [|line lines IH]; intros cs; simpl.
  - now rewrite add_counters_zero.
  - rewrite (IH (count_line cs line)), (IH (count_line zero line)).
    rewrite (count_line_shift cs line). apply add_counters_assoc.
Qed.

Lemma scan_log_shift (log_content : string) (cs : Counters) :
  scan_log log_content cs = add_counters cs (scan_log log_content zero).
Proof. apply scan_lines_shift. Qed.

Lemma polls_shift (snapshots : list string) :
  ∀ cs, fold_left (λ cs0 log_content, scan_log log_content cs0) snapshots cs
        = add_counters cs (monitor snapshots).
Proof.
  unfold monitor. fold zero.
  induction snapshots as [|s snapshots IH]; intros cs; simpl.
  - now rewrite add_counters_zero.
  - rewrite (IH (scan_log s cs)), (IH (scan_log s zero)).
    rewrite (scan_log_shift s cs). apply add_counters_assoc.
Qed.

(** X14. The counters are never reset between polls, and every poll reads the
    whole log again: what the monitor shows after a series of polls is the
    sum of what each poll reads on its own.  A log that stays as it is
    while it is polled [n] times is counted [n] times over. *)
Theorem polls_add_up (before after : list string) (log_content : string) (n : nat) :
  monitor (before ++ after) = add_counters (monitor before) (monitor after) ∧
  total_checked (monitor (replicate n log_content))
    = Z.of_nat n * total_checked (scan_log log_content (mkCounters 0 0)) ∧
  current_clean (monitor (replicate n log_content))
    = Z.of_nat n * current_clean (scan_log log_content (mkCounters 0 0)).
Proof.
  split.
  - unfold monitor at 1. rewrite fold_left_app. fold (monitor before). apply polls_shift.
  - fold zero. induction n as [|k [IHt IHc]]; [split; reflexivity |].
    assert (Hcons : monitor (replicate (S k) log_content)
                    = add_counters (scan_log log_content zero)
                                   (monitor (replicate k log_content))).
    { unfold monitor at 1. simpl. fold zero. apply polls_shift. }
    rewrite Hcons. unfold add_counters. simpl. rewrite IHt, IHc. split; lia.
Qed.

End Polling.

(** ** Recent events *)

Section Events.

Definition event_list_ok (events : list string) : Prop :=
  (length events ≤ max_events)%nat ∧ NoDup events.

Lemma show_line_events (timestamp : string) (d : Display) (line : string) :
  event_list_ok (recent_events d) →
  event_list_ok (recent_events (show_line timestamp d line)).
Proof.
  intros [Hlen Hnd]. unfold show_line.
  destruct (parse_status_from_log line) as [[status_msg status_type]|]; [| now split].
  destruct (String.eqb status_msg ""); [now split |].
  cbn [recent_events]. case_bool_decide as Hin; [now split |].
  split.
  - rewrite length_take. lia.
  - eapply sublist_NoDup; [| apply sublist_take].
    apply NoDup_cons. split; assumption.
Qed.

(** X15. However many lines are shown and whenever, the list of recent events
    never holds more than five entries and never holds an entry twice; a
    line without a status leaves the display as it is, and the status of a
    line that has one becomes the current status. *)
Theorem recent_events_stay_five (shown : list (string * string)) (timestamp line : string)
    (d : Display) :
  let after := fold_left (λ d0 x, show_line x.1 d0 x.2) shown initial_display in
  (length (recent_events after) ≤ 5)%nat ∧ NoDup (recent_events after) ∧
  (parse_status_from_log line = None → show_line timestamp d line = d) ∧
  (∀ status_msg status_type,
     parse_status_from_log line = Some (status_msg, status_type) →
     current_status (show_line timestamp d line) = status_msg).
Proof.
  cbv zeta.
  assert (Hok : ∀ d0, event_list_ok (recent_events d0) →
            event_list_ok
              (recent_events (fold_left (λ d1 x, show_line x.1 d1 x.2) shown d0))).
  { induction shown as [|[ts l] rest IH]; intros d0 Hd0; [exact Hd0 |].
    simpl. apply IH. now apply show_line_events. }
  destruct (Hok initial_display) as [Hlen Hnd].
  { split; [simpl; unfold max_events; lia | apply NoDup_nil_2]. }
  split; [exact Hlen |]. split; [exact Hnd |]. split.
  - intros Hnone. unfold show_line. now rewrite Hnone.
  - intros status_msg status_type Hsome. unfold show_line. rewrite Hsome.
    destruct (String.eqb_spec status_msg "") as [-> | Hne]; [| reflexivity].
    exfalso. revert Hsome. unfold parse_status_from_log. cbv zeta.
    repeat match goal with
           | |- context [if ?b then _ else _] => destruct b
           end;
      try discriminate.
    destruct (search_progress (log_message line)) as [[current target]|]; discriminate.
Qed.

End Events.

(** ** Reading what the logger wrote *)

Section Patterns.

Fixpoint every (p : ascii → bool) (s : string) : bool :=
  match s with
  | EmptyString => true
  | String c r => p c && every p r
  end.

(** The text [X] does not go on with a character of the class. *)
Definition stops (p : ascii → bool) (X : string) : bool :=
  match X with
  | EmptyString => true
  | String c _ => negb (p c)
  end.

Lemma span_every (p : ascii → bool) (a X : string) :
  every p a = true → stops p X = true → span p (a +:+ X) = (a, X).
Proof.
  intros Ha HX. induction a as [|c a IH].
  - rewrite append_nil. destruct X as [|x X]; [reflexivity |].
    simpl in *. apply negb_true_iff in HX. now rewrite HX.
  - simpl in Ha. apply andb_true_iff in Ha as [Hc Ha].
    rewrite append_cons. simpl. rewrite Hc, (IH Ha). reflexivity.
Qed.

Lemma strip_prefix_app (pre a r X : string) :
  strip_prefix pre a = Some r → strip_prefix pre (a +:+ X) = Some (r +:+ X).
Proof.
  revert a. induction pre as [|c pre IH]; intros a; simpl.
  - intros [= ->]. reflexivity.
  - destruct a as [|d a]; [discriminate |]. rewrite append_cons.
    destruct (Ascii.eqb c d); [apply IH | discriminate].
Qed.

Lemma exactly_app (p : ascii → bool) (n : nat) (a r X : string) :
  exactly p n a = Some r → exactly p n (a +:+ X) = Some (r +:+ X).
Proof.
  revert a. induction n as [|k IH]; intros a; simpl.
  - intros [= ->]. reflexivity.
  - destruct a as [|d a]; [discriminate |]. rewrite append_cons.
    destruct (p d); [apply IH | discriminate].
Qed.

Lemma match_pieces_app (pieces : list Piece) (a r X : string) :
  match_pieces pieces a = Some r → match_pieces pieces (a +:+ X) = Some (r +:+ X).
Proof.
  revert a. induction pieces as [|[text|n] rest IH]; intros a; simpl.
  - intros [= ->]. reflexivity.
  - destruct (strip_prefix text a) as [r1|] eqn:H1; [| discriminate].
    rewrite (strip_prefix_app _ _ _ X H1). apply IH.
  - destruct (exactly is_digit n a) as [r1|] eqn:H1; [| discriminate].
    rewrite (exactly_app _ _ _ _ X H1). apply IH.
Qed.

(** The literal text of a pattern *)
Fixpoint literals (pieces : list Piece) : string :=
  match pieces with
  | [] => ""
  | Lit text :: rest => text +:+ literals rest
  | Digits _ :: rest => literals rest
  end.

Lemma strip_prefix_chars (c : ascii) (pre a r : string) :
  has_char c pre = false → strip_prefix pre a = Some r → has_char c a = has_char c r.
Proof.
  revert a. induction pre as [|y pre IH]; intros a Hpre; simpl.
  - intros [= ->]. reflexivity.
  - simpl in Hpre. apply orb_false_iff in Hpre as [Hy Hpre].
    destruct a as [|d a]; [discriminate |].
    destruct (Ascii.eqb_spec y d) as [<-|]; [| discriminate].
    intros H. simpl. rewrite Hy. simpl. now apply IH.
Qed.

Lemma exactly_chars (c : ascii) (p : ascii → bool) (n : nat) (a r : string) :
  p c = false → exactly p n a = Some r → has_char c a = has_char c r.
Proof.
  intros Hc. revert a. induction n as [|k IH]; intros a; simpl.
  - intros [= ->]. reflexivity.
  - destruct a as [|d a]; [discriminate |].
    destruct (p d) eqn:Hd; [| discriminate].
    intros H. simpl. destruct (Ascii.eqb_spec c d) as [->|]; [congruence |].
    simpl. now apply IH.
Qed.

(** A text matched by a pattern holds only digits and characters of the
    pattern's literals. *)
Lemma match_pieces_chars (c : ascii) (pieces : list Piece) (a r : string) :
  is_digit c = false → has_char c (literals pieces) = false →
  match_pieces pieces a = Some r → has_char c a = has_char c r.
Proof.
  intros Hd. revert a. induction pieces as [|[text|n] rest IH]; intros a Hl; simpl.
  - intros [= ->]. reflexivity.
  - simpl in Hl. rewrite has_char_append in Hl. apply orb_false_iff in Hl as [Ht Hl].
    destruct (strip_prefix text a) as [r1|] eqn:H1; [| discriminate].
    intros H. rewrite (strip_prefix_chars c text a r1 Ht H1). now apply IH.
  - destruct (exactly is_digit n a) as [r1|] eqn:H1; [| discriminate].
    intros H. rewrite (exactly_chars c is_digit n a r1 Hd H1). now apply IH.
Qed.

(** *** Decimal numerals *)

Lemma pretty_N_go_app (x : N) :
  ∀ s, pretty_N_go x s = pretty_N_go x "" +:+ s.
Proof.
  induction (N.lt_wf_0 x) as [x _ IH]; intros s.
  destruct (decide (x = 0)%N) as [->|Hx].
  - now rewrite !pretty_N_go_0.
  - rewrite !(pretty_N_go_step x) by lia.
    assert (Hlt : (x `div` 10 < x)%N) by (apply N.div_lt; lia).
    rewrite (IH (x `div` 10)%N Hlt (String (pretty_N_char (x `mod` 10)) s)).
    rewrite (IH (x `div` 10)%N Hlt (String (pretty_N_char (x `mod` 10)) "")).
    rewrite append_assoc. reflexivity.
Qed.

Lemma every_append (p : ascii → bool) (a b : string) :
  every p (a +:+ b) = every p a && every p b.
Proof.
  induction a as [|c a IH]; [reflexivity |].
  rewrite append_cons. simpl. rewrite IH. now rewrite andb_assoc.
Qed.

Lemma every_pretty_N_go (x : N) : every is_digit (pretty_N_go x "") = true.
Proof.
  induction (N.lt_wf_0 x) as [x _ IH].
  destruct (decide (x = 0)%N) as [->|Hx]; [reflexivity |].
  rewrite pretty_N_go_step by lia. rewrite pretty_N_go_app, every_append.
  rewrite IH by (apply N.div_lt; lia). simpl.
  unfold is_digit. now rewrite pretty_N_char_digit.
Qed.

Lemma pretty_N_go_nonempty (x : N) : (0 < x)%N → pretty_N_go x "" ≠ "".
Proof.
  intros Hx. rewrite pretty_N_go_step by exact Hx. rewrite pretty_N_go_app.
  destruct (pretty_N_go (x `div` 10) ""); discriminate.
Qed.

Lemma int_from_app (a b : string) : ∀ acc, int_from acc (a +:+ b) = int_from (int_from acc a) b.
Proof.
  induction a as [|c a IH]; intros acc; [reflexivity |].
  rewrite append_cons. simpl. apply IH.
Qed.

Lemma digit_value (k : N) :
  (k < 10)%N → Z.of_nat (nat_of_ascii (pretty_N_char k)) - 48 = Z.of_N k.
Proof.
  intros Hk.
  assert (H : (k = 0 ∨ k = 1 ∨ k = 2 ∨ k = 3 ∨ k = 4 ∨ k = 5 ∨ k = 6 ∨ k = 7 ∨ k = 8 ∨ k = 9)%N)
    by lia.
  destruct H as [->|[->|[->|[->|[->|[->|[->|[->|[->| ->]]]]]]]]]; reflexivity.
Qed.

Lemma int_pretty_N_go (x : N) : int_from 0 (pretty_N_go x "") = Z.of_N x.
Proof.
  induction (N.lt_wf_0 x) as [x _ IH].
  destruct (decide (x = 0)%N) as [->|Hx]; [reflexivity |].
  rewrite pretty_N_go_step by lia. rewrite pretty_N_go_app, int_from_app.
  rewrite IH by (apply N.div_lt; lia). simpl.
  rewrite digit_value by (apply N.mod_lt; lia).
  pose proof (N.div_mod x 10). lia.
Qed.

(** A numeral of a number that is not negative: digits only, at least one,
    and [int] reads the number back. *)
Lemma numeral (z : Z) :
  0 ≤ z → every is_digit (pretty z) = true ∧ pretty z ≠ "" ∧ int (pretty z) = z.
Proof.
  intros Hz. destruct z as [|p|p]; [repeat split; discriminate | | lia].
  unfold pretty, pretty_Z, pretty, pretty_positive, pretty, pretty_N.
  destruct (decide (N.pos p = 0)%N) as [H|_]; [discriminate H |].
  split; [apply every_pretty_N_go |]. split; [apply pretty_N_go_nonempty; lia |].
  unfold int. rewrite int_pretty_N_go. reflexivity.
Qed.

(** *** The logger's line *)

(** A time stamp as [asctime] makes it *)
Definition is_asctime (stamp : string) : Prop := after_timestamp stamp = Some "".

Lemma asctime_chars (c : ascii) (stamp : string) :
  is_asctime stamp → has_char c "0123456789-: ," = false → has_char c stamp = false.
Proof.
  intros Hs Hc. unfold is_asctime, after_timestamp in Hs.
  assert (Hd : is_digit c = false).
  { unfold is_digit. change "0123456789-: ," with ("0123456789" +:+ "-: ,") in Hc.
    rewrite has_char_append in Hc. now apply orb_false_iff in Hc as [? _]. }
  assert (Hl : has_char c (literals asctime_pieces) = false).
  { change "0123456789-: ," with ("0123456789" +:+ "-: ,") in Hc.
    rewrite has_char_append in Hc. apply orb_false_iff in Hc as [_ Hc].
    simpl in Hc. simpl.
    repeat match type of Hc with
           | (_ || _) = false => apply orb_false_iff in Hc as [? Hc]
           end.
    repeat match goal with H : Ascii.eqb c _ = false |- _ => rewrite H; clear H end.
    reflexivity. }
  rewrite (match_pieces_chars c asctime_pieces stamp "" Hd Hl Hs). reflexivity.
Qed.

Lemma asctime_stamp_ok (stamp : string) : is_asctime stamp → stamp_ok stamp.
Proof. intros Hs. split; apply (asctime_chars _ stamp Hs); reflexivity. Qed.

Lemma span_line (msg : string) :
  has_char newline msg = false → span not_newline msg = (msg, "").
Proof.
  induction msg as [|c msg IH]; [reflexivity |].
  simpl. intros H. apply orb_false_iff in H as [Hc Hm].
  unfold not_newline at 1. rewrite Ascii.eqb_sym, Hc. simpl. now rewrite IH.
Qed.

(** The monitor's pattern takes a line of the logger apart as the logger
    put it together: the message comes back. *)
Lemma log_message_record (stamp : string) (lvl : Level) (msg : string) :
  is_asctime stamp → msg ≠ "" → has_char newline msg = false →
  log_message (format_record stamp (lvl, msg)) = msg.
Proof.
  intros Hs Hne Hnl. unfold log_message, message_group, format_record. simpl fst. simpl snd.
  rewrite (match_pieces_app _ stamp "" _ Hs). rewrite append_nil.
  unfold after_level. rewrite strip_prefix_append.
  assert (Hspan : span is_word (levelname lvl +:+ " - " +:+ msg)
                  = (levelname lvl, " - " +:+ msg)) by (destruct lvl; reflexivity).
  rewrite Hspan.
  assert (Hlvl : String.eqb (levelname lvl) "" = false) by (destruct lvl; reflexivity).
  rewrite Hlvl, strip_prefix_append, (span_line msg Hnl). simpl.
  destruct (String.eqb_spec msg "") as [->|_]; [congruence | reflexivity].
Qed.

End Patterns.

Section ShownAndCounted.

Lemma record_marker (c : ascii) (m0 stamp : string) (r : Level * string) :
  is_asctime stamp → has_char c "0123456789-: ," = false →
  suffix_residuals " - INFO - " (String c m0) = [] →
  suffix_residuals " - WARNING - " (String c m0) = [] →
  suffix_residuals " - ERROR - " (String c m0) = [] →
  str_in (String c m0) (format_record stamp r) = str_in (String c m0) r.2.
Proof.
  intros Hs Hc. apply line_marker. now apply (asctime_chars c stamp Hs).
Qed.

Ltac cascade :=
  repeat match goal with
         | |- context [if ?b then _ else _] =>
             let H := fresh "Hcase" in destruct b eqn:H
         end.

(** X16. A line the logger wrote, with the time stamp [asctime] makes and a
    message of one non-empty line: the monitor's pattern gives the message
    back; when the monitor shows the line as a failed (resp. passed)
    quality check, its counters take it as one more checked (resp. checked
    and clean) dataset; and every line that moves the counters shows a
    status. *)
Theorem shown_verdicts_are_counted (stamp : string) (lvl : Level) (msg : string)
    (cs : Counters) :
  is_asctime stamp → msg ≠ "" → has_char newline msg = false →
  let line := format_record stamp (lvl, msg) in
  log_message line = msg ∧
  (∀ status_msg, parse_status_from_log line = Some (status_msg, "fail") →
     count_line cs line = mkCounters (total_checked cs + 1) (current_clean cs)) ∧
  (∀ status_msg, parse_status_from_log line = Some (status_msg, "pass") →
     count_line cs line = mkCounters (total_checked cs + 1) (current_clean cs + 1)) ∧
  (count_line cs line ≠ cs → is_Some (parse_status_from_log line)).
Proof.
  intros Hs Hne Hnl line.
  assert (Hmsg : log_message line = msg) by now apply log_message_record.
  assert (Hrej : str_in "FastQC found quality issues" line
                 = str_in "FastQC found quality issues" msg).
  { apply (record_marker "F" _ stamp (lvl, msg) Hs); reflexivity. }
  assert (Hacc : str_in "File passed quality check" line
                 = str_in "File passed quality check" msg).
  { apply (record_marker "F" _ stamp (lvl, msg) Hs); reflexivity. }
  split; [exact Hmsg |].
  unfold count_line, parse_status_from_log. rewrite Hmsg, Hrej, Hacc. cbv zeta.
  split; [| split].
  - intros status_msg. cascade; try discriminate; try reflexivity.
    destruct (search_progress msg) as [[current target]|]; discriminate.
  - intros status_msg. cascade; try discriminate; try reflexivity.
    destruct (search_progress msg) as [[current target]|]; discriminate.
  - cascade; intros Hmoved; eauto; try congruence.
Qed.

Lemma shown_verdicts_are_counted_witness :
  let line := format_record "2025-02-21 00:46:00,123"
                (INFO, "FastQC found quality issues in SRR3.fastq.gz: FAIL") in
  log_message line = "FastQC found quality issues in SRR3.fastq.gz: FAIL" ∧
  (∀ status_msg, parse_status_from_log line = Some (status_msg, "fail") →
     count_line (mkCounters 4 2) line
     = mkCounters (total_checked (mkCounters 4 2) + 1) (current_clean (mkCounters 4 2))) ∧
  (∀ status_msg, parse_status_from_log line = Some (status_msg, "pass") →
     count_line (mkCounters 4 2) line
     = mkCounters (total_checked (mkCounters 4 2) + 1)
                  (current_clean (mkCounters 4 2) + 1)) ∧
  (count_line (mkCounters 4 2) line ≠ mkCounters 4 2 →
   is_Some (parse_status_from_log line)).
Proof.
  apply (shown_verdicts_are_counted "2025-02-21 00:46:00,123" INFO
           "FastQC found quality issues in SRR3.fastq.gz: FAIL" (mkCounters 4 2)).
  - reflexivity.
  - discriminate.
  - reflexivity.
Defined.

End ShownAndCounted.

Section Milestones.

Lemma str_in_startswith (m s : string) : startswith s m = true → str_in m s = true.
Proof. intros H. destruct s; cbn [str_in]; rewrite H; reflexivity. Qed.

Lemma str_in_app_r (a X m : string) : str_in m X = true → str_in m (a +:+ X) = true.
Proof.
  intros H. induction a as [|c a IH]; [exact H |].
  rewrite append_cons. cbn [str_in]. rewrite IH. apply orb_true_r.
Qed.

Lemma search_progress_here (s : string) (groups : string * string) :
  progress_here s = Some groups → search_progress s = Some groups.
Proof. intros H. destruct s; cbn [search_progress]; rewrite H; reflexivity. Qed.

Lemma search_progress_skip (a X : string) :
  has_char "C" a = false → search_progress (a +:+ X) = search_progress X.
Proof.
  induction a as [|c a IH]; intros Ha; [reflexivity |].
  simpl in Ha. apply orb_false_iff in Ha as [Hc Ha].
  rewrite append_cons. cbn [search_progress].
  assert (Hhere : progress_here (String c (a +:+ X)) = None).
  { unfold progress_here. simpl. now rewrite Hc. }
  rewrite Hhere. now apply IH.
Qed.

(** The text of the progress record of [main] *)
Definition progress_text (count target : Z) : string :=
  "Clean datasets collected: " +:+ pretty count +:+ "/" +:+ pretty target.

Lemma progress_here_text (count target : Z) :
  0 ≤ count → 0 ≤ target →
  progress_here (progress_text count target) = Some (pretty count, pretty target).
Proof.
  intros Hc Ht.
  destruct (numeral count Hc) as (Hc1 & Hc2 & _).
  destruct (numeral target Ht) as (Ht1 & Ht2 & _).
  unfold progress_here, progress_text. rewrite strip_prefix_append.
  rewrite (span_every is_digit (pretty count) ("/" +:+ pretty target) Hc1 eq_refl).
  destruct (String.eqb_spec (pretty count) "") as [E|_]; [congruence |].
  rewrite strip_prefix_append.
  rewrite <- (append_empty_r (pretty target)) at 1.
  rewrite (span_every is_digit (pretty target) "" Ht1 eq_refl).
  destruct (String.eqb_spec (pretty target) "") as [E|_]; [congruence | reflexivity].
Qed.

(** A marker that starts with a letter is not in a text made of a fixed
    part, a numeral, a fixed part, a numeral and a fixed part. *)
Lemma marker_not_in_numbers (c : ascii) (m0 P Q R : string) (x y : Z) :
  has_char c "0123456789-" = false →
  suffix_residuals P (String c m0) = [] →
  suffix_residuals Q (String c m0) = [] →
  str_in (String c m0) R = false →
  str_in (String c m0) (P +:+ pretty x +:+ Q +:+ pretty y +:+ R) = false.
Proof.
  intros Hc HP HQ HR.
  rewrite (str_in_fixed P _ _ HP).
  rewrite (str_in_skip c m0 (pretty x) _ (has_char_pretty_Z c x Hc)).
  rewrite (str_in_fixed Q _ _ HQ).
  rewrite (str_in_skip c m0 (pretty y) _ (has_char_pretty_Z c y Hc)).
  exact HR.
Qed.

Lemma progress_text_plain (count target : Z) :
  progress_text count target ≠ "" ∧ has_char newline (progress_text count target) = false.
Proof.
  unfold progress_text. split; [discriminate |].
  rewrite !has_char_append, !has_char_pretty_Z by reflexivity. reflexivity.
Qed.

Ltac no_marker :=
  match goal with
  | |- context [str_in ?m (progress_text ?x ?y)] =>
      let H := fresh "Hno" in
      assert (H : str_in m (progress_text x y) = false)
        by (unfold progress_text; rewrite <- (append_empty_r (pretty y));
            apply (marker_not_in_numbers _ _ "Clean datasets collected: " "/" "" x y);
            reflexivity);
      rewrite H; clear H
  end.

(** X17. The progress record of [main] read by the monitor: [parse_log_line]
    returns the two numbers that [main] wrote, and the line is shown as
    progress with the same two numbers. *)
Theorem progress_is_read_back (stamp : string) (count target : Z) :
  is_asctime stamp → 0 ≤ count → 0 ≤ target →
  let line := format_record stamp (INFO, progress_text count target) in
  parse_log_line line = Some (count, target) ∧
  parse_status_from_log line =
    Some ("📊 Progress: " +:+ pretty count +:+ "/" +:+ pretty target +:+ " clean datasets",
          "progress").
Proof.
  intros Hs Hc Ht line.
  destruct (progress_text_plain count target) as [Hne Hnl].
  assert (Hsearch : search_progress (progress_text count target)
                    = Some (pretty count, pretty target)).
  { apply search_progress_here. now apply progress_here_text. }
  split.
  - unfold parse_log_line.
    change line with (stamp +:+ " - INFO - " +:+ progress_text count target).
    assert (Hin : str_in "Clean datasets collected:"
                    (stamp +:+ " - INFO - " +:+ progress_text count target) = true).
    { apply str_in_app_r. apply str_in_app_r. apply str_in_startswith. reflexivity. }
    rewrite Hin.
    rewrite (search_progress_skip stamp _ (asctime_chars "C" stamp Hs eq_refl)).
    rewrite (search_progress_skip " - INFO - " _ eq_refl), Hsearch.
    destruct (numeral count Hc) as (_ & _ & ->).
    destruct (numeral target Ht) as (_ & _ & ->). reflexivity.
  - unfold parse_status_from_log, line.
    rewrite (log_message_record stamp INFO _ Hs Hne Hnl). cbv zeta.
    repeat no_marker. cbn [andb].
    assert (Hin : str_in "Clean datasets collected:" (progress_text count target) = true)
      by (apply str_in_startswith; reflexivity).
    rewrite Hin, Hsearch. reflexivity.
Qed.

Lemma progress_is_read_back_witness :
  let line := format_record "2025-02-21 00:46:00,123" (INFO, progress_text 3 10) in
  parse_log_line line = Some (3, 10) ∧
  parse_status_from_log line =
    Some ("📊 Progress: " +:+ pretty 3 +:+ "/" +:+ pretty 10 +:+ " clean datasets",
          "progress").
Proof.
  apply (progress_is_read_back "2025-02-21 00:46:00,123" 3 10).
  - reflexivity.
  - lia.
  - lia.
Defined.

End Milestones.

Section ShownMilestones.

(** Some non-empty run of accession characters at the start of [m] can be
    followed by [T] to give the rest of [m]. *)
Fixpoint overlaps (T m : string) : bool :=
  match m with
  | EmptyString => false
  | String y m' => accession_char y && (startswith T m' || overlaps T m')
  end.

Lemma startswith_overlaps (T m : string) :
  ∀ id, accession id = true → id ≠ "" → m ≠ "" →
        startswith (id +:+ T) m = true → overlaps T m = true.
Proof.
  induction m as [|y m IH]; intros id Hid Hne Hm; [congruence |].
  destruct id as [|x r]; [congruence |].
  simpl in Hid. apply andb_true_iff in Hid as [Hx Hr].
  rewrite append_cons. simpl.
  destruct (Ascii.eqb_spec y x) as [->|]; [| discriminate].
  intros Hrest. rewrite Hx. simpl.
  destruct r as [|x' r'].
  - rewrite append_nil in Hrest. now rewrite Hrest.
  - destruct m as [|y' m'].
    + destruct T; reflexivity.
    + rewrite (IH (String x' r') Hr) by (try discriminate; exact Hrest).
      apply orb_true_r.
Qed.

(** An accession in front of [T] adds no occurrence of [m]. *)
Lemma str_in_accession (id T m : string) :
  m ≠ "" → accession id = true → overlaps T m = false →
  str_in m (id +:+ T) = str_in m T.
Proof.
  intros Hm Hid Hov. induction id as [|x r IH]; [reflexivity |].
  assert (Hr : accession r = true) by (simpl in Hid; now apply andb_true_iff in Hid as [_ ?]).
  rewrite append_cons. cbn [str_in]. rewrite (IH Hr).
  rewrite <- append_cons.
  destruct (startswith (String x r +:+ T) m) eqn:Hs; [| reflexivity].
  rewrite (startswith_overlaps T m (String x r) Hid) in Hov; try discriminate; assumption.
Qed.

Lemma marker_not_in_number (c : ascii) (m0 P R : string) (x : Z) :
  has_char c "0123456789-" = false →
  suffix_residuals P (String c m0) = [] →
  str_in (String c m0) R = false →
  str_in (String c m0) (P +:+ pretty x +:+ R) = false.
Proof.
  intros Hc HP HR.
  rewrite (str_in_fixed P _ _ HP).
  rewrite (str_in_skip c m0 (pretty x) _ (has_char_pretty_Z c x Hc)).
  exact HR.
Qed.

(** The texts of four records of the pipeline *)
Definition start_text (search_term : string) (num_clean_datasets : Z) : string :=
  "Starting download process for term: " +:+ search_term +:+ ", target: " +:+
  pretty num_clean_datasets +:+ " clean datasets".

Definition completion_text (count : Z) : string :=
  "Process completed. Collected " +:+ pretty count +:+ " clean datasets".

Definition accept_text (sra_id : string) : string :=
  "File passed quality check and copied to clean dataset folder: " +:+ clean_path sra_id.

Definition reject_text (sra_id detail : string) : string :=
  "FastQC found quality issues in " +:+ os_path_basename (blob_path sra_id) +:+ ": " +:+
  detail.

(** The markers the monitor looks for before the two verdicts *)
Definition earlier_markers : list string :=
  ["Starting download process for term:"; "Searching SRA database"; "Run info list:";
   "Downloading"; "Running FastQC:"].

Lemma accept_text_eq (sra_id : string) :
  accession sra_id = true →
  accept_text sra_id =
    "File passed quality check and copied to clean dataset folder: clean_datasets/" +:+
    sra_id +:+ ".fastq.gz".
Proof.
  intros Hid. unfold accept_text.
  rewrite (clean_path_eq sra_id (accession_no_slash sra_id Hid)). reflexivity.
Qed.

Lemma reject_text_eq (sra_id detail : string) :
  accession sra_id = true →
  reject_text sra_id detail =
    "FastQC found quality issues in " +:+ sra_id +:+ ".fastq.gz: " +:+ detail.
Proof.
  intros Hid. unfold reject_text.
  rewrite (basename_blob sra_id (accession_no_slash sra_id Hid)).
  unfold blob_name. rewrite append_assoc. reflexivity.
Qed.

Ltac absent_from_accept Hid :=
  match goal with
  | |- context [str_in ?m (?P +:+ ?id +:+ ".fastq.gz")] =>
      let H := fresh "Hno" in
      assert (H : str_in m (P +:+ id +:+ ".fastq.gz") = false)
        by (rewrite (str_in_fixed P _ m eq_refl);
            rewrite (str_in_accession id ".fastq.gz" m) by (try discriminate; auto);
            reflexivity);
      rewrite H; clear H
  end.

Ltac absent_from_completion :=
  match goal with
  | |- context [str_in ?m (completion_text ?x)] =>
      let H := fresh "Hno" in
      assert (H : str_in m (completion_text x) = false)
        by (unfold completion_text;
            apply (marker_not_in_number _ _ "Process completed. Collected "
                     " clean datasets" x); reflexivity);
      rewrite H; clear H
  end.

(** X18. Four records of the pipeline as the monitor shows them, each written
    by the logger with an [asctime] stamp: the opening record is shown as
    the start, with its text; the closing record as completion; the record
    of an accepted accession as a passed quality check; and the record of a
    rejected accession as a failed quality check, provided the summary line
    it quotes holds none of the markers the monitor looks for first. *)
Theorem milestones_are_shown (stamp search_term sra_id detail : string)
    (num_clean_datasets count : Z) :
  is_asctime stamp →
  (has_char newline search_term = false →
   parse_status_from_log
     (format_record stamp (INFO, start_text search_term num_clean_datasets))
   = Some ("🚀 Starting download process..." +:+
           String newline (" " +:+ start_text search_term num_clean_datasets), "start"))
  ∧ parse_status_from_log (format_record stamp (INFO, completion_text count))
    = Some ("✨ Process completed", "complete")
  ∧ (accession sra_id = true →
     parse_status_from_log (format_record stamp (INFO, accept_text sra_id))
     = Some ("✅ Dataset passed quality check", "pass"))
  ∧ (accession sra_id = true →
     has_char newline detail = false →
     Forall (λ m, str_in m detail = false) earlier_markers →
     parse_status_from_log (format_record stamp (INFO, reject_text sra_id detail))
     = Some ("❌ Dataset failed quality check", "fail")).
Proof.
  intros Hs. split; [| split; [| split]].
  - intros Hterm. unfold parse_status_from_log.
    rewrite (log_message_record stamp INFO _ Hs).
    + cbv zeta.
      assert (Hin : str_in "Starting download process for term:"
                      (start_text search_term num_clean_datasets) = true)
        by (apply str_in_startswith; reflexivity).
      rewrite Hin. reflexivity.
    + discriminate.
    + unfold start_text. rewrite !has_char_append, Hterm.
      rewrite has_char_pretty_Z by reflexivity. reflexivity.
  - unfold parse_status_from_log.
    rewrite (log_message_record stamp INFO _ Hs).
    + cbv zeta. repeat absent_from_completion. cbn [andb].
      assert (Hin : str_in "Process completed" (completion_text count) = true)
        by (apply str_in_startswith; reflexivity).
      rewrite Hin. reflexivity.
    + discriminate.
    + unfold completion_text. rewrite !has_char_append.
      rewrite has_char_pretty_Z by reflexivity. reflexivity.
  - intros Hid. unfold parse_status_from_log.
    rewrite (log_message_record stamp INFO _ Hs).
    + cbv zeta. rewrite (accept_text_eq sra_id Hid).
      repeat absent_from_accept Hid. cbn [andb].
      assert (Hin : str_in "File passed quality check"
                      ("File passed quality check and copied to clean dataset folder: clean_datasets/"
                       +:+ sra_id +:+ ".fastq.gz") = true)
        by (apply str_in_startswith; reflexivity).
      rewrite Hin. reflexivity.
    + rewrite (accept_text_eq sra_id Hid). discriminate.
    + rewrite (accept_text_eq sra_id Hid). rewrite !has_char_append.
      rewrite (accession_has_char newline sra_id eq_refl Hid). reflexivity.
  - intros Hid Hnl Hdetail. unfold parse_status_from_log.
    assert (Hm : ∀ m, str_in m detail = false → m ≠ "" →
                 suffix_residuals "FastQC found quality issues in " m = [] →
                 overlaps (".fastq.gz: " +:+ detail) m = false →
                 suffix_residuals ".fastq.gz: " m = [] →
                 str_in m ("FastQC found quality issues in " +:+ sra_id +:+
                           ".fastq.gz: " +:+ detail) = false).
    { intros m Hin Hne H1 H2 H3.
      rewrite (str_in_fixed _ _ m H1).
      rewrite (str_in_accession sra_id _ m Hne Hid H2).
      rewrite (str_in_fixed _ _ m H3). exact Hin. }
    unfold earlier_markers in Hdetail.
    apply Forall_cons in Hdetail as [Hd1 Hdetail].
    apply Forall_cons in Hdetail as [Hd2 Hdetail].
    apply Forall_cons in Hdetail as [Hd3 Hdetail].
    apply Forall_cons in Hdetail as [Hd4 Hdetail].
    apply Forall_cons in Hdetail as [Hd5 _].
    rewrite (log_message_record stamp INFO _ Hs).
    + cbv zeta. rewrite (reject_text_eq sra_id detail Hid).
      rewrite (Hm _ Hd1) by (try discriminate; reflexivity).
      rewrite (Hm _ Hd2) by (try discriminate; reflexivity).
      rewrite (Hm _ Hd3) by (try discriminate; reflexivity).
      rewrite (Hm _ Hd4) by (try discriminate; reflexivity).
      rewrite (Hm _ Hd5) by (try discriminate; reflexivity).
      cbn [andb].
      assert (Hin : str_in "FastQC found quality issues"
                      ("FastQC found quality issues in " +:+ sra_id +:+ ".fastq.gz: "
                       +:+ detail) = true)
        by (apply str_in_startswith; reflexivity).
      rewrite Hin. reflexivity.
    + rewrite (reject_text_eq sra_id detail Hid). discriminate.
    + rewrite (reject_text_eq sra_id detail Hid). rewrite !has_char_append.
      rewrite (accession_has_char newline sra_id eq_refl Hid), Hnl. reflexivity.
Qed.

Lemma milestones_are_shown_witness :
  (has_char newline "cancer" = false →
   parse_status_from_log
     (format_record "2025-02-21 00:46:00,123" (INFO, start_text "cancer" 5))
   = Some ("🚀 Starting download process..." +:+
           String newline (" " +:+ start_text "cancer" 5), "start"))
  ∧ parse_status_from_log (format_record "2025-02-21 00:46:00,123" (INFO, completion_text 5))
    = Some ("✨ Process completed", "complete")
  ∧ (accession "SRR1" = true →
     parse_status_from_log (format_record "2025-02-21 00:46:00,123" (INFO, accept_text "SRR1"))
     = Some ("✅ Dataset passed quality check", "pass"))
  ∧ (accession "SRR1" = true →
     has_char newline "FAIL: Per base sequence quality" = false →
     Forall (λ m, str_in m "FAIL: Per base sequence quality" = false) earlier_markers →
     parse_status_from_log
       (format_record "2025-02-21 00:46:00,123"
          (INFO, reject_text "SRR1" "FAIL: Per base sequence quality"))
     = Some ("❌ Dataset failed quality check", "fail")).
Proof.
  apply (milestones_are_shown "2025-02-21 00:46:00,123" "cancer" "SRR1"
           "FAIL: Per base sequence quality" 5 5).
  reflexivity.
Defined.

End ShownMilestones.

Section EventStyles.

(** A time of day as ['%H:%M:%S'] formats it *)
Definition clock_pieces : list Piece := [Digits 2; Lit ":"; Digits 2; Lit ":"; Digits 2].

Definition is_clock_time (timestamp : string) : Prop :=
  match_pieces clock_pieces timestamp = Some "".

Lemma clock_chars (c : ascii) (timestamp : string) :
  is_clock_time timestamp → has_char c "0123456789:" = false →
  has_char c timestamp = false.
Proof.
  intros Hs Hc.
  change "0123456789:" with ("0123456789" +:+ ":") in Hc.
  rewrite has_char_append in Hc. apply orb_false_iff in Hc as [Hd Hcolon].
  simpl in Hcolon. apply orb_false_iff in Hcolon as [Hcolon _].
  rewrite (match_pieces_chars c clock_pieces timestamp "" Hd); [reflexivity | | exact Hs].
  simpl. now rewrite Hcolon.
Qed.

Lemma clock_is_no_asctime (timestamp X : string) :
  is_clock_time timestamp → message_group (timestamp +:+ X) = None.
Proof.
  unfold is_clock_time, clock_pieces. cbn [match_pieces]. intros Hs.
  destruct (exactly is_digit 2 timestamp) as [r|] eqn:H2; [| discriminate].
  destruct (strip_prefix ":" r) as [r'|] eqn:H3; [| discriminate].
  destruct timestamp as [|a [|b r0]]; cbn [exactly] in H2; try discriminate.
  - destruct (is_digit a); discriminate.
  - destruct (is_digit a) eqn:Ha; [| discriminate].
    destruct (is_digit b) eqn:Hb; [| discriminate].
    injection H2 as ->.
    destruct r as [|c r1]; cbn [strip_prefix] in H3; [discriminate |].
    destruct (Ascii.eqb_spec ":" c) as [<-|]; [| discriminate].
    unfold message_group, after_timestamp, asctime_pieces.
    rewrite !append_cons. cbn [match_pieces exactly]. rewrite Ha, Hb.
    change (is_digit ":") with false. reflexivity.
Qed.

Lemma event_marker (c : ascii) (m0 timestamp X : string) :
  is_clock_time timestamp → has_char c "0123456789:" = false →
  str_in (String c m0) (timestamp +:+ X) = str_in (String c m0) X.
Proof. intros Hs Hc. apply str_in_skip. now apply clock_chars. Qed.

Lemma startswith_app_l (a X m : string) :
  startswith a m = true → startswith (a +:+ X) m = true.
Proof.
  revert a. induction m as [|y m IH]; intros a; [reflexivity |].
  destruct a as [|x a]; [discriminate |]. rewrite append_cons. simpl.
  destruct (Ascii.eqb y x); [apply IH | discriminate].
Qed.

Lemma str_in_app_l (a X m : string) : str_in m a = true → str_in m (a +:+ X) = true.
Proof.
  induction a as [|x a IH].
  - simpl. rewrite orb_false_r. intros H. destruct m; [| discriminate].
    destruct X; reflexivity.
  - cbn [str_in]. intros H. rewrite append_cons. cbn [str_in].
    apply orb_true_iff in H as [H|H].
    + rewrite <- append_cons. rewrite (startswith_app_l _ X m H). reflexivity.
    + rewrite (IH H). apply orb_true_r.
Qed.

Lemma every_has_char (p : ascii → bool) (c : ascii) (s : string) :
  p c = false → every p s = true → has_char c s = false.
Proof.
  intros Hc. induction s as [|x s IH]; [reflexivity |].
  simpl. intros H. apply andb_true_iff in H as [Hx Hs].
  rewrite (IH Hs). destruct (Ascii.eqb_spec c x) as [->|]; [congruence | reflexivity].
Qed.

Lemma span_run (p : ascii → bool) (s run rest : string) :
  span p s = (run, rest) → every p run = true.
Proof.
  revert run rest. induction s as [|c s IH]; intros run rest; simpl.
  - intros [= <- <-]. reflexivity.
  - destruct (p c) eqn:Hc.
    + destruct (span p s) as [run' rest'] eqn:Hs. intros [= <- <-].
      simpl. rewrite Hc. now apply (IH run' rest').
    + intros [= <- <-]. reflexivity.
Qed.

Lemma progress_here_digits (s current target : string) :
  progress_here s = Some (current, target) →
  every is_digit current = true ∧ every is_digit target = true.
Proof.
  unfold progress_here.
  destruct (strip_prefix "Clean datasets collected: " s) as [r|]; [| discriminate].
  destruct (span is_digit r) as [cur r1] eqn:H1.
  destruct (String.eqb cur ""); [discriminate |].
  destruct (strip_prefix "/" r1) as [r2|]; [| discriminate].
  destruct (span is_digit r2) as [tgt r3] eqn:H2.
  destruct (String.eqb tgt ""); [discriminate |].
  intros [= <- <-]. split; [eapply span_run | eapply span_run]; eassumption.
Qed.

Lemma search_progress_digits (s current target : string) :
  search_progress s = Some (current, target) →
  every is_digit current = true ∧ every is_digit target = true.
Proof.
  induction s as [|c s IH]; cbn [search_progress].
  - destruct (progress_here "") as [[cur tgt]|] eqn:H; [| discriminate].
    intros [= <- <-]. now apply (progress_here_digits "").
  - destruct (progress_here (String c s)) as [[cur tgt]|] eqn:H.
    + intros [= <- <-]. now apply (progress_here_digits (String c s)).
    + exact IH.
Qed.

End EventStyles.

Section EventStyleExtras.

Lemma event_log_message (timestamp X : string) :
  is_clock_time timestamp → log_message (timestamp +:+ X) = timestamp +:+ X.
Proof. intros Hc. unfold log_message. now rewrite clock_is_no_asctime. Qed.

Lemma marker_not_in_digits (c : ascii) (m0 P Q R x y : string) :
  is_digit c = false → every is_digit x = true → every is_digit y = true →
  suffix_residuals P (String c m0) = [] →
  suffix_residuals Q (String c m0) = [] →
  str_in (String c m0) R = false →
  str_in (String c m0) (P +:+ x +:+ Q +:+ y +:+ R) = false.
Proof.
  intros Hc Hx Hy HP HQ HR.
  rewrite (str_in_fixed P _ _ HP).
  rewrite (str_in_skip c m0 x _ (every_has_char is_digit c x Hc Hx)).
  rewrite (str_in_fixed Q _ _ HQ).
  rewrite (str_in_skip c m0 y _ (every_has_char is_digit c y Hc Hy)).
  exact HR.
Qed.

Ltac event_tests Hc :=
  repeat match goal with
         | |- context [str_in (String ?c ?m0) (?ts +:+ ?K)] =>
             rewrite (event_marker c m0 ts K Hc eq_refl)
         end.

Ltac open_event Hc :=
  unfold event_class, parse_status_from_log;
  rewrite event_log_message by exact Hc; cbv zeta; event_tests Hc.

Ltac reshape M K' :=
  match goal with
  | |- context [str_in M ?K] => change K with K'
  end.

Ltac not_that_type Hin :=
  exfalso; clear - Hin; simpl in Hin; intuition discriminate.

(** X19. How the recent events are drawn.  An event is the time of day, a dash
    and the status message of a line, and its style class is found by
    reading the event as if it were a log line.  The events of the start,
    of a search and of the completion get their class; the events of
    retrieved run information, of a running, a failed or a passed quality
    check and of progress are drawn without any: their messages hold none
    of the texts the monitor looks for. *)
Theorem event_styles (timestamp line status_msg status_type : string) :
  is_clock_time timestamp →
  parse_status_from_log line = Some (status_msg, status_type) →
  let event := timestamp +:+ " - " +:+ status_msg in
  (In status_type ["info"; "analysis"; "fail"; "pass"; "progress"] →
   event_class event = "event-box") ∧
  (In status_type ["start"; "search"; "complete"] →
   event_class event = "event-box " +:+ status_type).
Proof.
  intros Hc Hp. cbv zeta.
  unfold parse_status_from_log in Hp. cbv zeta in Hp.
  set (msg := log_message line) in Hp.
  destruct (str_in "Starting download process for term:" msg) eqn:H1.
  { injection Hp as <- <-. split; intros Hin; [not_that_type Hin |].
    open_event Hc.
    reshape "Starting download process for term:"
            ((" - 🚀 Starting download process..." +:+ String newline " ") +:+ msg).
    rewrite (str_in_app_r _ msg _ H1). reflexivity. }
  destruct (str_in "Searching SRA database" msg) eqn:H2.
  { injection Hp as <- <-. split; intros Hin; [not_that_type Hin |].
    open_event Hc.
    reshape "Starting download process for term:"
            ((" - 🔍 Searching SRA database..." +:+ String newline " ") +:+ msg).
    rewrite (str_in_fixed (" - 🔍 Searching SRA database..." +:+ String newline " ") msg
               "Starting download process for term:" eq_refl), H1.
    rewrite (str_in_app_r _ msg _ H2). reflexivity. }
  destruct (str_in "Run info list:" msg) eqn:H3.
  { injection Hp as <- <-. split; intros Hin; [| not_that_type Hin].
    open_event Hc. reflexivity. }
  destruct (str_in "Downloading" msg && str_in ".fastq.gz" msg) eqn:H4.
  { injection Hp as <- <-. split; intros Hin; not_that_type Hin. }
  destruct (str_in "Running FastQC:" msg) eqn:H5.
  { injection Hp as <- <-. split; intros Hin; [| not_that_type Hin].
    open_event Hc. reflexivity. }
  destruct (str_in "FastQC found quality issues" msg) eqn:H6.
  { injection Hp as <- <-. split; intros Hin; [| not_that_type Hin].
    open_event Hc. reflexivity. }
  destruct (str_in "File passed quality check" msg) eqn:H7.
  { injection Hp as <- <-. split; intros Hin; [| not_that_type Hin].
    open_event Hc. reflexivity. }
  destruct (str_in "Clean datasets collected:" msg) eqn:H8.
  { destruct (search_progress msg) as [[current target]|] eqn:Hs; [| discriminate].
    injection Hp as <- <-. split; intros Hin; [| not_that_type Hin].
    destruct (search_progress_digits msg current target Hs) as [Hcur Htgt].
    open_event Hc.
    reshape "Starting download process for term:"
            (" - 📊 Progress: " +:+ current +:+ "/" +:+ target +:+ " clean datasets").
    repeat match goal with
           | |- context [str_in (String ?c ?m0)
                           (" - 📊 Progress: " +:+ current +:+ "/" +:+ target +:+
                            " clean datasets")] =>
               rewrite (marker_not_in_digits c m0 " - 📊 Progress: " "/" " clean datasets"
                          current target eq_refl Hcur Htgt eq_refl eq_refl eq_refl)
           end.
    reflexivity. }
  destruct (str_in "Process completed" msg) eqn:H9; [| discriminate].
  injection Hp as <- <-. split; intros Hin; [not_that_type Hin |].
  open_event Hc. reflexivity.
Qed.

Lemma event_styles_witness :
  let event := "12:00:01" +:+ " - " +:+ "❌ Dataset failed quality check" in
  (In "fail" ["info"; "analysis"; "fail"; "pass"; "progress"] →
   event_class event = "event-box") ∧
  (In "fail" ["start"; "search"; "complete"] →
   event_class event = "event-box " +:+ "fail").
Proof.
  apply (event_styles "12:00:01"
           "2025-02-21 00:46:00,123 - INFO - FastQC found quality issues in SRR3.fastq.gz: FAIL"
           "❌ Dataset failed quality check" "fail").
  - reflexivity.
  - vm_compute. reflexivity.
Defined.

End EventStyleExtras.
